(** * DocSIgn: signature placement and document embedding

    A shallow embedding of the signature editor of the repository
    ([src/src/components/SignatureEditor.tsx] and its near-duplicate
    [src/unnamed/part_003]) and the properties of its annotation store,
    its drag handlers, its colour conversion and its save operation.

    - JavaScript numbers are IEEE 754 binary64 values: they are modelled by
      Rocq's primitive [float], whose operations are the binary64 ones with
      rounding to nearest even, so that a division by zero yields an
      infinity or a NaN exactly as in the program.
    - JavaScript strings are modelled by [string]; each [ascii] stands for
      one code unit below 256 (the line terminators U+2028 and U+2029 and
      the Unicode spaces above U+00FF are outside this alphabet).
    - The React state cells are a record, and an event handler is a function
      from the state of the render it closes over to the next state.
    - [handleSave] is asynchronous and talks to the network, the PDF
      library, the storage bucket and the record store: it is a computation
      in a monad that records the trace of the events it causes and may
      throw; the answers of the outside are given by a record of functions,
      one per collaborator.  The calls to storage and to the record store
      return their error, as supabase-js does, and do not throw.

    [handleDownloadSignedPDF] is a computation of the same kind over a
    larger alphabet of events, with no [catch].  Of the rendering, the
    embedding has what decides which handler can run: the list the overlay
    shows, the options of the selectors, the buttons that are disabled or
    not rendered.  The viewer under the overlay and the dashboard that
    opens the editor are embedded in the same way. *)

From Stdlib Require Import ZArith List String Ascii Bool Lia.
From Stdlib Require Import Strings.Byte DecimalString.
From Stdlib Require Import DecimalPos DecimalZ.
From Stdlib Require Import Floats.
Import ListNotations.

Local Open Scope string_scope.
Local Open Scope list_scope.

(* ================================================================= *)
(** ** JavaScript built-ins used by the editor *)

Module JS.

(** The Number value of a mathematical integer (rounded to nearest even
    when it does not fit in 53 bits). *)
Definition Number_of_Z (z : Z) : float :=
  SF2Prim (binary_normalize prec emax z 0 false).

(** [Math.min(a, b)] for two arguments: NaN if either is NaN, and -0 is
    smaller than +0. *)
Definition Math_min (a b : float) : float :=
  if is_nan a || is_nan b then nan
  else match classify a, classify b with
       | PZero, NZero => b
       | _, _ => if (b <? a)%float then b else a
       end.

(** [Math.max(a, b)] for two arguments: NaN if either is NaN, and +0 is
    larger than -0. *)
Definition Math_max (a b : float) : float :=
  if is_nan a || is_nan b then nan
  else match classify a, classify b with
       | NZero, PZero => b
       | _, _ => if (a <? b)%float then b else a
       end.

(** Line terminators: what [.] in a regular expression does not match. *)
Definition isLineTerminator (c : ascii) : bool :=
  Ascii.eqb c "010" || Ascii.eqb c "013".

(** White space for [trim] and [parseInt]: TAB, VT, FF, SP, NBSP and the
    line terminators. *)
Definition isWhiteSpace (c : ascii) : bool :=
  Ascii.eqb c "009" || Ascii.eqb c "011" || Ascii.eqb c "012"
  || Ascii.eqb c " " || Ascii.eqb c "160" || isLineTerminator c.

Fixpoint trimStart (s : string) : string :=
  match s with
  | String c s' => if isWhiteSpace c then trimStart s' else s
  | EmptyString => EmptyString
  end.

Fixpoint rev_string (acc s : string) : string :=
  match s with
  | String c s' => rev_string (String c acc) s'
  | EmptyString => acc
  end.

Definition trimEnd (s : string) : string :=
  rev_string "" (trimStart (rev_string "" s)).

(** [s.trim()] *)
Definition trim (s : string) : string := trimEnd (trimStart s).

Fixpoint drop (n : nat) (s : string) : string :=
  match n, s with
  | S n', String _ s' => drop n' s'
  | _, _ => s
  end.

(** [s.replace(pattern, replacement)] with a string pattern: only the
    first occurrence is replaced. *)
Fixpoint replace (pattern replacement s : string) : string :=
  if String.prefix pattern s
  then (replacement ++ drop (String.length pattern) s)%string
  else match s with
       | String c s' => String c (replace pattern replacement s')
       | EmptyString => EmptyString
       end.

(** The successive matches of [/.{1,2}/g]: scanning from the left, a
    character that is not a line terminator starts a group, which takes
    the next character too when that is not a line terminator either. *)
Fixpoint groups_1_2 (s : string) : list string :=
  match s with
  | EmptyString => []
  | String c1 s1 =>
      if isLineTerminator c1 then groups_1_2 s1
      else match s1 with
           | EmptyString => [String c1 EmptyString]
           | String c2 s2 =>
               if isLineTerminator c2
               then String c1 EmptyString :: groups_1_2 s2
               else String c1 (String c2 EmptyString) :: groups_1_2 s2
           end
  end.

(** [s.match(/.{1,2}/g)]: the array of matches, or [null] ([None]) when
    there is none. *)
Definition match_1_2 (s : string) : option (list string) :=
  match groups_1_2 s with
  | [] => None
  | l => Some l
  end.

(** The value of a digit in radixes up to 36. *)
Definition digitValue (c : ascii) : option Z :=
  let n := Z.of_nat (nat_of_ascii c) in
  if (48 <=? n)%Z && (n <=? 57)%Z then Some (n - 48)%Z
  else if (97 <=? n)%Z && (n <=? 122)%Z then Some (n - 87)%Z
  else if (65 <=? n)%Z && (n <=? 90)%Z then Some (n - 55)%Z
  else None.

(** The longest prefix of radix-[R] digits, read as an integer; [None] when
    the prefix is empty. *)
Fixpoint digits (R : Z) (acc : option Z) (s : string) : option Z :=
  match s with
  | EmptyString => acc
  | String c s' =>
      match digitValue c with
      | Some d =>
          if (d <? R)%Z
          then digits R (Some (match acc with Some a => a * R + d | None => d end)%Z) s'
          else acc
      | None => acc
      end
  end.

Definition startsWith0x (s : string) : bool :=
  String.prefix "0x" s || String.prefix "0X" s.

(** [parseInt(string, radix)] *)
Definition parseInt (s : string) (radix : Z) : float :=
  let s1 := trimStart s in
  let negative := String.prefix "-" s1 in
  let s2 := if String.prefix "-" s1 || String.prefix "+" s1 then drop 1 s1 else s1 in
  if negb (radix =? 0)%Z && ((radix <? 2)%Z || (36 <? radix)%Z) then nan
  else
    let stripPrefix := (radix =? 0)%Z || (radix =? 16)%Z in
    let R0 := if (radix =? 0)%Z then 10%Z else radix in
    let '(R, s3) := if stripPrefix && startsWith0x s2 then (16%Z, drop 2 s2) else (R0, s2) in
    match digits R None s3 with
    | None => nan
    | Some n => if negative then (- Number_of_Z n)%float else Number_of_Z n
    end.

(** [n.toString()] for an integer [n]. *)
Definition toString (n : Z) : string := NilZero.string_of_int (Z.to_int n).

End JS.

(* ================================================================= *)
(** ** hexToRgb *)

(** The object [{ r, g, b }]; a channel is [None] when the destructured
    array element is [undefined]. *)
Module Rgb.
Record t := mk { r : option float; g : option float; b : option float }.
End Rgb.

(** [hexToRgb], the same in [handleSave] and [handleDownloadSignedPDF] of both
    files. *)
Definition hexToRgb (hex : string) : Rgb.t :=
  match JS.match_1_2 (JS.replace "#" "" hex) with
  | None => Rgb.mk (Some 0%float) (Some 0%float) (Some 0%float)
  | Some m =>
      let l := map (fun x => (JS.parseInt x 16 / 255)%float) m in
      Rgb.mk (nth_error l 0) (nth_error l 1) (nth_error l 2)
  end.


(* ================================================================= *)
(** ** Data of the editor *)

(** [interface Signature]; the page is one of the integers offered by the
    page selector. *)
Module Signature.
Record t := mk {
  id : string;
  text : string;
  font : string;
  fontSize : float;
  color : string;
  x : float;
  y : float;
  page : Z
}.

(** [Partial<Signature>]: an absent key is [None]. *)
Record partial := mkPartial {
  id' : option string;
  text' : option string;
  font' : option string;
  fontSize' : option float;
  color' : option string;
  x' : option float;
  y' : option float;
  page' : option Z
}.

Definition or_else {A : Type} (o : option A) (a : A) : A :=
  match o with Some v => v | None => a end.

(** [{ ...sig, ...updates }] *)
Definition spread (sig : t) (updates : partial) : t :=
  mk (or_else (id' updates) (id sig))
     (or_else (text' updates) (text sig))
     (or_else (font' updates) (font sig))
     (or_else (fontSize' updates) (fontSize sig))
     (or_else (color' updates) (color sig))
     (or_else (x' updates) (x sig))
     (or_else (y' updates) (y sig))
     (or_else (page' updates) (page sig)).

(** [{ x: newX, y: newY }] *)
Definition position (newX newY : float) : partial :=
  mkPartial None None None None None (Some newX) (Some newY) None.
End Signature.

(** [type Document] of [lib/supabase] ([src/unnamed/part_005]). *)
Module Document.
Inductive Status := unsigned | signed.

Record t := mk {
  id : string;
  user_id : string;
  name : string;
  original_url : string;
  signed_url : option string;
  status : Status;
  created_at : string;
  updated_at : string
}.
End Document.

(** What [getBoundingClientRect()] returns. *)
Module DOMRect.
Record t := mk { left : float; top : float; width : float; height : float }.
End DOMRect.

Module MouseEvent.
Record t := mk { clientX : float; clientY : float }.
End MouseEvent.

Module TouchEvent.
Record Touch := mkTouch { clientX : float; clientY : float }.
Record t := mk { touches : list Touch }.
End TouchEvent.

(** A truthy value of [FONT_FILE_MAP[font]]: the path of an own key, or
    what [Object.prototype] has under the key. *)
Inductive FontUrl :=
| Path (path : string)
| Inherited (key : string).

(** The keys an object literal inherits from [Object.prototype]: eleven
    functions and the accessor [__proto__], which yields the prototype. *)
Definition Object_prototype : list string :=
  ["constructor"; "hasOwnProperty"; "isPrototypeOf"; "propertyIsEnumerable";
   "toLocaleString"; "toString"; "valueOf";
   "__defineGetter__"; "__defineSetter__"; "__lookupGetter__"; "__lookupSetter__";
   "__proto__"].

(** [FONT_FILE_MAP[font]], when it is truthy.  The map is an object
    literal: four own keys have a TTF file path, two have [undefined], a
    key of [Object.prototype] is found there, and any other key is
    [undefined]. *)
Definition FONT_FILE_MAP (font : string) : option FontUrl :=
  if String.eqb font "Great Vibes, cursive" then Some (Path "/fonts/GreatVibes-Regular.ttf")
  else if String.eqb font "Pacifico, cursive" then Some (Path "/fonts/Pacifico-Regular.ttf")
  else if String.eqb font "Satisfy, cursive" then Some (Path "/fonts/Satisfy-Regular.ttf")
  else if String.eqb font "Brush Script MT, cursive" then Some (Path "/fonts/BrushScriptMT.ttf")
  else if String.eqb font "Arial, sans-serif" then None
  else if String.eqb font "Times New Roman, serif" then None
  else if existsb (String.eqb font) Object_prototype then Some (Inherited font)
  else None.

(** The [useState] cells of the component. *)
Module State.
Record t := mk {
  signatures : list Signature.t;
  selectedSignature : option Signature.t;
  isDragging : bool;
  dragOffset : float * float;
  signatureText : string;
  selectedFont : string;
  selectedColor : string;
  fontSize : float;
  selectedPage : Z;
  numPages : Z
}.

(** The initial render: no signature, first font and colour option. *)
Definition initial : t :=
  mk [] None false (0%float, 0%float) "" "Great Vibes, cursive" "#1e40af"
     24%float 1%Z 1%Z.

Definition setSignatures (v : list Signature.t) (st : t) : t :=
  mk v (selectedSignature st) (isDragging st) (dragOffset st) (signatureText st)
     (selectedFont st) (selectedColor st) (fontSize st) (selectedPage st) (numPages st).

Definition setSelectedSignature (v : option Signature.t) (st : t) : t :=
  mk (signatures st) v (isDragging st) (dragOffset st) (signatureText st)
     (selectedFont st) (selectedColor st) (fontSize st) (selectedPage st) (numPages st).

Definition setIsDragging (v : bool) (st : t) : t :=
  mk (signatures st) (selectedSignature st) v (dragOffset st) (signatureText st)
     (selectedFont st) (selectedColor st) (fontSize st) (selectedPage st) (numPages st).

Definition setDragOffset (v : float * float) (st : t) : t :=
  mk (signatures st) (selectedSignature st) (isDragging st) v (signatureText st)
     (selectedFont st) (selectedColor st) (fontSize st) (selectedPage st) (numPages st).

Definition setSignatureText (v : string) (st : t) : t :=
  mk (signatures st) (selectedSignature st) (isDragging st) (dragOffset st) v
     (selectedFont st) (selectedColor st) (fontSize st) (selectedPage st) (numPages st).
End State.

(* ================================================================= *)
(** ** The annotation store and the drag handlers

    These functions are textually the same in [SignatureEditor.tsx] and in
    [part_003].  A handler is a function from the state of the render it
    closes over to the state after its updates. *)

(** [addSignature]; [now] is the value of [Date.now()]. *)
Definition addSignature (now : Z) (st : State.t) : State.t :=
  if String.eqb (JS.trim (State.signatureText st)) "" then st
  else
    let newSignature :=
      Signature.mk (JS.toString now) (State.signatureText st) (State.selectedFont st)
                   (State.fontSize st) (State.selectedColor st)
                   100%float 100%float (State.selectedPage st) in
    State.setSignatureText ""
      (State.setSignatures (State.signatures st ++ [newSignature]) st).

(** [selectedSignature?.id === id] *)
Definition selected_is (id : string) (st : State.t) : bool :=
  match State.selectedSignature st with
  | Some s => String.eqb (Signature.id s) id
  | None => false
  end.

(** [removeSignature] *)
Definition removeSignature (id : string) (st : State.t) : State.t :=
  let st1 :=
    State.setSignatures
      (filter (fun sig => negb (String.eqb (Signature.id sig) id)) (State.signatures st)) st in
  if selected_is id st then State.setSelectedSignature None st1 else st1.

(** [updateSignature] *)
Definition updateSignature (id : string) (updates : Signature.partial) (st : State.t)
  : State.t :=
  let st1 :=
    State.setSignatures
      (map (fun sig => if String.eqb (Signature.id sig) id
                       then Signature.spread sig updates else sig)
           (State.signatures st)) st in
  match State.selectedSignature st with
  | Some s =>
      if String.eqb (Signature.id s) id
      then State.setSelectedSignature (Some (Signature.spread s updates)) st1
      else st1
  | None => st1
  end.

(** [handleMouseDown]; [container] is the bounding rectangle of
    [pdfContainerRef.current], [None] when the ref is null. *)
Definition handleMouseDown (container : option DOMRect.t) (e : MouseEvent.t)
  (signature : Signature.t) (st : State.t) : State.t :=
  let st1 := State.setIsDragging true (State.setSelectedSignature (Some signature) st) in
  match container with
  | Some rect =>
      State.setDragOffset
        ((MouseEvent.clientX e - DOMRect.left rect - Signature.x signature)%float,
         (MouseEvent.clientY e - DOMRect.top rect - Signature.y signature)%float) st1
  | None => st1
  end.

(** [clamp] *)
Definition clamp (value min max : float) : float :=
  JS.Math_max min (JS.Math_min value max).

(** [handleMouseMove] *)
Definition handleMouseMove (container : option DOMRect.t) (e : MouseEvent.t)
  (st : State.t) : State.t :=
  match State.isDragging st, State.selectedSignature st, container with
  | true, Some selectedSignature, Some rect =>
      let fontSize := Signature.fontSize selectedSignature in
      let newX := clamp (MouseEvent.clientX e - DOMRect.left rect - fst (State.dragOffset st))
                        0 (DOMRect.width rect - fontSize) in
      let newY := clamp (MouseEvent.clientY e - DOMRect.top rect - snd (State.dragOffset st))
                        0 (DOMRect.height rect - fontSize) in
      updateSignature (Signature.id selectedSignature) (Signature.position newX newY) st
  | _, _, _ => st
  end.

(** [handleMouseUp] *)
Definition handleMouseUp (st : State.t) : State.t := State.setIsDragging false st.

(* ================================================================= *)
(** ** The PDF library, as the editor uses it

    [pdf-lib] is an external library.  Its document object is modelled by
    the pages (native size and the text operations drawn so far) and the
    fonts embedded so far; its checks are the ones its functions document:
    [getPage] asserts the index range, [rgb] asserts each channel in
    [0, 1], and a [number] argument must not be NaN.  A text is drawn in
    the size given, or in the font size of the page when that is 0. *)

Module PDF.
Inductive PDFFont :=
| Standard (fontName : string)
| Custom (fontBytes : list byte).

Record Color := mkColor { red : float; green : float; blue : float }.

(** One [drawText]: the text and the options passed to the call or, in the
    contents of a page, the text passed and the options it is drawn with. *)
Record TextOp := mkTextOp {
  text : string;
  x : float;
  y : float;
  size : float;
  color : Color;
  font : PDFFont
}.

Record PDFPage := mkPage { width : float; height : float; contents : list TextOp }.

Record PDFDocument := mkDoc { pages : list PDFPage; fonts : list PDFFont }.

Definition getPageCount (doc : PDFDocument) : nat := List.length (pages doc).

Fixpoint replace_nth {A : Type} (n : nat) (a : A) (l : list A) : list A :=
  match n, l with
  | O, _ :: l' => a :: l'
  | S n', b :: l' => b :: replace_nth n' a l'
  | _, [] => []
  end.

(** [page.fontSize]: 24 on every page, as no [setFontSize] is called. *)
Definition fontSize : float := 24.

(** [options.size || this.fontSize]: a size of 0 or -0 is falsy. *)
Definition sizeOr (size : float) : float :=
  if (size =? 0)%float then fontSize else size.

(** What [drawText] draws for the options of a call. *)
Definition drawn (options : TextOp) : TextOp :=
  mkTextOp (text options) (x options) (y options) (sizeOr (size options))
           (color options) (font options).

(** The effect of [page.drawText] on the document that owns the page. *)
Definition appendOp (doc : PDFDocument) (index : nat) (op : TextOp) : PDFDocument :=
  match nth_error (pages doc) index with
  | Some p =>
      mkDoc (replace_nth index (mkPage (width p) (height p) (contents p ++ [op])) (pages doc))
            (fonts doc)
  | None => doc
  end.
End PDF.

(** What the program can throw or reject with. *)
Inductive Exn :=
| NetworkError (url : string)      (* a [fetch] promise rejects *)
| InvalidPDF                       (* [PDFDocument.load] throws *)
| InvalidFont                      (* [embedFont(bytes)] throws *)
| RangeError (valueName : string)  (* an [assertRange] of the library fails *)
| TypeError (valueName : string)   (* NaN or [undefined] where a number is due *)
| EncodingError.                   (* the font cannot encode the text *)

Module Response.
Record t := mk { status : Z; arrayBuffer : list byte }.
End Response.

Module Blob.
Record t := mk { parts : list byte; type : string }.
End Blob.

(** What the program does to the outside, in order. *)
Inductive Event :=
| Alert (message : string)
| ConsoleLog (fontUrl : FontUrl) (status : Z) (byteLength : nat)
| ConsoleError (error : Exn)
| Fetch (url : string)
| StorageUpload (bucket path : string) (blob : Blob.t) (upsert : bool)
    (uploadError : option string)
| DbUpdate (table : string) (fields : list (string * string)) (id : string)
    (dbError : option string)
| OnSave.

(** The answers of the outside to one run of a handler; the same request
    gets the same answer throughout the run. *)
Module World.
Record t := mk {
  (** [fetch(url)]: the response, or [None] when the promise rejects. *)
  fetch : string -> option Response.t;
  (** [String(Object.prototype[key])]: the text the engine has for a
      built-in function, or for the prototype. *)
  stringOf : string -> string;
  (** [PDFDocument.load(bytes)]: the parsed document, or [None] when it throws. *)
  load : list byte -> option PDF.PDFDocument;
  (** whether fontkit accepts the bytes as a font program. *)
  fontkit : list byte -> bool;
  (** whether the font can encode the text. *)
  encodes : PDF.PDFFont -> string -> bool;
  (** [pdfDoc.save()] *)
  save : PDF.PDFDocument -> list byte;
  (** [storage.from(bucket).upload(path, blob, ...)]: the error message, if any. *)
  upload : string -> string -> Blob.t -> option string;
  (** [storage.from(bucket).getPublicUrl(path).data.publicUrl] *)
  getPublicUrl : string -> string -> string;
  (** [from(table).update(fields).eq('id', id)]: the error message, if any. *)
  update : string -> list (string * string) -> string -> option string
}.
End World.

(* ----------------------------------------------------------------- *)
(** *** Effects: a trace of events and a possible exception *)

Definition M (A : Type) : Type := (list Event * (Exn + A))%type.

Definition ret {A : Type} (a : A) : M A := ([], inr a).

Definition throw {A : Type} (e : Exn) : M A := ([], inl e).

Definition emit (ev : Event) : M unit := ([ev], inr tt).

Definition bind {A B : Type} (m : M A) (k : A -> M B) : M B :=
  match m with
  | (t, inl e) => (t, inl e)
  | (t, inr a) => let (t', r) := k a in (t ++ t', r)
  end.

(** [try { m } catch (error) { handler error }] *)
Definition try_catch {A : Type} (m : M A) (handler : Exn -> M A) : M A :=
  match m with
  | (t, inl e) => let (t', r) := handler e in (t ++ t', r)
  | (t, inr a) => (t, inr a)
  end.

Definition trace {A : Type} (m : M A) : list Event := fst m.

Definition result {A : Type} (m : M A) : Exn + A := snd m.

Declare Scope M_scope.
Delimit Scope M_scope with M.
Notation "x <- m ;; k" := (bind m (fun x => k))
  (at level 61, m at next level, right associativity) : M_scope.
Notation "' pat <- m ;; k" := (bind m (fun x => match x with pat => k end))
  (at level 61, pat pattern, m at next level, right associativity) : M_scope.
Notation "m ;; k" := (bind m (fun _ => k))
  (at level 61, right associativity) : M_scope.
Local Open Scope M_scope.

(** [for (const a of l) { s = body(s, a) }] *)
Fixpoint forOf {A S : Type} (body : S -> A -> M S) (s : S) (l : list A) : M S :=
  match l with
  | [] => ret s
  | a :: l' => s' <- body s a ;; forOf body s' l'
  end.

(* ----------------------------------------------------------------- *)
(** *** The calls of the save operation *)

(** [await fetch(url)] *)
Definition fetch (w : World.t) (url : string) : M Response.t :=
  emit (Fetch url) ;;
  match World.fetch w url with
  | Some response => ret response
  | None => throw (NetworkError url)
  end.

(** The URL string of [fetch(fontUrl)]: a value that is not a string is
    converted to one. *)
Definition requested (w : World.t) (fontUrl : FontUrl) : string :=
  match fontUrl with
  | Path path => path
  | Inherited key => World.stringOf w key
  end.

(** [await PDFDocument.load(bytes)] *)
Definition PDFDocument_load (w : World.t) (bytes : list byte) : M PDF.PDFDocument :=
  match World.load w bytes with
  | Some pdfDoc => ret pdfDoc
  | None => throw InvalidPDF
  end.

(** [await pdfDoc.embedFont(StandardFonts.Helvetica)] *)
Definition embedStandardFont (pdfDoc : PDF.PDFDocument) (fontName : string)
  : PDF.PDFFont * PDF.PDFDocument :=
  (PDF.Standard fontName,
   PDF.mkDoc (PDF.pages pdfDoc) (PDF.fonts pdfDoc ++ [PDF.Standard fontName])).

(** [await pdfDoc.embedFont(fontBytes)] *)
Definition embedFont (w : World.t) (pdfDoc : PDF.PDFDocument) (fontBytes : list byte)
  : M (PDF.PDFFont * PDF.PDFDocument) :=
  if World.fontkit w fontBytes
  then ret (PDF.Custom fontBytes,
            PDF.mkDoc (PDF.pages pdfDoc) (PDF.fonts pdfDoc ++ [PDF.Custom fontBytes]))
  else throw InvalidFont.

(** [pdfDoc.getPage(index)]: the index is asserted to lie between 0 and
    [max(0, count - 1)]; the page of an empty document is [undefined], and
    reading its height throws. *)
Definition getPage (pdfDoc : PDF.PDFDocument) (index : Z) : M (nat * PDF.PDFPage) :=
  if (index <? 0)%Z || (Z.max 0 (Z.of_nat (PDF.getPageCount pdfDoc) - 1) <? index)%Z
  then throw (RangeError "index")
  else match nth_error (PDF.pages pdfDoc) (Z.to_nat index) with
       | Some page => ret (Z.to_nat index, page)
       | None => throw (TypeError "page")
       end.

(** One [assertRange(value, valueName, 0, 1)] of [rgb]. *)
Definition assertChannel (value : option float) (valueName : string) : M float :=
  match value with
  | None => throw (TypeError valueName)
  | Some v =>
      if is_nan v then throw (TypeError valueName)
      else if (v <? 0)%float || (1 <? v)%float then throw (RangeError valueName)
      else ret v
  end.

(** [rgb(r, g, b)] *)
Definition rgb (r g b : option float) : M PDF.Color :=
  red <- assertChannel r "red" ;;
  green <- assertChannel g "green" ;;
  blue <- assertChannel b "blue" ;;
  ret (PDF.mkColor red green blue).

(** [page.drawText(text, { x, y, size, color, font })] on the page at
    [index] of [pdfDoc]: the options are checked, the text is encoded in
    the font, and the operation is added in the size
    [options.size || this.fontSize]. *)
Definition drawText (w : World.t) (pdfDoc : PDF.PDFDocument) (index : nat)
  (options : PDF.TextOp) : M PDF.PDFDocument :=
  if is_nan (PDF.size options) then throw (TypeError "options.size")
  else if is_nan (PDF.x options) then throw (TypeError "options.x")
  else if is_nan (PDF.y options) then throw (TypeError "options.y")
  else if World.encodes w (PDF.font options) (PDF.text options)
       then ret (PDF.appendOp pdfDoc index (PDF.drawn options))
       else throw EncodingError.

(** [supabase.storage.from(bucket).upload(path, blob, { upsert })] *)
Definition storage_upload (w : World.t) (bucket path : string) (blob : Blob.t)
  (upsert : bool) : M (option string) :=
  let uploadError := World.upload w bucket path blob in
  emit (StorageUpload bucket path blob upsert uploadError) ;;
  ret uploadError.

(** [supabase.from(table).update(fields).eq('id', id)] *)
Definition db_update (w : World.t) (table : string) (fields : list (string * string))
  (id : string) : M (option string) :=
  let dbError := World.update w table fields id in
  emit (DbUpdate table fields id dbError) ;;
  ret dbError.

(* ================================================================= *)
(** ** [src/src/components/SignatureEditor.tsx] *)

Module SignatureEditor.

Definition yOffset : float := 110%float.

(** The body of the loop of [handleSave], lines 158-182: one signature is
    stamped on its page of [pdfDoc]. *)
Definition stamp (w : World.t) (overlayWidth overlayHeight : float) (font : PDF.PDFFont)
  (pdfDoc : PDF.PDFDocument) (sig : Signature.t) : M PDF.PDFDocument :=
  '(index, page) <- getPage pdfDoc (Signature.page sig - 1) ;;
  let pageHeight := PDF.height page in
  let pageWidth := PDF.width page in
  let scaleX := (pageWidth / overlayWidth)%float in
  let scaleY := (pageHeight / overlayHeight)%float in
  let scaledX := (Signature.x sig * scaleX)%float in
  let scaledY :=
    (pageHeight - (Signature.y sig * scaleY) - (Signature.fontSize sig / 2) + yOffset)%float in
  let c := hexToRgb (Signature.color sig) in
  '(pdfFont, pdfDoc) <-
    match FONT_FILE_MAP (Signature.font sig) with
    | Some fontUrl =>
        response <- fetch w (requested w fontUrl) ;;
        let fontBytes := Response.arrayBuffer response in
        emit (ConsoleLog fontUrl (Response.status response) (List.length fontBytes)) ;;
        embedFont w pdfDoc fontBytes
    | None => ret (font, pdfDoc)
    end ;;
  color <- rgb (Rgb.r c) (Rgb.g c) (Rgb.b c) ;;
  drawText w pdfDoc index
    (PDF.mkTextOp (Signature.text sig) scaledX scaledY (Signature.fontSize sig) color pdfFont).

(** [handleSave], lines 131-216. *)
Definition handleSave (w : World.t) (container : option DOMRect.t) (document : Document.t)
  (st : State.t) : M unit :=
  let signatures := State.signatures st in
  if (List.length signatures =? 0)%nat
  then emit (Alert "Please add at least one signature")
  else
    try_catch
      (response <- fetch w (Document.original_url document) ;;
       let existingPdfBytes := Response.arrayBuffer response in
       pdfDoc <- PDFDocument_load w existingPdfBytes ;;
       let '(font, pdfDoc) := embedStandardFont pdfDoc "Helvetica" in
       let '(overlayWidth, overlayHeight) :=
         match container with
         | Some rect => (DOMRect.width rect, DOMRect.height rect)
         | None => (500%float, 600%float)
         end in
       pdfDoc <- forOf (stamp w overlayWidth overlayHeight font) pdfDoc signatures ;;
       let pdfBytes := World.save w pdfDoc in
       let blob := Blob.mk pdfBytes "application/pdf" in
       let userId := Document.user_id document in
       let fileName := ("signed-" ++ Document.id document ++ ".pdf")%string in
       let filePath := (userId ++ "/" ++ fileName)%string in
       uploadError <- storage_upload w "documents" filePath blob true ;;
       match uploadError with
       | Some message => emit (Alert ("Failed to upload signed PDF: " ++ message)%string)
       | None =>
           let signedUrl := World.getPublicUrl w "documents" filePath in
           dbError <- db_update w "documents"
                        [("signed_url", signedUrl); ("status", "signed")]
                        (Document.id document) ;;
           match dbError with
           | Some message =>
               emit (Alert ("Failed to update document record: " ++ message)%string)
           | None =>
               emit (Alert "Document signed and uploaded successfully!") ;; emit OnSave
           end
       end)
      (fun error =>
         emit (ConsoleError error) ;; emit (Alert "Failed to save signatures")).

End SignatureEditor.

(* ================================================================= *)
(** ** [src/unnamed/part_003] *)

Module Part003.

(** The body of the loop of [handleSave], lines 194-220. *)
Definition stamp (w : World.t) (overlayWidth overlayHeight : float) (font : PDF.PDFFont)
  (pdfDoc : PDF.PDFDocument) (sig : Signature.t) : M PDF.PDFDocument :=
  '(index, page) <- getPage pdfDoc (Signature.page sig - 1) ;;
  let pageHeight := PDF.height page in
  let pageWidth := PDF.width page in
  let scaleX := (pageWidth / overlayWidth)%float in
  let scaleY := (pageHeight / overlayHeight)%float in
  let scaledX := (Signature.x sig * scaleX)%float in
  let scaledY :=
    (pageHeight - (Signature.y sig * scaleY) - (Signature.fontSize sig * scaleY))%float in
  let c := hexToRgb (Signature.color sig) in
  '(pdfFont, pdfDoc) <-
    match FONT_FILE_MAP (Signature.font sig) with
    | Some fontUrl =>
        response <- fetch w (requested w fontUrl) ;;
        let fontBytes := Response.arrayBuffer response in
        embedFont w pdfDoc fontBytes
    | None => ret (font, pdfDoc)
    end ;;
  color <- rgb (Rgb.r c) (Rgb.g c) (Rgb.b c) ;;
  drawText w pdfDoc index
    (PDF.mkTextOp (Signature.text sig) scaledX scaledY
                  (Signature.fontSize sig * scaleY)%float color pdfFont).

(** [handleSave], lines 167-254. *)
Definition handleSave (w : World.t) (container : option DOMRect.t) (document : Document.t)
  (st : State.t) : M unit :=
  let signatures := State.signatures st in
  if (List.length signatures =? 0)%nat
  then emit (Alert "Please add at least one signature")
  else
    try_catch
      (response <- fetch w (Document.original_url document) ;;
       let existingPdfBytes := Response.arrayBuffer response in
       pdfDoc <- PDFDocument_load w existingPdfBytes ;;
       let '(font, pdfDoc) := embedStandardFont pdfDoc "Helvetica" in
       let '(overlayWidth, overlayHeight) :=
         match container with
         | Some rect => (DOMRect.width rect, DOMRect.height rect)
         | None => (500%float, 600%float)
         end in
       pdfDoc <- forOf (stamp w overlayWidth overlayHeight font) pdfDoc signatures ;;
       let pdfBytes := World.save w pdfDoc in
       let blob := Blob.mk pdfBytes "application/pdf" in
       let userId := Document.user_id document in
       let fileName := ("signed-" ++ Document.id document ++ ".pdf")%string in
       let filePath := (userId ++ "/" ++ fileName)%string in
       uploadError <- storage_upload w "documents" filePath blob true ;;
       match uploadError with
       | Some message => emit (Alert ("Failed to upload signed PDF: " ++ message)%string)
       | None =>
           let signedUrl := World.getPublicUrl w "documents" filePath in
           dbError <- db_update w "documents"
                        [("signed_url", signedUrl); ("status", "signed")]
                        (Document.id document) ;;
           match dbError with
           | Some message =>
               emit (Alert ("Failed to update document record: " ++ message)%string)
           | None =>
               emit (Alert "Document signed and uploaded successfully!") ;; emit OnSave
           end
       end)
      (fun error =>
         emit (ConsoleError error) ;; emit (Alert "Failed to save signatures")).

(** [handleTouchMove], lines 151-161; with no touch in the event, reading
    [touch.clientX] throws and no update is made. *)
Definition handleTouchMove (container : option DOMRect.t) (e : TouchEvent.t)
  (st : State.t) : State.t :=
  match State.isDragging st, State.selectedSignature st, container with
  | true, Some selectedSignature, Some rect =>
      let fontSize := Signature.fontSize selectedSignature in
      match TouchEvent.touches e with
      | touch :: _ =>
          let newX := clamp (TouchEvent.clientX touch - DOMRect.left rect
                             - fst (State.dragOffset st))
                            0 (DOMRect.width rect - fontSize) in
          let newY := clamp (TouchEvent.clientY touch - DOMRect.top rect
                             - snd (State.dragOffset st))
                            0 (DOMRect.height rect - fontSize) in
          updateSignature (Signature.id selectedSignature) (Signature.position newX newY) st
      | [] => st
      end
  | _, _, _ => st
  end.

End Part003.

(* ================================================================= *)
(** ** The two save implementations side by side *)

Inductive Implementation :=
| EditorFile      (* src/src/components/SignatureEditor.tsx *)
| UnnamedPart3.   (* src/unnamed/part_003 *)

Definition stampOf (impl : Implementation) :=
  match impl with
  | EditorFile => SignatureEditor.stamp
  | UnnamedPart3 => Part003.stamp
  end.

Definition handleSaveOf (impl : Implementation) :=
  match impl with
  | EditorFile => SignatureEditor.handleSave
  | UnnamedPart3 => Part003.handleSave
  end.

(* ================================================================= *)
(** ** Vocabulary of the properties *)

(** The two vertical placements the specification describes, written from
    its formulas: with the fixed correction of 110 and the font size left
    unscaled, and proportional, with the font size scaled. *)
Definition nativeY_offset (pageHeight overlayHeight y fontSize : float) : float :=
  (pageHeight - (y * (pageHeight / overlayHeight)) - (fontSize / 2) + 110)%float.

Definition nativeY_proportional (pageHeight overlayHeight y fontSize : float) : float :=
  (pageHeight - (y * (pageHeight / overlayHeight))
   - (fontSize * (pageHeight / overlayHeight)))%float.

Definition nativeX (pageWidth overlayWidth x : float) : float :=
  (x * (pageWidth / overlayWidth))%float.

(** The text and the options each implementation is expected to call
    [drawText] with for a signature on a page. *)
Definition optionsOf (impl : Implementation) (overlayWidth overlayHeight : float)
  (page : PDF.PDFPage) (sig : Signature.t) (color : PDF.Color) (pdfFont : PDF.PDFFont)
  : PDF.TextOp :=
  match impl with
  | EditorFile =>
      PDF.mkTextOp (Signature.text sig)
        (nativeX (PDF.width page) overlayWidth (Signature.x sig))
        (nativeY_offset (PDF.height page) overlayHeight (Signature.y sig)
                        (Signature.fontSize sig))
        (Signature.fontSize sig) color pdfFont
  | UnnamedPart3 =>
      PDF.mkTextOp (Signature.text sig)
        (nativeX (PDF.width page) overlayWidth (Signature.x sig))
        (nativeY_proportional (PDF.height page) overlayHeight (Signature.y sig)
                              (Signature.fontSize sig))
        (Signature.fontSize sig * (PDF.height page / overlayHeight))%float color pdfFont
  end.

(** The text operation each implementation is expected to draw for a
    signature on a page: its options, in the size that is drawn. *)
Definition expectedOp (impl : Implementation) (overlayWidth overlayHeight : float)
  (page : PDF.PDFPage) (sig : Signature.t) (color : PDF.Color) (pdfFont : PDF.PDFFont)
  : PDF.TextOp :=
  PDF.drawn (optionsOf impl overlayWidth overlayHeight page sig color pdfFont).

(* ----------------------------------------------------------------- *)
(** *** The save operation in pieces

    The two [handleSave] differ in the body of their loop only, and the two
    bodies in the placement, the size and the logging only.  The pieces
    below are what they share; that each [handleSave] and each [stamp] is
    made of them is proved, not assumed ([stampOf_pieces],
    [handleSaveOf_pieces]). *)

(** The overlay size [handleSave] scales by: 500 x 600 unless the container
    is mounted. *)
Definition overlaySize (container : option DOMRect.t) : float * float :=
  match container with
  | Some rect => (DOMRect.width rect, DOMRect.height rect)
  | None => (500%float, 600%float)
  end.

(** What a loop body does between the font fetch and [embedFont]:
    SignatureEditor.tsx logs the fetch to the console, part_003 does not. *)
Definition loggedOf (impl : Implementation) {A : Type} (fontUrl : FontUrl)
  (response : Response.t) (k : M A) : M A :=
  match impl with
  | EditorFile =>
      emit (ConsoleLog fontUrl (Response.status response)
                       (List.length (Response.arrayBuffer response))) ;; k
  | UnnamedPart3 => k
  end.

(** The font of one signature: what [FONT_FILE_MAP] has for it fetched
    and embedded, or the standard font when that is [undefined]. *)
Definition resolveFont (impl : Implementation) (w : World.t) (font : PDF.PDFFont)
  (pdfDoc : PDF.PDFDocument) (sig : Signature.t) : M (PDF.PDFFont * PDF.PDFDocument) :=
  match FONT_FILE_MAP (Signature.font sig) with
  | Some fontUrl =>
      response <- fetch w (requested w fontUrl) ;;
      loggedOf impl fontUrl response (embedFont w pdfDoc (Response.arrayBuffer response))
  | None => ret (font, pdfDoc)
  end.

(** A loop body: the page, the font, the colour, and [drawText] with the
    expected options. *)
Definition stampWith (impl : Implementation) (w : World.t)
  (overlayWidth overlayHeight : float) (font : PDF.PDFFont) (pdfDoc : PDF.PDFDocument)
  (sig : Signature.t) : M PDF.PDFDocument :=
  '(index, page) <- getPage pdfDoc (Signature.page sig - 1) ;;
  '(pdfFont, pdfDoc) <- resolveFont impl w font pdfDoc sig ;;
  color <- rgb (Rgb.r (hexToRgb (Signature.color sig)))
               (Rgb.g (hexToRgb (Signature.color sig)))
               (Rgb.b (hexToRgb (Signature.color sig))) ;;
  drawText w pdfDoc index
    (optionsOf impl overlayWidth overlayHeight page sig color pdfFont).

(** From [pdfDoc.save()] to [onSave()]. *)
Definition persist (w : World.t) (document : Document.t) (pdfDoc : PDF.PDFDocument)
  : M unit :=
  let pdfBytes := World.save w pdfDoc in
  let blob := Blob.mk pdfBytes "application/pdf" in
  let userId := Document.user_id document in
  let fileName := ("signed-" ++ Document.id document ++ ".pdf")%string in
  let filePath := (userId ++ "/" ++ fileName)%string in
  uploadError <- storage_upload w "documents" filePath blob true ;;
  match uploadError with
  | Some message => emit (Alert ("Failed to upload signed PDF: " ++ message)%string)
  | None =>
      let signedUrl := World.getPublicUrl w "documents" filePath in
      dbError <- db_update w "documents" [("signed_url", signedUrl); ("status", "signed")]
                           (Document.id document) ;;
      match dbError with
      | Some message => emit (Alert ("Failed to update document record: " ++ message)%string)
      | None => emit (Alert "Document signed and uploaded successfully!") ;; emit OnSave
      end
  end.

(** The frame of [handleSave] around a loop body. *)
Definition handleSave_with
  (body : World.t -> float -> float -> PDF.PDFFont -> PDF.PDFDocument -> Signature.t
          -> M PDF.PDFDocument)
  (w : World.t) (container : option DOMRect.t) (document : Document.t) (st : State.t)
  : M unit :=
  if (List.length (State.signatures st) =? 0)%nat
  then emit (Alert "Please add at least one signature")
  else
    try_catch
      (response <- fetch w (Document.original_url document) ;;
       pdfDoc <- PDFDocument_load w (Response.arrayBuffer response) ;;
       let '(font, pdfDoc) := embedStandardFont pdfDoc "Helvetica" in
       let '(overlayWidth, overlayHeight) := overlaySize container in
       pdfDoc <- forOf (body w overlayWidth overlayHeight font) pdfDoc (State.signatures st) ;;
       persist w document pdfDoc)
      (fun error =>
         emit (ConsoleError error) ;; emit (Alert "Failed to save signatures")).

(** The storage path of the signed document. *)
Definition signedPath (document : Document.t) : string :=
  (Document.user_id document ++ "/" ++ "signed-" ++ Document.id document ++ ".pdf")%string.

(** Events that only read: requests and console logs. *)
Definition quiet (ev : Event) : Prop :=
  match ev with
  | Fetch _ | ConsoleLog _ _ _ => True
  | _ => False
  end.

(** Events that write to the storage bucket or to the document record. *)
Definition persists (ev : Event) : bool :=
  match ev with
  | StorageUpload _ _ _ _ _ | DbUpdate _ _ _ _ => true
  | _ => false
  end.

(** What [getPage] throws for a page beyond the [count] pages of a
    document: the range error of its index, but for page 1 of a document
    with no page, whose index 0 passes the assertion and whose page is
    [undefined]. *)
Definition beyond (count : nat) (page : Z) : Exn :=
  if (count =? 0)%nat && (page =? 1)%Z then TypeError "page" else RangeError "index".

(** A run that ended in the [catch] of [handleSave] with [error]. *)
Definition aborted_with (error : Exn) (tr : list Event) : Prop :=
  exists q, Forall quiet q /\
            tr = q ++ [ConsoleError error; Alert "Failed to save signatures"].

(** The shapes of a run of [handleSave]. *)
Inductive Run (w : World.t) (document : Document.t) : list Event -> Prop :=
| run_refused :
    Run w document [Alert "Please add at least one signature"]
| run_aborted q error :
    Forall quiet q ->
    Run w document (q ++ [ConsoleError error; Alert "Failed to save signatures"])
| run_upload_failed q path blob message :
    Forall quiet q ->
    World.upload w "documents" path blob = Some message ->
    Run w document
      (q ++ [StorageUpload "documents" path blob true (Some message);
             Alert ("Failed to upload signed PDF: " ++ message)%string])
| run_update_failed q path blob message :
    Forall quiet q ->
    World.upload w "documents" path blob = None ->
    Run w document
      (q ++ [StorageUpload "documents" path blob true None;
             DbUpdate "documents"
               [("signed_url", World.getPublicUrl w "documents" path); ("status", "signed")]
               (Document.id document) (Some message);
             Alert ("Failed to update document record: " ++ message)%string])
| run_saved q path blob :
    Forall quiet q ->
    World.upload w "documents" path blob = None ->
    Run w document
      (q ++ [StorageUpload "documents" path blob true None;
             DbUpdate "documents"
               [("signed_url", World.getPublicUrl w "documents" path); ("status", "signed")]
               (Document.id document) None;
             Alert "Document signed and uploaded successfully!"; OnSave]).

(** [doc'] has the pages of [doc], of the same size, with at least the same
    text operations. *)
Definition extends (doc doc' : PDF.PDFDocument) : Prop :=
  List.length (PDF.pages doc') = List.length (PDF.pages doc) /\
  forall i p, nth_error (PDF.pages doc) i = Some p ->
    exists p', nth_error (PDF.pages doc') i = Some p' /\
               PDF.width p' = PDF.width p /\ PDF.height p' = PDF.height p /\
               forall op, In op (PDF.contents p) -> In op (PDF.contents p').

(** A position is inside the overlay when it is not negative and, where the
    overlay has room for the footprint, at most the overlay size minus the
    footprint. *)
Definition inside (position extent footprint : float) : Prop :=
  (0 <=? position)%float = true /\
  ((0 <=? extent - footprint)%float = true ->
   (position <=? extent - footprint)%float = true).

(** A hexadecimal digit and its value. *)
Definition hexValue (c : ascii) : option Z :=
  match JS.digitValue c with
  | Some d => if (d <? 16)%Z then Some d else None
  | None => None
  end.

(** The colour channel of a two-digit group of value [n]. *)
Definition channel (n : Z) : float := (JS.Number_of_Z n / 255)%float.

Definition black : Rgb.t := Rgb.mk (Some 0%float) (Some 0%float) (Some 0%float).

(* ----------------------------------------------------------------- *)
(** *** Checking all characters *)

Definition forall_bool (f : bool -> bool) : bool := f true && f false.

Definition forall_ascii (f : ascii -> bool) : bool :=
  forall_bool (fun b0 => forall_bool (fun b1 => forall_bool (fun b2 =>
  forall_bool (fun b3 => forall_bool (fun b4 => forall_bool (fun b5 =>
  forall_bool (fun b6 => forall_bool (fun b7 => f (Ascii b0 b1 b2 b3 b4 b5 b6 b7))))))))).

(** What is checked of every pair of hexadecimal digits. *)
Definition pair_ok (c1 c2 : ascii) : bool :=
  match hexValue c1, hexValue c2 with
  | Some v1, Some v2 =>
      negb (JS.isLineTerminator c1) && negb (JS.isLineTerminator c2)
      && PrimFloat.Leibniz.eqb (JS.parseInt (String c1 (String c2 EmptyString)) 16)
                               (JS.Number_of_Z (16 * v1 + v2))
      && (0 <=? channel (16 * v1 + v2))%float && (channel (16 * v1 + v2) <=? 1)%float
  | _, _ => true
  end.

(* ----------------------------------------------------------------- *)
(** *** The scenario of the specification and other concrete runs *)

Module Scenario.

(** A letter-size page, 612 x 792 native units. *)
Definition letter : PDF.PDFPage := PDF.mkPage 612 792 [].

Definition source (n : nat) : PDF.PDFDocument := PDF.mkDoc (repeat letter n) [].

Definition helvetica : PDF.PDFFont := PDF.Standard "Helvetica".

(** A world where the source document has [n] pages, the font files are
    served except those named in [missing], a built-in function reads as
    its name with a native body, and fontkit, storage and the record store
    accept everything. *)
Definition world (n : nat) (missing : list string) : World.t :=
  World.mk
    (fun url => if existsb (String.eqb url) missing then None
                else if String.prefix "/fonts/" url
                     then Some (Response.mk 200 [x00; x01; x00; x00])
                     else Some (Response.mk 200 [x25; x50; x44; x46]))
    (fun key => if String.eqb key "__proto__" then "[object Object]"
                else if String.eqb key "constructor"
                     then "function Object() { [native code] }"
                     else ("function " ++ key ++ "() { [native code] }")%string)
    (fun _ => Some (source n))
    (fun _ => true)
    (fun _ _ => true)
    (fun pdfDoc => repeat x25 (List.length (PDF.pages pdfDoc)))
    (fun _ _ _ => None)
    (fun bucket path => ("https://storage/" ++ bucket ++ "/" ++ path)%string)
    (fun _ _ _ => None).

Definition document : Document.t :=
  Document.mk "doc-1" "user-1" "contract.pdf" "https://storage/documents/user-1/contract.pdf"
              None Document.unsigned "2025-06-29" "2025-06-29".

(** [{text:"Jane Doe", fontSize:24, color:#1e40af, x:100, y:100}] on [page],
    in the first font of the editor. *)
Definition jane (page : Z) : Signature.t :=
  Signature.mk "1751212800000" "Jane Doe" "Great Vibes, cursive" 24 "#1e40af" 100 100 page.

(** The font program the world serves, once embedded. *)
Definition cursive : PDF.PDFFont := PDF.Custom [x00; x01; x00; x00].

(** The same signature on page 1, in another font size. *)
Definition sized (fontSize : float) : Signature.t :=
  Signature.mk "1751212800000" "Jane Doe" "Great Vibes, cursive" fontSize "#1e40af" 100 100 1.

(** A signature whose font is named like a method of every object. *)
Definition odd : Signature.t :=
  Signature.mk "1751212800002" "Jane Doe" "toString" 24 "#1e40af" 100 100 1.

(** What the scenario's engine requests for that font. *)
Definition oddUrl : string := "function toString() { [native code] }".

(** A second signature, in another font of the editor. *)
Definition john : Signature.t :=
  Signature.mk "1751212800001" "John Roe" "Satisfy, cursive" 24 "#000000" 100 200 1.

Definition editing (sigs : list Signature.t) : State.t :=
  State.setSignatures sigs State.initial.

(** A mounted container of the given rendered size, at the origin. *)
Definition overlay (width height : float) : option DOMRect.t :=
  Some (DOMRect.mk 0 0 width height).

(** A drag in progress of [sig], grabbed at its top-left corner. *)
Definition dragging (sig : Signature.t) : State.t :=
  State.setIsDragging true
    (State.setSelectedSignature (Some sig) (editing [sig])).

End Scenario.

(* ================================================================= *)
(** ** More of the editor: touch, pages, the visible list *)

(** [setSelectedPage] *)
Definition setSelectedPage (v : Z) (st : State.t) : State.t :=
  State.mk (State.signatures st) (State.selectedSignature st) (State.isDragging st)
           (State.dragOffset st) (State.signatureText st) (State.selectedFont st)
           (State.selectedColor st) (State.fontSize st) v (State.numPages st).

(** [handleTouchStart] of part_003, lines 138-149.  The two state updates
    come before [e.touches[0]] is read, so they are made even with no touch
    in the event. *)
Definition handleTouchStart (container : option DOMRect.t) (e : TouchEvent.t)
  (signature : Signature.t) (st : State.t) : State.t :=
  let st1 := State.setIsDragging true (State.setSelectedSignature (Some signature) st) in
  match container with
  | Some rect =>
      match TouchEvent.touches e with
      | touch :: _ =>
          State.setDragOffset
            ((TouchEvent.clientX touch - DOMRect.left rect - Signature.x signature)%float,
             (TouchEvent.clientY touch - DOMRect.top rect - Signature.y signature)%float) st1
      | [] => st1
      end
  | None => st1
  end.

(** [handleTouchEnd] of part_003, lines 163-165. *)
Definition handleTouchEnd (st : State.t) : State.t := State.setIsDragging false st.

(** The signatures rendered in the overlay:
    [signatures.filter(sig => sig.page === selectedPage)]. *)
Definition visibleSignatures (st : State.t) : list Signature.t :=
  filter (fun sig => (Signature.page sig =? State.selectedPage st)%Z) (State.signatures st).

(** The Previous button of part_003, lines 412-418: disabled on the first
    page, else [setSelectedPage(p => Math.max(1, p - 1))]. *)
Definition previousPage (st : State.t) : State.t :=
  if (State.selectedPage st <=? 1)%Z then st
  else setSelectedPage (Z.max 1 (State.selectedPage st - 1)) st.

(** The Next button of part_003, lines 422-428: disabled on the last page,
    else [setSelectedPage(p => Math.min(numPages, p + 1))]. *)
Definition nextPage (st : State.t) : State.t :=
  if (State.numPages st <=? State.selectedPage st)%Z then st
  else setSelectedPage (Z.min (State.numPages st) (State.selectedPage st + 1)) st.

(* ----------------------------------------------------------------- *)
(** *** Vocabulary of the further properties *)

(** [b] is [a] up to its position. *)
Definition same_but_position (a b : Signature.t) : Prop :=
  Signature.id b = Signature.id a /\ Signature.text b = Signature.text a
  /\ Signature.font b = Signature.font a /\ Signature.fontSize b = Signature.fontSize a
  /\ Signature.color b = Signature.color a /\ Signature.page b = Signature.page a.

(** The selected signature, when there is one, is one of the stored ones. *)
Definition selection_in_store (st : State.t) : Prop :=
  match State.selectedSignature st with
  | Some s => In s (State.signatures st)
  | None => True
  end.

(** The selected page is one of the pages of the document. *)
Definition page_in_range (st : State.t) : Prop :=
  (1 <= State.selectedPage st <= State.numPages st)%Z.

(** A text with a character that is not white space. *)
Definition has_ink (s : string) : bool :=
  existsb (fun c => negb (JS.isWhiteSpace c)) (list_ascii_of_string s).


(** Every stored id is the decimal string of a clock reading before [now]. *)
Definition stamped_before (now : Z) (st : State.t) : Prop :=
  forall sig, In sig (State.signatures st) ->
    exists n, Signature.id sig = JS.toString n /\ (n < now)%Z.

(** [st'] is [st] with, at most, the position of the selected signatures
    changed: the list has the same signatures in the same order, the ones
    that do not have the id of the selection are untouched, and so are the
    other cells. *)
Definition moved_only (st st' : State.t) : Prop :=
  Forall2 (fun a b => same_but_position a b
                      /\ (selected_is (Signature.id a) st = false -> b = a))
          (State.signatures st) (State.signatures st')
  /\ match State.selectedSignature st, State.selectedSignature st' with
     | Some a, Some b => same_but_position a b
     | None, None => True
     | _, _ => False
     end
  /\ State.isDragging st' = State.isDragging st
  /\ State.dragOffset st' = State.dragOffset st
  /\ State.signatureText st' = State.signatureText st
  /\ State.selectedPage st' = State.selectedPage st.

(** [COLOR_OPTIONS]: the values the colour selector offers. *)
Definition COLOR_OPTIONS : list string :=
  ["#1e40af"; "#000000"; "#dc2626"; "#16a34a"; "#7c3aed"].

(** A hash and six hexadecimal digits. *)
Definition is_hex (c : ascii) : bool :=
  match hexValue c with Some _ => true | None => false end.

Definition six_hex_digits (hex : string) : bool :=
  match hex with
  | String h (String c1 (String c2 (String c3 (String c4 (String c5 (String c6
      EmptyString)))))) =>
      Ascii.eqb h "#" && is_hex c1 && is_hex c2 && is_hex c3 && is_hex c4 && is_hex c5
      && is_hex c6
  | _ => false
  end.

(** The colour step of a loop body: [rgb(r, g, b)] on the channels of
    [hexToRgb(sig.color)]. *)
Definition colourOf (hex : string) : M PDF.Color :=
  rgb (Rgb.r (hexToRgb hex)) (Rgb.g (hexToRgb hex)) (Rgb.b (hexToRgb hex)).

(** The requests of a trace, in order. *)
Definition fetched (t : list Event) : list string :=
  flat_map (fun ev => match ev with Fetch url => [url] | _ => [] end) t.

(** The font requests a list of signatures asks for: one for each
    signature whose font has a truthy value in [FONT_FILE_MAP], in order,
    repeated when the font repeats. *)
Definition fontFiles (w : World.t) (sigs : list Signature.t) : list string :=
  flat_map (fun sig => match FONT_FILE_MAP (Signature.font sig) with
                       | Some fontUrl => [requested w fontUrl]
                       | None => []
                       end) sigs.

(** The signatures of the page at index [i]. *)
Definition onPage (i : nat) (sigs : list Signature.t) : list Signature.t :=
  filter (fun sig => (Signature.page sig =? Z.of_nat i + 1)%Z) sigs.

(** The font program served at [url], once embedded. *)
Definition served (w : World.t) (url : string) (pdfFont : PDF.PDFFont) : Prop :=
  exists response, World.fetch w url = Some response
                   /\ World.fontkit w (Response.arrayBuffer response) = true
                   /\ pdfFont = PDF.Custom (Response.arrayBuffer response).

(** [op] is the text operation of [sig] on a page of the size of [page]:
    placed by the formula of the implementation, in the size the
    implementation passes, or 24 when that is 0, in the colour of the
    signature and in its font: what is served for the value [FONT_FILE_MAP]
    has for it, or [font] when it has none. *)
Definition drawnFor (impl : Implementation) (w : World.t)
  (overlayWidth overlayHeight : float) (font : PDF.PDFFont) (page : PDF.PDFPage)
  (sig : Signature.t) (op : PDF.TextOp) : Prop :=
  exists color pdfFont,
    colourOf (Signature.color sig) = ([], inr color)
    /\ match FONT_FILE_MAP (Signature.font sig) with
       | Some fontUrl => served w (requested w fontUrl) pdfFont
       | None => pdfFont = font
       end
    /\ World.encodes w pdfFont (Signature.text sig) = true
    /\ op = expectedOp impl overlayWidth overlayHeight page sig color pdfFont.

(** What the stamp of [sig] needs: a page of the source document for it, a
    colour that [rgb] accepts, a font program that is served and accepted
    when [FONT_FILE_MAP] has a value for its font, a font that encodes its
    text, and coordinates and a size that are numbers. *)
Definition stampable (impl : Implementation) (w : World.t)
  (overlayWidth overlayHeight : float) (pdf : PDF.PDFDocument) (sig : Signature.t) : Prop :=
  exists page,
    (1 <= Signature.page sig)%Z
    /\ nth_error (PDF.pages pdf) (Z.to_nat (Signature.page sig - 1)) = Some page
    /\ (exists color, colourOf (Signature.color sig) = ([], inr color))
    /\ (forall color pdfFont,
          is_nan (PDF.size (optionsOf impl overlayWidth overlayHeight page sig color pdfFont))
          = false
          /\ is_nan (PDF.x (optionsOf impl overlayWidth overlayHeight page sig color pdfFont))
             = false
          /\ is_nan (PDF.y (optionsOf impl overlayWidth overlayHeight page sig color pdfFont))
             = false)
    /\ match FONT_FILE_MAP (Signature.font sig) with
       | Some fontUrl =>
           exists response,
             World.fetch w (requested w fontUrl) = Some response
             /\ World.fontkit w (Response.arrayBuffer response) = true
             /\ World.encodes w (PDF.Custom (Response.arrayBuffer response))
                              (Signature.text sig) = true
       | None => World.encodes w (PDF.Standard "Helvetica") (Signature.text sig) = true
       end.

Definition isAlert (ev : Event) : bool :=
  match ev with Alert _ => true | _ => false end.

(** Events the user does not see and the parent is not told of. *)
Definition unseen (ev : Event) : Prop := isAlert ev = false /\ ev <> OnSave.

(* ================================================================= *)
(** ** [handleDownloadSignedPDF]

    The second action of the editor stamps the signatures as [handleSave]
    does, draws a debug dot at every stamp, logs the geometry to the
    console, stores the result and ends by clicking a download link.  It
    has no guard on the list and no [try]: an exception leaves it as the
    rejection of its promise. *)

Module Download.

(** The options of one [page.drawCircle]. *)
Record Circle := mkCircle { x : float; y : float; size : float; color : PDF.Color }.

(** The document of a download in progress: the text operations and fonts,
    and the circles drawn so far, each with the index of its page. *)
Record Drawn := mkDrawn { pdfDoc : PDF.PDFDocument; circles : list (nat * Circle) }.

(** What [handleDownloadSignedPDF] does to the outside: the events of
    [handleSave], the three console logs of the geometry, and the click on
    the download link. *)
Inductive Ev :=
| Base (ev : Event)
| LogOverlay (overlayWidth overlayHeight : float)
| LogPage (overlayWidth overlayHeight pageWidth pageHeight : float)
| LogSignature (text : string) (x y scaledX scaledY fontSize : float) (color : string)
| LinkClick (href : Blob.t) (download : string).

(** The answers of the outside: those of [handleSave], and [pdfDoc.save()]
    for a document with circles. *)
Record Env := mkEnv { world : World.t; save : Drawn -> list byte }.

Definition D (A : Type) : Type := (list Ev * (Exn + A))%type.

Definition retD {A : Type} (a : A) : D A := ([], inr a).

Definition emitD (ev : Ev) : D unit := ([ev], inr tt).

Definition bindD {A B : Type} (m : D A) (k : A -> D B) : D B :=
  match m with
  | (t, inl e) => (t, inl e)
  | (t, inr a) => let (t', r) := k a in (t ++ t', r)
  end.

(** A call shared with [handleSave]. *)
Definition lift {A : Type} (m : M A) : D A := (map Base (fst m), snd m).

Declare Scope D_scope.
Delimit Scope D_scope with D.
Notation "x <- m ;; k" := (bindD m (fun x => k))
  (at level 61, m at next level, right associativity) : D_scope.
Notation "' pat <- m ;; k" := (bindD m (fun x => match x with pat => k end))
  (at level 61, pat pattern, m at next level, right associativity) : D_scope.
Notation "m ;; k" := (bindD m (fun _ => k))
  (at level 61, right associativity) : D_scope.
Local Open Scope D_scope.

(** [for (const a of l) { s = body(s, a) }] *)
Fixpoint forOfD {A S : Type} (body : S -> A -> D S) (s : S) (l : list A) : D S :=
  match l with
  | [] => retD s
  | a :: l' => s' <- body s a ;; forOfD body s' l'
  end.

(** [page.drawCircle({ x, y, size, color })] on the page at [index]: a
    [number] option must not be NaN. *)
Definition drawCircle (circles : list (nat * Circle)) (index : nat) (c : Circle)
  : M (list (nat * Circle)) :=
  if is_nan (size c) then throw (TypeError "options.size")
  else if is_nan (x c) then throw (TypeError "options.x")
  else if is_nan (y c) then throw (TypeError "options.y")
  else ret (circles ++ [(index, c)]).

(* ----------------------------------------------------------------- *)
(** *** [src/src/components/SignatureEditor.tsx] *)

Module InEditorFile.

(** The body of the loop of [handleDownloadSignedPDF], lines 242-271. *)
Definition stamp (w : World.t) (overlayWidth overlayHeight : float) (font : PDF.PDFFont)
  (d : Drawn) (sig : Signature.t) : D Drawn :=
  '(index, page) <- lift (getPage (pdfDoc d) (Signature.page sig - 1)) ;;
  let pageHeight := PDF.height page in
  let pageWidth := PDF.width page in
  let scaleX := (pageWidth / overlayWidth)%float in
  let scaleY := (pageHeight / overlayHeight)%float in
  let scaledX := (Signature.x sig * scaleX)%float in
  let scaledY :=
    (pageHeight - (Signature.y sig * scaleY) - (Signature.fontSize sig / 2)
     + SignatureEditor.yOffset)%float in
  let c := hexToRgb (Signature.color sig) in
  emitD (LogPage overlayWidth overlayHeight pageWidth pageHeight) ;;
  emitD (LogSignature (Signature.text sig) (Signature.x sig) (Signature.y sig)
                     scaledX scaledY (Signature.fontSize sig) (Signature.color sig)) ;;
  '(pdfFont, pdfDoc) <-
    lift (match FONT_FILE_MAP (Signature.font sig) with
          | Some fontUrl =>
              response <- fetch w (requested w fontUrl) ;;
              let fontBytes := Response.arrayBuffer response in
              emit (ConsoleLog fontUrl (Response.status response)
                                   (List.length fontBytes)) ;;
              embedFont w (pdfDoc d) fontBytes
          | None => ret (font, pdfDoc d)
          end)%M ;;
  color <- lift (rgb (Rgb.r c) (Rgb.g c) (Rgb.b c)) ;;
  pdfDoc <- lift (drawText w pdfDoc index
                    (PDF.mkTextOp (Signature.text sig) scaledX scaledY
                                  (Signature.fontSize sig) color pdfFont)) ;;
  red <- lift (rgb (Some 1%float) (Some 0%float) (Some 0%float)) ;;
  circles <- lift (drawCircle (circles d) index (mkCircle scaledX scaledY 3 red)) ;;
  retD (mkDrawn pdfDoc circles).

(** [handleDownloadSignedPDF], lines 218-311. *)
Definition handleDownloadSignedPDF (env : Env) (container : option DOMRect.t)
  (document : Document.t) (st : State.t) : D unit :=
  let w := world env in
  let signatures := State.signatures st in
  response <- lift (fetch w (Document.original_url document)) ;;
  let existingPdfBytes := Response.arrayBuffer response in
  pdfDoc <- lift (PDFDocument_load w existingPdfBytes) ;;
  let '(font, pdfDoc) := embedStandardFont pdfDoc "Helvetica" in
  let '(overlayWidth, overlayHeight) :=
    match container with
    | Some rect => (DOMRect.width rect, DOMRect.height rect)
    | None => (500%float, 600%float)
    end in
  emitD (LogOverlay overlayWidth overlayHeight) ;;
  d <- forOfD (stamp w overlayWidth overlayHeight font) (mkDrawn pdfDoc []) signatures ;;
  let pdfBytes := save env d in
  let blob := Blob.mk pdfBytes "application/pdf" in
  let userId := Document.user_id document in
  let fileName := ("signed-" ++ Document.id document ++ ".pdf")%string in
  let filePath := (userId ++ "/" ++ fileName)%string in
  uploadError <- lift (storage_upload w "documents" filePath blob true) ;;
  match uploadError with
  | Some message => emitD (Base (Alert ("Failed to upload signed PDF: " ++ message)%string))
  | None =>
      let signedUrl := World.getPublicUrl w "documents" filePath in
      dbError <- lift (db_update w "documents"
                         [("signed_url", signedUrl); ("status", "signed")]
                         (Document.id document)) ;;
      match dbError with
      | Some message =>
          emitD (Base (Alert ("Failed to update document record: " ++ message)%string))
      | None =>
          emitD (LinkClick blob fileName) ;;
          emitD (Base (Alert "Signed PDF uploaded and available in dashboard!"))
      end
  end.

End InEditorFile.

(* ----------------------------------------------------------------- *)
(** *** [src/unnamed/part_003] *)

Module InPart003.

(** The body of the loop of [handleDownloadSignedPDF], lines 280-309. *)
Definition stamp (w : World.t) (overlayWidth overlayHeight : float) (font : PDF.PDFFont)
  (d : Drawn) (sig : Signature.t) : D Drawn :=
  '(index, page) <- lift (getPage (pdfDoc d) (Signature.page sig - 1)) ;;
  let pageHeight := PDF.height page in
  let pageWidth := PDF.width page in
  let scaleX := (pageWidth / overlayWidth)%float in
  let scaleY := (pageHeight / overlayHeight)%float in
  let scaledX := (Signature.x sig * scaleX)%float in
  let scaledY :=
    (pageHeight - (Signature.y sig * scaleY) - (Signature.fontSize sig / 2))%float in
  let c := hexToRgb (Signature.color sig) in
  emitD (LogPage overlayWidth overlayHeight pageWidth pageHeight) ;;
  emitD (LogSignature (Signature.text sig) (Signature.x sig) (Signature.y sig)
                     scaledX scaledY (Signature.fontSize sig) (Signature.color sig)) ;;
  '(pdfFont, pdfDoc) <-
    lift (match FONT_FILE_MAP (Signature.font sig) with
          | Some fontUrl =>
              response <- fetch w (requested w fontUrl) ;;
              let fontBytes := Response.arrayBuffer response in
              emit (ConsoleLog fontUrl (Response.status response)
                                   (List.length fontBytes)) ;;
              embedFont w (pdfDoc d) fontBytes
          | None => ret (font, pdfDoc d)
          end)%M ;;
  color <- lift (rgb (Rgb.r c) (Rgb.g c) (Rgb.b c)) ;;
  pdfDoc <- lift (drawText w pdfDoc index
                    (PDF.mkTextOp (Signature.text sig) scaledX scaledY
                                  (Signature.fontSize sig) color pdfFont)) ;;
  red <- lift (rgb (Some 1%float) (Some 0%float) (Some 0%float)) ;;
  circles <- lift (drawCircle (circles d) index (mkCircle scaledX scaledY 3 red)) ;;
  retD (mkDrawn pdfDoc circles).

(** [handleDownloadSignedPDF], lines 256-349. *)
Definition handleDownloadSignedPDF (env : Env) (container : option DOMRect.t)
  (document : Document.t) (st : State.t) : D unit :=
  let w := world env in
  let signatures := State.signatures st in
  response <- lift (fetch w (Document.original_url document)) ;;
  let existingPdfBytes := Response.arrayBuffer response in
  pdfDoc <- lift (PDFDocument_load w existingPdfBytes) ;;
  let '(font, pdfDoc) := embedStandardFont pdfDoc "Helvetica" in
  let '(overlayWidth, overlayHeight) :=
    match container with
    | Some rect => (DOMRect.width rect, DOMRect.height rect)
    | None => (500%float, 600%float)
    end in
  emitD (LogOverlay overlayWidth overlayHeight) ;;
  d <- forOfD (stamp w overlayWidth overlayHeight font) (mkDrawn pdfDoc []) signatures ;;
  let pdfBytes := save env d in
  let blob := Blob.mk pdfBytes "application/pdf" in
  let userId := Document.user_id document in
  let fileName := ("signed-" ++ Document.id document ++ ".pdf")%string in
  let filePath := (userId ++ "/" ++ fileName)%string in
  uploadError <- lift (storage_upload w "documents" filePath blob true) ;;
  match uploadError with
  | Some message => emitD (Base (Alert ("Failed to upload signed PDF: " ++ message)%string))
  | None =>
      let signedUrl := World.getPublicUrl w "documents" filePath in
      dbError <- lift (db_update w "documents"
                         [("signed_url", signedUrl); ("status", "signed")]
                         (Document.id document)) ;;
      match dbError with
      | Some message =>
          emitD (Base (Alert ("Failed to update document record: " ++ message)%string))
      | None =>
          emitD (LinkClick blob fileName) ;;
          emitD (Base (Alert "Signed PDF uploaded and available in dashboard!"))
      end
  end.

End InPart003.

Definition stampOf (impl : Implementation) :=
  match impl with
  | EditorFile => InEditorFile.stamp
  | UnnamedPart3 => InPart003.stamp
  end.

Definition handleDownloadSignedPDFOf (impl : Implementation) :=
  match impl with
  | EditorFile => InEditorFile.handleDownloadSignedPDF
  | UnnamedPart3 => InPart003.handleDownloadSignedPDF
  end.

(* ----------------------------------------------------------------- *)
(** *** Vocabulary of the properties of the download *)

(** The vertical placement of the download of part_003: half the font size
    below the top of the signature, with no correction. *)
Definition nativeY_centred (pageHeight overlayHeight y fontSize : float) : float :=
  (pageHeight - (y * (pageHeight / overlayHeight)) - (fontSize / 2))%float.

(** The native Y of each download. *)
Definition scaledY (impl : Implementation) (overlayHeight : float) (page : PDF.PDFPage)
  (sig : Signature.t) : float :=
  match impl with
  | EditorFile =>
      nativeY_offset (PDF.height page) overlayHeight (Signature.y sig) (Signature.fontSize sig)
  | UnnamedPart3 =>
      nativeY_centred (PDF.height page) overlayHeight (Signature.y sig) (Signature.fontSize sig)
  end.

(** The text and the options each download calls [drawText] with for a
    signature on a page: the font size is left unscaled in both. *)
Definition optionsOf (impl : Implementation) (overlayWidth overlayHeight : float)
  (page : PDF.PDFPage) (sig : Signature.t) (color : PDF.Color) (pdfFont : PDF.PDFFont)
  : PDF.TextOp :=
  PDF.mkTextOp (Signature.text sig)
    (nativeX (PDF.width page) overlayWidth (Signature.x sig))
    (scaledY impl overlayHeight page sig)
    (Signature.fontSize sig) color pdfFont.

(** The text operation each download draws: its options, in the size that
    is drawn. *)
Definition expectedOp (impl : Implementation) (overlayWidth overlayHeight : float)
  (page : PDF.PDFPage) (sig : Signature.t) (color : PDF.Color) (pdfFont : PDF.PDFFont)
  : PDF.TextOp :=
  PDF.drawn (optionsOf impl overlayWidth overlayHeight page sig color pdfFont).

Definition red : PDF.Color := PDF.mkColor 1 0 0.

(** The debug dot of a signature on a page: at the origin of its text, of
    radius 3, red. *)
Definition dotOf (impl : Implementation) (overlayWidth overlayHeight : float)
  (page : PDF.PDFPage) (sig : Signature.t) : Circle :=
  mkCircle (nativeX (PDF.width page) overlayWidth (Signature.x sig))
           (scaledY impl overlayHeight page sig) 3 red.

(** The two console logs of a loop body. *)
Definition logsOf (impl : Implementation) (overlayWidth overlayHeight : float)
  (page : PDF.PDFPage) (sig : Signature.t) : list Ev :=
  [LogPage overlayWidth overlayHeight (PDF.width page) (PDF.height page);
   LogSignature (Signature.text sig) (Signature.x sig) (Signature.y sig)
                (nativeX (PDF.width page) overlayWidth (Signature.x sig))
                (scaledY impl overlayHeight page sig)
                (Signature.fontSize sig) (Signature.color sig)].

(** A loop body in pieces: the page, the logs, the font (logged, as in
    the [handleSave] of SignatureEditor.tsx), the colour, the text and the
    dot. *)
Definition stampWith (impl : Implementation) (w : World.t)
  (overlayWidth overlayHeight : float) (font : PDF.PDFFont) (d : Drawn) (sig : Signature.t)
  : D Drawn :=
  '(index, page) <- lift (getPage (pdfDoc d) (Signature.page sig - 1)) ;;
  emitD (LogPage overlayWidth overlayHeight (PDF.width page) (PDF.height page)) ;;
  emitD (LogSignature (Signature.text sig) (Signature.x sig) (Signature.y sig)
                      (nativeX (PDF.width page) overlayWidth (Signature.x sig))
                      (scaledY impl overlayHeight page sig)
                      (Signature.fontSize sig) (Signature.color sig)) ;;
  '(pdfFont, pdfDoc) <- lift (resolveFont EditorFile w font (pdfDoc d) sig) ;;
  color <- lift (colourOf (Signature.color sig)) ;;
  pdfDoc <- lift (drawText w pdfDoc index
                    (optionsOf impl overlayWidth overlayHeight page sig color pdfFont)) ;;
  red <- lift (rgb (Some 1%float) (Some 0%float) (Some 0%float)) ;;
  circles <- lift (drawCircle (circles d) index
                     (mkCircle (nativeX (PDF.width page) overlayWidth (Signature.x sig))
                               (scaledY impl overlayHeight page sig) 3 red)) ;;
  retD (mkDrawn pdfDoc circles).

(** From [pdfDoc.save()] to the last alert. *)
Definition finish (env : Env) (document : Document.t) (d : Drawn) : D unit :=
  let w := world env in
  let blob := Blob.mk (save env d) "application/pdf" in
  let fileName := ("signed-" ++ Document.id document ++ ".pdf")%string in
  uploadError <- lift (storage_upload w "documents" (signedPath document) blob true) ;;
  match uploadError with
  | Some message => emitD (Base (Alert ("Failed to upload signed PDF: " ++ message)%string))
  | None =>
      dbError <- lift (db_update w "documents"
                         [("signed_url", World.getPublicUrl w "documents" (signedPath document));
                          ("status", "signed")]
                         (Document.id document)) ;;
      match dbError with
      | Some message =>
          emitD (Base (Alert ("Failed to update document record: " ++ message)%string))
      | None =>
          emitD (LinkClick blob fileName) ;;
          emitD (Base (Alert "Signed PDF uploaded and available in dashboard!"))
      end
  end.

(** The frame of [handleDownloadSignedPDF] around a loop body. *)
Definition handleDownloadSignedPDF_with
  (body : World.t -> float -> float -> PDF.PDFFont -> Drawn -> Signature.t -> D Drawn)
  (env : Env) (container : option DOMRect.t) (document : Document.t) (st : State.t)
  : D unit :=
  response <- lift (fetch (world env) (Document.original_url document)) ;;
  pdfDoc <- lift (PDFDocument_load (world env) (Response.arrayBuffer response)) ;;
  emitD (LogOverlay (fst (overlaySize container)) (snd (overlaySize container))) ;;
  d <- forOfD (body (world env) (fst (overlaySize container)) (snd (overlaySize container))
                    (PDF.Standard "Helvetica"))
              (mkDrawn (snd (embedStandardFont pdfDoc "Helvetica")) [])
              (State.signatures st) ;;
  finish env document d.

(** Events that only read or log: requests and console logs. *)
Definition silent (ev : Ev) : Prop :=
  match ev with
  | Base ev => quiet ev
  | LogOverlay _ _ | LogPage _ _ _ _ | LogSignature _ _ _ _ _ _ _ => True
  | LinkClick _ _ => False
  end.

(** The events of a download that [handleSave] has too. *)
Definition baseOf (t : list Ev) : list Event :=
  flat_map (fun ev => match ev with Base ev => [ev] | _ => [] end) t.

(** The text and fonts a download has drawn, or its exception. *)
Definition textOf (r : D Drawn) : Exn + PDF.PDFDocument :=
  match snd r with
  | inl e => inl e
  | inr d => inr (pdfDoc d)
  end.

End Download.

(** The world of the scenario for a download: the serialization has one
    byte for each page and one for each circle. *)
Definition downloadEnv (n : nat) (missing : list string) : Download.Env :=
  Download.mkEnv (Scenario.world n missing)
    (fun d => repeat x25 (List.length (PDF.pages (Download.pdfDoc d)))
              ++ repeat x2e (List.length (Download.circles d))).

(* ================================================================= *)
(** ** The editor as the user drives it

    The event props of the JSX of the two files, as the steps of a
    machine on the state cells.  An action that the rendered page does not
    offer (an option that is not listed, a signature that is not shown, a
    handler that is not wired in that file) is no step. *)

(** [FONT_OPTIONS]: the values the font selector offers. *)
Definition FONT_OPTIONS : list string :=
  ["Great Vibes, cursive"; "Pacifico, cursive"; "Satisfy, cursive"].

Definition setSelectedFont (v : string) (st : State.t) : State.t :=
  State.mk (State.signatures st) (State.selectedSignature st) (State.isDragging st)
           (State.dragOffset st) (State.signatureText st) v
           (State.selectedColor st) (State.fontSize st) (State.selectedPage st)
           (State.numPages st).

Definition setSelectedColor (v : string) (st : State.t) : State.t :=
  State.mk (State.signatures st) (State.selectedSignature st) (State.isDragging st)
           (State.dragOffset st) (State.signatureText st) (State.selectedFont st)
           v (State.fontSize st) (State.selectedPage st) (State.numPages st).

Definition setFontSize (v : float) (st : State.t) : State.t :=
  State.mk (State.signatures st) (State.selectedSignature st) (State.isDragging st)
           (State.dragOffset st) (State.signatureText st) (State.selectedFont st)
           (State.selectedColor st) v (State.selectedPage st) (State.numPages st).

Definition setNumPages (v : Z) (st : State.t) : State.t :=
  State.mk (State.signatures st) (State.selectedSignature st) (State.isDragging st)
           (State.dragOffset st) (State.signatureText st) (State.selectedFont st)
           (State.selectedColor st) (State.fontSize st) (State.selectedPage st) v.

Module UI.

Inductive Action :=
(* the controls, in both files *)
| TypeText (value : string)        (* the text input: [setSignatureText(e.target.value)] *)
| ChooseFont (value : string)      (* the font selector, one option for each of FONT_OPTIONS *)
| ChooseColor (value : string)     (* the colour selector, one option for each of COLOR_OPTIONS *)
| ChooseFontSize (value : float)   (* the size input: [setFontSize(Number(e.target.value))] *)
| ChoosePage (value : Z)           (* the page selector, options 1 .. numPages *)
| ClickAdd (now : Z)               (* the Add button, at clock reading [now] *)
| ClickRemove (n : nat)            (* the Remove button of the [n]th listed signature *)
(* the overlay, in both files *)
| MouseDown (container : option DOMRect.t) (e : MouseEvent.t) (n : nat)
                                   (* on the [n]th signature the overlay shows *)
| MouseMove (container : option DOMRect.t) (e : MouseEvent.t)
| MouseUp
| MouseLeave
(* part_003 only *)
| TouchStart (container : option DOMRect.t) (e : TouchEvent.t) (n : nat)
| TouchMove (container : option DOMRect.t) (e : TouchEvent.t)
| TouchEnd
| ClickRemoveShown (n : nat)       (* the button inside the [n]th shown signature *)
| ClickPrevious
| ClickNext
| LoadSuccess (numPages : Z).      (* the [setNumPages] prop handed to the viewer *)

(** Only part_003 wires these. *)
Definition inPart003 (impl : Implementation) (st : option State.t) : option State.t :=
  match impl with
  | UnnamedPart3 => st
  | EditorFile => None
  end.

Definition step (impl : Implementation) (a : Action) (st : State.t) : option State.t :=
  match a with
  | TypeText value => Some (State.setSignatureText value st)
  | ChooseFont value =>
      if existsb (String.eqb value) FONT_OPTIONS then Some (setSelectedFont value st)
      else None
  | ChooseColor value =>
      if existsb (String.eqb value) COLOR_OPTIONS then Some (setSelectedColor value st)
      else None
  | ChooseFontSize value => Some (setFontSize value st)
  | ChoosePage value =>
      if (1 <=? value)%Z && (value <=? State.numPages st)%Z
      then Some (setSelectedPage value st) else None
  | ClickAdd now => Some (addSignature now st)
  | ClickRemove n =>
      option_map (fun sig => removeSignature (Signature.id sig) st)
                 (nth_error (State.signatures st) n)
  | MouseDown container e n =>
      option_map (fun sig => handleMouseDown container e sig st)
                 (nth_error (visibleSignatures st) n)
  | MouseMove container e => Some (handleMouseMove container e st)
  | MouseUp | MouseLeave => Some (handleMouseUp st)
  | TouchStart container e n =>
      inPart003 impl
        (option_map (fun sig => handleTouchStart container e sig st)
                    (nth_error (visibleSignatures st) n))
  | TouchMove container e =>
      inPart003 impl
        (if State.isDragging st then Some (Part003.handleTouchMove container e st) else None)
  | TouchEnd => inPart003 impl (Some (handleTouchEnd st))
  | ClickRemoveShown n =>
      inPart003 impl
        (option_map (fun sig => removeSignature (Signature.id sig) st)
                    (nth_error (visibleSignatures st) n))
  | ClickPrevious => inPart003 impl (Some (previousPage st))
  | ClickNext => inPart003 impl (Some (nextPage st))
  | LoadSuccess numPages => inPart003 impl (Some (setNumPages numPages st))
  end.

(** The state after a sequence of actions, if the page offered each. *)
Fixpoint run (impl : Implementation) (actions : list Action) (st : State.t)
  : option State.t :=
  match actions with
  | [] => Some st
  | a :: rest =>
      match step impl a st with
      | Some st' => run impl rest st'
      | None => None
      end
  end.

(** What holds of the editor at all times. *)
Definition offered (st : State.t) : Prop :=
  In (State.selectedFont st) FONT_OPTIONS
  /\ In (State.selectedColor st) COLOR_OPTIONS
  /\ (1 <= State.selectedPage st)%Z
  /\ selection_in_store st
  /\ Forall (fun sig => In (Signature.font sig) FONT_OPTIONS
                        /\ In (Signature.color sig) COLOR_OPTIONS
                        /\ (1 <= Signature.page sig)%Z)
            (State.signatures st).

(** What holds of the editor of SignatureEditor.tsx at all times. *)
Definition firstPageOnly (st : State.t) : Prop :=
  State.numPages st = 1%Z /\ State.selectedPage st = 1%Z
  /\ Forall (fun sig => Signature.page sig = 1%Z) (State.signatures st).

End UI.

(** The cells the controls set are the same in [st'] as in [st]. *)
Definition same_controls (st st' : State.t) : Prop :=
  State.selectedFont st' = State.selectedFont st
  /\ State.selectedColor st' = State.selectedColor st
  /\ State.selectedPage st' = State.selectedPage st
  /\ State.numPages st' = State.numPages st.

(* ================================================================= *)
(** ** The viewer under the overlay

    [PDFViewer] (in [src/src/components/FileUpload.tsx], lines 516-687) is
    what both editors render under the signatures.  It keeps its own page:
    its props are [url], [title], [width], [height] and [onBack]. *)

Module PDFViewer.

(** The [useState] cells of the component. *)
Record t := mk { numPages : Z; pageNumber : Z; pdfError : string; loading : bool }.

Definition initial : t := mk 0 1 "" true.

(** [onDocumentLoadSuccess] *)
Definition onDocumentLoadSuccess (numPages : Z) (st : t) : t :=
  mk numPages (pageNumber st) "" false.

(** [onDocumentLoadError] *)
Definition onDocumentLoadError (message : string) (st : t) : t :=
  mk (numPages st) (pageNumber st) ("Failed to load PDF: " ++ message)%string false.

(** [goToPrevPage] *)
Definition goToPrevPage (st : t) : t :=
  mk (numPages st) (Z.max (pageNumber st - 1) 1) (pdfError st) (loading st).

(** [goToNextPage] *)
Definition goToNextPage (st : t) : t :=
  mk (numPages st) (Z.min (pageNumber st + 1) (numPages st)) (pdfError st) (loading st).

(** [pdfError ? ... : ...]: the document and its navigation are rendered
    only while there is no error message. *)
Definition rendersDocument (st : t) : bool := String.eqb (pdfError st) "".

(** [numPages > 1 && ...]: the navigation bar. *)
Definition rendersNavigation (st : t) : bool :=
  rendersDocument st && (1 <? numPages st)%Z.

Inductive Action :=
| LoadSuccess (numPages : Z)     (* [onLoadSuccess] of the rendered document *)
| LoadError (message : string)   (* [onLoadError] of the rendered document *)
| ClickPrevious                  (* disabled when [pageNumber <= 1] *)
| ClickNext.                     (* disabled when [pageNumber >= numPages] *)

Definition step (a : Action) (st : t) : option t :=
  match a with
  | LoadSuccess numPages =>
      if rendersDocument st then Some (onDocumentLoadSuccess numPages st) else None
  | LoadError message =>
      if rendersDocument st then Some (onDocumentLoadError message st) else None
  | ClickPrevious =>
      if rendersNavigation st && negb (pageNumber st <=? 1)%Z
      then Some (goToPrevPage st) else None
  | ClickNext =>
      if rendersNavigation st && negb (numPages st <=? pageNumber st)%Z
      then Some (goToNextPage st) else None
  end.

Fixpoint run (actions : list Action) (st : t) : option t :=
  match actions with
  | [] => Some st
  | a :: rest =>
      match step a st with
      | Some st' => run rest st'
      | None => None
      end
  end.

(** Every load of the list reports [n] pages. *)
Definition loads (n : Z) (actions : list Action) : Prop :=
  Forall (fun a => match a with LoadSuccess m => m = n | _ => True end) actions.

End PDFViewer.

(* ================================================================= *)
(** ** The dashboard that opens the editor

    [src/src/components/Dashboard.tsx]: the list of documents, its search
    box, and the screens it switches between.  The record store answers a
    query with [{ data, error }]. *)

(** The [String.prototype] functions of the search box. *)
Module Str.

(** [toLowerCase] on one code unit below 256: the Latin capitals A-Z and
    U+00C0-U+00DE, but for the multiplication sign U+00D7, are 32 below
    their small letters. *)
Definition lower (c : ascii) : ascii :=
  let n := nat_of_ascii c in
  if ((65 <=? n) && (n <=? 90))%nat
     || ((192 <=? n) && (n <=? 222) && negb (n =? 215))%nat
  then ascii_of_nat (n + 32) else c.

Fixpoint toLowerCase (s : string) : string :=
  match s with
  | EmptyString => EmptyString
  | String c s' => String (lower c) (toLowerCase s')
  end.

(** [s.includes(t)] *)
Fixpoint includes (s t : string) : bool :=
  String.prefix t s
  || match s with
     | String _ s' => includes s' t
     | EmptyString => false
     end.

End Str.

Module Dashboard.

(** The [useState] cells of the component. *)
Record t := mk {
  documents : list Document.t;
  loading : bool;
  searchTerm : string;
  selectedDocument : option Document.t;
  showUpload : bool;
  showSignatureEditor : bool;
  showPreview : bool;
  previewDocument : option Document.t
}.

Definition initial : t := mk [] true "" None false false false None.

(** [{ data, error }] *)
Record Answer := mkAnswer { data : option (list Document.t); error : option string }.

Inductive Log :=
| ErrorFetching (error : string)    (* [console.error('Error fetching documents:', error)] *)
| ErrorDeleting (error : string).   (* [console.error('Error deleting document:', error)] *)

(** [fetchDocuments], lines 26-41, given the answer of the query. *)
Definition fetchDocuments (answer : Answer) (st : t) : list Log * t :=
  match error answer with
  | Some e =>
      ([ErrorFetching e],
       mk (documents st) false (searchTerm st) (selectedDocument st) (showUpload st)
          (showSignatureEditor st) (showPreview st) (previewDocument st))
  | None =>
      ([],
       mk (match data answer with Some d => d | None => [] end) false (searchTerm st)
          (selectedDocument st) (showUpload st) (showSignatureEditor st) (showPreview st)
          (previewDocument st))
  end.

(** [deleteDocument], lines 43-55, given the error of the deletion. *)
Definition deleteDocument (id : string) (error : option string) (st : t) : list Log * t :=
  match error with
  | Some e => ([ErrorDeleting e], st)
  | None =>
      ([],
       mk (filter (fun doc => negb (String.eqb (Document.id doc) id)) (documents st))
          (loading st) (searchTerm st) (selectedDocument st) (showUpload st)
          (showSignatureEditor st) (showPreview st) (previewDocument st))
  end.

(** [filteredDocuments], lines 57-59. *)
Definition filteredDocuments (st : t) : list Document.t :=
  filter (fun doc => Str.includes (Str.toLowerCase (Document.name doc))
                                  (Str.toLowerCase (searchTerm st)))
         (documents st).

(** What the component returns, lines 69-96. *)
Inductive Screen :=
| UploadScreen
| EditorScreen (document : Document.t)
| ListScreen.

Definition screen (st : t) : Screen :=
  if showUpload st then UploadScreen
  else match showSignatureEditor st, selectedDocument st with
       | true, Some document => EditorScreen document
       | _, _ => ListScreen
       end.

(** The [onSave] handed to the editor, lines 85-89. *)
Definition onSave (answer : Answer) (st : t) : list Log * t :=
  fetchDocuments answer
    (mk (documents st) (loading st) (searchTerm st) None (showUpload st) false
        (showPreview st) (previewDocument st)).

(** The [onCancel] handed to the editor, lines 90-93. *)
Definition onCancel (st : t) : t :=
  mk (documents st) (loading st) (searchTerm st) None (showUpload st) false
     (showPreview st) (previewDocument st).

(** The Sign Document button of a listed document, lines 226-236. *)
Definition clickSign (document : Document.t) (st : t) : t :=
  mk (documents st) (loading st) (searchTerm st) (Some document) (showUpload st) true
     (showPreview st) (previewDocument st).

(** [document.signed_url || document.original_url]: an empty string is
    falsy. *)
Definition previewUrl (document : Document.t) : string :=
  match Document.signed_url document with
  | Some url => if String.eqb url "" then Document.original_url document else url
  | None => Document.original_url document
  end.

(** The View button of a listed document, lines 237-247. *)
Definition clickView (document : Document.t) (st : t) : t :=
  mk (documents st) (loading st) (searchTerm st) (selectedDocument st) (showUpload st)
     (showSignatureEditor st) true
     (Some (Document.mk (Document.id document) (Document.user_id document)
                        (Document.name document) (previewUrl document)
                        (Document.signed_url document) (Document.status document)
                        (Document.created_at document) (Document.updated_at document))).

Definition setSearchTerm (value : string) (st : t) : t :=
  mk (documents st) (loading st) value (selectedDocument st) (showUpload st)
     (showSignatureEditor st) (showPreview st) (previewDocument st).

Inductive Action :=
| Fetched (answer : Answer)              (* the query of the first effect answers *)
| TypeSearch (value : string)            (* the search box *)
| ClickUpload                            (* either Upload Document button *)
| UploadSuccess (answer : Answer)        (* [onSuccess] of the upload screen *)
| UploadCancel                           (* [onCancel] of the upload screen *)
| ClickSign (n : nat)                    (* on the [n]th listed document, if unsigned *)
| ClickView (n : nat)
| ClickDelete (n : nat) (error : option string)
| ClickBack                              (* the back button of the preview *)
| EditorSaved (answer : Answer)          (* the editor calls [onSave] *)
| EditorCancelled.                       (* the editor calls [onCancel] *)

(** The list is rendered on the list screen once loaded. *)
Definition listed (st : t) (n : nat) : option Document.t :=
  match screen st, loading st with
  | ListScreen, false => nth_error (filteredDocuments st) n
  | _, _ => None
  end.

Definition onList (st : t) (st' : t) : option t :=
  match screen st with
  | ListScreen => Some st'
  | _ => None
  end.

Definition step (a : Action) (st : t) : option t :=
  match a with
  | Fetched answer => Some (snd (fetchDocuments answer st))
  | TypeSearch value => onList st (setSearchTerm value st)
  | ClickUpload =>
      onList st (mk (documents st) (loading st) (searchTerm st) (selectedDocument st) true
                    (showSignatureEditor st) (showPreview st) (previewDocument st))
  | UploadSuccess answer =>
      match screen st with
      | UploadScreen =>
          Some (snd (fetchDocuments answer
                       (mk (documents st) (loading st) (searchTerm st) (selectedDocument st)
                           false (showSignatureEditor st) (showPreview st)
                           (previewDocument st))))
      | _ => None
      end
  | UploadCancel =>
      match screen st with
      | UploadScreen =>
          Some (mk (documents st) (loading st) (searchTerm st) (selectedDocument st)
                   false (showSignatureEditor st) (showPreview st) (previewDocument st))
      | _ => None
      end
  | ClickSign n =>
      match listed st n with
      | Some document =>
          match Document.status document with
          | Document.unsigned => Some (clickSign document st)
          | Document.signed => None
          end
      | None => None
      end
  | ClickView n => option_map (fun document => clickView document st) (listed st n)
  | ClickDelete n error =>
      option_map (fun document => snd (deleteDocument (Document.id document) error st))
                 (listed st n)
  | ClickBack =>
      match screen st, showPreview st, previewDocument st with
      | ListScreen, true, Some _ =>
          Some (mk (documents st) (loading st) (searchTerm st) (selectedDocument st)
                   (showUpload st) (showSignatureEditor st) false (previewDocument st))
      | _, _, _ => None
      end
  | EditorSaved answer =>
      match screen st with
      | EditorScreen _ => Some (snd (onSave answer st))
      | _ => None
      end
  | EditorCancelled =>
      match screen st with
      | EditorScreen _ => Some (onCancel st)
      | _ => None
      end
  end.

Fixpoint run (actions : list Action) (st : t) : option t :=
  match actions with
  | [] => Some st
  | a :: rest =>
      match step a st with
      | Some st' => run rest st'
      | None => None
      end
  end.

(** The document chosen for signing, if any, was unsigned when chosen, and
    the editor is not asked for without one. *)
Definition signing_unsigned (st : t) : Prop :=
  match selectedDocument st with
  | Some document => Document.status document = Document.unsigned
  | None => showSignatureEditor st = false
  end.

End Dashboard.
(* ================================================================= *)
(** * Properties *)

(* ----------------------------------------------------------------- *)
(** ** Binary64 comparisons *)

Lemma SFcompare_antisym (a b : spec_float) :
  SFcompare b a = option_map CompOpp (SFcompare a b).
Proof.
  destruct a as [sa|sa| |sa ma ea], b as [sb|sb| |sb mb eb]; simpl; try reflexivity;
    try (destruct sa; reflexivity); try (destruct sb; reflexivity);
    try (destruct sa, sb; reflexivity).
  assert (HP := Pos.compare_antisym ma mb). unfold Pos.compare in HP.
  destruct sa, sb; simpl; try reflexivity;
    rewrite (Z.compare_antisym ea eb); destruct (ea ?= eb)%Z; simpl; try reflexivity;
    rewrite HP; reflexivity.
Qed.

Lemma is_nan_SF (a : float) : is_nan a = false -> Prim2SF a <> S754_nan.
Proof.
  unfold is_nan. rewrite eqb_spec. intros H E. rewrite E in H. discriminate.
Qed.

Lemma SFcompare_some (a b : spec_float) :
  a <> S754_nan -> b <> S754_nan -> exists c, SFcompare a b = Some c.
Proof.
  intros Ha Hb.
  destruct a as [sa|sa| |sa ma ea], b as [sb|sb| |sb mb eb]; simpl; try congruence; eauto.
Qed.

Lemma ltb_leb (a b : float) : (a <? b)%float = true -> (a <=? b)%float = true.
Proof.
  rewrite ltb_spec, leb_spec. unfold SFltb, SFleb.
  destruct (SFcompare (Prim2SF a) (Prim2SF b)) as [[]|]; congruence.
Qed.

Lemma not_ltb_leb (a b : float) :
  is_nan a = false -> is_nan b = false -> (b <? a)%float = false -> (a <=? b)%float = true.
Proof.
  intros Ha Hb. apply is_nan_SF in Ha, Hb.
  rewrite ltb_spec, leb_spec. unfold SFltb, SFleb.
  rewrite (SFcompare_antisym (Prim2SF a) (Prim2SF b)).
  destruct (SFcompare_some _ _ Ha Hb) as [c ->]. destruct c; simpl; congruence.
Qed.

Lemma leb_refl (a : float) : is_nan a = false -> (a <=? a)%float = true.
Proof.
  unfold is_nan. rewrite eqb_spec, leb_spec. unfold SFeqb, SFleb.
  destruct (SFcompare (Prim2SF a) (Prim2SF a)) as [[]|]; simpl; congruence.
Qed.

Lemma leb_is_number (a b : float) : (a <=? b)%float = true -> is_nan b = false.
Proof.
  rewrite leb_spec. unfold SFleb. intros H.
  destruct (is_nan b) eqn:E; [|reflexivity].
  unfold is_nan in E. rewrite eqb_spec in E. unfold SFeqb in E.
  destruct (Prim2SF b) as [sb|sb| |sb mb eb] eqn:Eb.
  - destruct (Prim2SF a); simpl in *; discriminate.
  - destruct sb; simpl in E; discriminate.
  - destruct (Prim2SF a); discriminate.
  - simpl in E. rewrite Z.compare_refl in E.
    assert (HP := Pos.compare_refl mb). unfold Pos.compare in HP. rewrite HP in E.
    destruct sb; discriminate.
Qed.

(* ----------------------------------------------------------------- *)
(** ** [clamp] *)

Lemma Math_min_cases (a b : float) :
  is_nan a = false -> is_nan b = false ->
  JS.Math_min a b = b \/ (JS.Math_min a b = a /\ (b <? a)%float = false).
Proof.
  intros Ha Hb. unfold JS.Math_min. rewrite Ha, Hb. simpl.
  destruct (b <? a)%float eqn:E;
    destruct (classify a); try (left; reflexivity); try (right; split; reflexivity);
    destruct (classify b); try (left; reflexivity); right; split; reflexivity.
Qed.

Lemma Math_max_zero (b : float) :
  is_nan b = false ->
  JS.Math_max 0 b = if (0 <? b)%float then b else 0%float.
Proof.
  intros Hb. unfold JS.Math_max. rewrite Hb.
  change (is_nan 0) with false. change (classify 0) with PZero. reflexivity.
Qed.

Lemma Math_min_is_number (a b : float) :
  is_nan a = false -> is_nan b = false -> is_nan (JS.Math_min a b) = false.
Proof.
  intros Ha Hb. destruct (Math_min_cases a b Ha Hb) as [-> | [-> _]]; assumption.
Qed.

Lemma clamp_lower (value max : float) :
  is_nan value = false -> is_nan max = false ->
  (0 <=? clamp value 0 max)%float = true.
Proof.
  intros Hv Hm. unfold clamp.
  rewrite Math_max_zero by (apply Math_min_is_number; assumption).
  destruct (0 <? JS.Math_min value max)%float eqn:E.
  - apply ltb_leb, E.
  - reflexivity.
Qed.

Lemma clamp_upper (value max : float) :
  is_nan value = false -> (0 <=? max)%float = true ->
  (clamp value 0 max <=? max)%float = true.
Proof.
  intros Hv H0. assert (Hm := leb_is_number _ _ H0). unfold clamp.
  rewrite Math_max_zero by (apply Math_min_is_number; assumption).
  destruct (0 <? JS.Math_min value max)%float eqn:E; [|exact H0].
  destruct (Math_min_cases value max Hv Hm) as [-> | [-> Hlt]].
  - apply leb_refl, Hm.
  - apply not_ltb_leb; assumption.
Qed.

Lemma clamp_inside (value extent footprint : float) :
  is_nan value = false -> is_nan (extent - footprint) = false ->
  inside (clamp value 0 (extent - footprint)) extent footprint.
Proof.
  intros Hv Hm. split.
  - apply clamp_lower; assumption.
  - intros H0. apply clamp_upper; assumption.
Qed.

(* ----------------------------------------------------------------- *)
(** ** The annotation store *)

Lemma signatures_removeSignature (id : string) (st : State.t) :
  State.signatures (removeSignature id st)
  = filter (fun sig => negb (String.eqb (Signature.id sig) id)) (State.signatures st).
Proof.
  unfold removeSignature. destruct (selected_is id st); reflexivity.
Qed.

Lemma signatures_updateSignature (id : string) (updates : Signature.partial) (st : State.t) :
  State.signatures (updateSignature id updates st)
  = map (fun sig => if String.eqb (Signature.id sig) id
                    then Signature.spread sig updates else sig) (State.signatures st).
Proof.
  unfold updateSignature. destruct (State.selectedSignature st) as [s|]; [|reflexivity].
  destruct (String.eqb (Signature.id s) id); reflexivity.
Qed.

Lemma signatures_addSignature (now : Z) (st : State.t) :
  State.signatures (addSignature now st) = State.signatures st
  \/ exists sig, Signature.id sig = JS.toString now /\
                 State.signatures (addSignature now st) = State.signatures st ++ [sig].
Proof.
  unfold addSignature. destruct (String.eqb (JS.trim (State.signatureText st)) "").
  - left. reflexivity.
  - right. eexists. split; [|reflexivity]. reflexivity.
Qed.

Lemma filter_other_ids (id : string) (l : list Signature.t) :
  ~ In id (map Signature.id l) ->
  filter (fun sig => negb (String.eqb (Signature.id sig) id)) l = l.
Proof.
  induction l as [|sig l IH]; intros Hfresh; [reflexivity|]. simpl.
  destruct (String.eqb_spec (Signature.id sig) id) as [E|_].
  - exfalso. apply Hfresh. left. exact E.
  - simpl. f_equal. apply IH. intros Hin. apply Hfresh. right. exact Hin.
Qed.

Lemma updated_position (id : string) (newX newY : float) (st : State.t) (sig : Signature.t) :
  In sig (State.signatures (updateSignature id (Signature.position newX newY) st)) ->
  Signature.id sig = id ->
  Signature.x sig = newX /\ Signature.y sig = newY.
Proof.
  rewrite signatures_updateSignature. intros Hin Hid.
  apply in_map_iff in Hin. destruct Hin as [sig0 [Hsig _]].
  destruct (String.eqb_spec (Signature.id sig0) id) as [_|Hne].
  - subst sig. split; reflexivity.
  - subst sig0. contradiction.
Qed.

(** C7.  For every state of the annotation store and every add whose
    generated id, the decimal string of [Date.now()], does not occur in the
    store, removing the annotation by that id afterwards gives back the list
    of annotations as it was before the add. *)
Theorem add_then_remove_restores_list (now : Z) (st : State.t) :
  ~ In (JS.toString now) (map Signature.id (State.signatures st)) ->
  State.signatures (removeSignature (JS.toString now) (addSignature now st))
  = State.signatures st.
Proof.
  intros Hfresh. rewrite signatures_removeSignature.
  destruct (signatures_addSignature now st) as [-> | [sig [Hid ->]]].
  - apply filter_other_ids, Hfresh.
  - rewrite filter_app, (filter_other_ids _ _ Hfresh). simpl.
    rewrite Hid, String.eqb_refl. simpl. apply app_nil_r.
Qed.

Lemma add_then_remove_restores_list_witness :
  let st := State.setSignatureText "Jane Doe" (Scenario.editing [Scenario.jane 1; Scenario.john]) in
  State.signatures (addSignature 1751212800002 st)
  = [Scenario.jane 1; Scenario.john;
     Signature.mk "1751212800002" "Jane Doe" "Great Vibes, cursive" 24 "#1e40af" 100 100 1]
  /\ State.signatures (removeSignature "1751212800002" (addSignature 1751212800002 st))
     = [Scenario.jane 1; Scenario.john].
Proof.
  split.
  - vm_compute. reflexivity.
  - apply (add_then_remove_restores_list 1751212800002
             (State.setSignatureText "Jane Doe"
                (Scenario.editing [Scenario.jane 1; Scenario.john]))).
    vm_compute. intros [H|[H|[]]]; discriminate H.
Defined.

(* ----------------------------------------------------------------- *)
(** ** Dragging *)

Lemma moved_inside (rect : DOMRect.t) (selected : Signature.t) (rawX rawY : float)
  (st : State.t) (sig : Signature.t) :
  is_nan rawX = false -> is_nan rawY = false ->
  is_nan (DOMRect.width rect - Signature.fontSize selected) = false ->
  is_nan (DOMRect.height rect - Signature.fontSize selected) = false ->
  In sig (State.signatures
            (updateSignature (Signature.id selected)
               (Signature.position
                  (clamp rawX 0 (DOMRect.width rect - Signature.fontSize selected))
                  (clamp rawY 0 (DOMRect.height rect - Signature.fontSize selected))) st)) ->
  Signature.id sig = Signature.id selected ->
  inside (Signature.x sig) (DOMRect.width rect) (Signature.fontSize selected)
  /\ inside (Signature.y sig) (DOMRect.height rect) (Signature.fontSize selected).
Proof.
  intros Hx Hy Hw Hh Hin Hid.
  destruct (updated_position _ _ _ _ _ Hin Hid) as [-> ->].
  split; apply clamp_inside; assumption.
Qed.

(** C8, as amended.  After a mouse move ([handleMouseMove]) or a touch move
    ([handleTouchMove] of part_003) of the selected signature, with pointer
    coordinates and overlay sizes that are numbers, the stored position of
    that signature is not negative, and it is at most the overlay size minus
    the font size in each direction where the overlay is at least as large
    as the font size. *)
Theorem drag_position_inside_overlay (rect : DOMRect.t) (st : State.t)
  (selected : Signature.t) :
  State.isDragging st = true ->
  State.selectedSignature st = Some selected ->
  is_nan (DOMRect.width rect - Signature.fontSize selected) = false ->
  is_nan (DOMRect.height rect - Signature.fontSize selected) = false ->
  (forall (e : MouseEvent.t) (sig : Signature.t),
      is_nan (MouseEvent.clientX e - DOMRect.left rect - fst (State.dragOffset st)) = false ->
      is_nan (MouseEvent.clientY e - DOMRect.top rect - snd (State.dragOffset st)) = false ->
      In sig (State.signatures (handleMouseMove (Some rect) e st)) ->
      Signature.id sig = Signature.id selected ->
      inside (Signature.x sig) (DOMRect.width rect) (Signature.fontSize selected)
      /\ inside (Signature.y sig) (DOMRect.height rect) (Signature.fontSize selected))
  /\
  (forall (e : TouchEvent.t) (touch : TouchEvent.Touch) (others : list TouchEvent.Touch)
          (sig : Signature.t),
      TouchEvent.touches e = touch :: others ->
      is_nan (TouchEvent.clientX touch - DOMRect.left rect - fst (State.dragOffset st)) = false ->
      is_nan (TouchEvent.clientY touch - DOMRect.top rect - snd (State.dragOffset st)) = false ->
      In sig (State.signatures (Part003.handleTouchMove (Some rect) e st)) ->
      Signature.id sig = Signature.id selected ->
      inside (Signature.x sig) (DOMRect.width rect) (Signature.fontSize selected)
      /\ inside (Signature.y sig) (DOMRect.height rect) (Signature.fontSize selected)).
Proof.
  intros Hdrag Hsel Hw Hh. split.
  - intros e sig Hx Hy. unfold handleMouseMove. rewrite Hdrag, Hsel.
    apply moved_inside; assumption.
  - intros e touch others sig Ht Hx Hy. unfold Part003.handleTouchMove.
    rewrite Hdrag, Hsel, Ht. apply moved_inside; assumption.
Qed.

Lemma drag_position_inside_overlay_witness :
  let moved := Signature.mk "1751212800000" "Jane Doe" "Great Vibes, cursive" 24 "#1e40af"
                            476 0 1 in
  State.signatures
    (handleMouseMove (Scenario.overlay 500 600) (MouseEvent.mk 700 (-50))
                     (Scenario.dragging (Scenario.jane 1))) = [moved]
  /\ inside 476 500 24 /\ inside 0 600 24.
Proof.
  split; [vm_compute; reflexivity|].
  apply (proj1 (drag_position_inside_overlay (DOMRect.mk 0 0 500 600)
                  (Scenario.dragging (Scenario.jane 1)) (Scenario.jane 1)
                  eq_refl eq_refl eq_refl eq_refl)
               (MouseEvent.mk 700 (-50))
               (Signature.mk "1751212800000" "Jane Doe" "Great Vibes, cursive" 24 "#1e40af"
                             476 0 1)).
  - reflexivity.
  - reflexivity.
  - vm_compute. left. reflexivity.
  - reflexivity.
Defined.

(** C8, counterexample.  In an overlay 10 wide, a signature of font size 24
    is stored at x = 0 after a move, which is not at most 10 - 24. *)
Lemma drag_position_counterexample :
  exists sig,
    In sig (State.signatures
              (handleMouseMove (Scenario.overlay 10 600) (MouseEvent.mk 5 5)
                               (Scenario.dragging (Scenario.jane 1)))) /\
    (Signature.x sig <=? 10 - 24)%float = false.
Proof.
  exists (Signature.mk "1751212800000" "Jane Doe" "Great Vibes, cursive" 24 "#1e40af" 0 5 1).
  split.
  - vm_compute. left. reflexivity.
  - reflexivity.
Qed.

(* ----------------------------------------------------------------- *)
(** ** [hexToRgb] *)

Lemma forall_bool_spec (f : bool -> bool) : forall_bool f = true -> forall b, f b = true.
Proof.
  unfold forall_bool. intros H b. apply andb_prop in H. destruct H, b; assumption.
Qed.

Lemma forall_ascii_spec (f : ascii -> bool) : forall_ascii f = true -> forall c, f c = true.
Proof.
  intros H [b0 b1 b2 b3 b4 b5 b6 b7]. unfold forall_ascii in H.
  pose proof (forall_bool_spec _ H b0) as H0. cbv beta in H0.
  pose proof (forall_bool_spec _ H0 b1) as H1. cbv beta in H1.
  pose proof (forall_bool_spec _ H1 b2) as H2. cbv beta in H2.
  pose proof (forall_bool_spec _ H2 b3) as H3. cbv beta in H3.
  pose proof (forall_bool_spec _ H3 b4) as H4. cbv beta in H4.
  pose proof (forall_bool_spec _ H4 b5) as H5. cbv beta in H5.
  pose proof (forall_bool_spec _ H5 b6) as H6. cbv beta in H6.
  exact (forall_bool_spec _ H6 b7).
Qed.

Lemma all_pairs_ok : forall_ascii (fun c1 => forall_ascii (fun c2 => pair_ok c1 c2)) = true.
Proof. vm_compute. reflexivity. Qed.

Lemma hex_pair (c1 c2 : ascii) (v1 v2 : Z) :
  hexValue c1 = Some v1 -> hexValue c2 = Some v2 ->
  JS.isLineTerminator c1 = false /\ JS.isLineTerminator c2 = false
  /\ JS.parseInt (String c1 (String c2 EmptyString)) 16 = JS.Number_of_Z (16 * v1 + v2)
  /\ (0 <=? channel (16 * v1 + v2))%float = true
  /\ (channel (16 * v1 + v2) <=? 1)%float = true.
Proof.
  intros H1 H2.
  pose proof (forall_ascii_spec _ (forall_ascii_spec _ all_pairs_ok c1) c2) as H.
  cbv beta in H. unfold pair_ok in H. rewrite H1, H2 in H.
  repeat (apply andb_prop in H; destruct H as [H ?]).
  repeat split; try assumption.
  - apply negb_true_iff. assumption.
  - apply negb_true_iff. assumption.
  - apply FloatAxioms.Leibniz.eqb_spec. assumption.
Qed.

Lemma groups_pair (c1 c2 : ascii) (s : string) :
  JS.isLineTerminator c1 = false -> JS.isLineTerminator c2 = false ->
  JS.groups_1_2 (String c1 (String c2 s))
  = String c1 (String c2 EmptyString) :: JS.groups_1_2 s.
Proof. intros H1 H2. simpl. rewrite H1, H2. reflexivity. Qed.

Lemma replace_leading_hash (s : string) : JS.replace "#" "" (String "#" s) = s.
Proof. destruct s; reflexivity. Qed.

Lemma groups_none (s : string) :
  forallb JS.isLineTerminator (list_ascii_of_string s) = true -> JS.groups_1_2 s = [].
Proof.
  induction s as [|c s IH]; [reflexivity|]. simpl. intros H.
  apply andb_prop in H. destruct H as [Hc Hs]. rewrite Hc. apply IH, Hs.
Qed.

(** C10, as amended.  For every string [#RRGGBB] of six hexadecimal digits,
    [hexToRgb] returns the three channels R/255, G/255 and B/255, each
    between 0 and 1; and for every input in which, once the first [#] is
    removed, no character other than line terminators is left (as the empty
    string and ["#"]), it returns black. *)
Theorem hexToRgb_six_digits_and_empty :
  (forall (c1 c2 c3 c4 c5 c6 : ascii) (r1 r2 g1 g2 b1 b2 : Z),
      hexValue c1 = Some r1 -> hexValue c2 = Some r2 ->
      hexValue c3 = Some g1 -> hexValue c4 = Some g2 ->
      hexValue c5 = Some b1 -> hexValue c6 = Some b2 ->
      hexToRgb (String "#" (String c1 (String c2 (String c3 (String c4
                 (String c5 (String c6 EmptyString)))))))
      = Rgb.mk (Some (channel (16 * r1 + r2))) (Some (channel (16 * g1 + g2)))
               (Some (channel (16 * b1 + b2)))
      /\ (0 <=? channel (16 * r1 + r2))%float = true
      /\ (channel (16 * r1 + r2) <=? 1)%float = true
      /\ (0 <=? channel (16 * g1 + g2))%float = true
      /\ (channel (16 * g1 + g2) <=? 1)%float = true
      /\ (0 <=? channel (16 * b1 + b2))%float = true
      /\ (channel (16 * b1 + b2) <=? 1)%float = true)
  /\ (forall hex : string,
         forallb JS.isLineTerminator (list_ascii_of_string (JS.replace "#" "" hex)) = true ->
         hexToRgb hex = black)
  /\ hexToRgb "" = black /\ hexToRgb "#" = black.
Proof.
  split; [|split; [|split; reflexivity]].
  - intros c1 c2 c3 c4 c5 c6 r1 r2 g1 g2 b1 b2 H1 H2 H3 H4 H5 H6.
    destruct (hex_pair _ _ _ _ H1 H2) as (L1 & L2 & Pr & Rlo & Rhi).
    destruct (hex_pair _ _ _ _ H3 H4) as (L3 & L4 & Pg & Glo & Ghi).
    destruct (hex_pair _ _ _ _ H5 H6) as (L5 & L6 & Pb & Blo & Bhi).
    repeat split; try assumption.
    unfold hexToRgb. rewrite replace_leading_hash. unfold JS.match_1_2.
    rewrite !groups_pair by assumption.
    cbn [JS.groups_1_2 map nth_error]. rewrite Pr, Pg, Pb. reflexivity.
  - intros hex H. unfold hexToRgb, JS.match_1_2. rewrite (groups_none _ H). reflexivity.
Qed.

Lemma hexToRgb_six_digits_and_empty_witness :
  hexToRgb "#1e40af"
  = Rgb.mk (Some (30 / 255)%float) (Some (64 / 255)%float) (Some (175 / 255)%float)
  /\ hexToRgb (String "010" EmptyString) = black.
Proof.
  split.
  - exact (proj1 (proj1 hexToRgb_six_digits_and_empty
                          "1"%char "e"%char "4"%char "0"%char "a"%char "f"%char
                          1%Z 14%Z 4%Z 0%Z 10%Z 15%Z
                          eq_refl eq_refl eq_refl eq_refl eq_refl eq_refl)).
  - apply (proj1 (proj2 hexToRgb_six_digits_and_empty) (String "010" EmptyString)).
    reflexivity.
Defined.

(** C10, counterexample.  The digits of ["#a"] yield no two-character group,
    only the group ["a"], and the result is not black: its green and blue
    channels are [undefined]. *)
Lemma hexToRgb_counterexample :
  (forall group, In group (JS.groups_1_2 (JS.replace "#" "" "#a")) ->
                 String.length group <> 2)
  /\ hexToRgb "#a" = Rgb.mk (Some (10 / 255)%float) None None
  /\ hexToRgb "#a" <> black.
Proof.
  split; [|split].
  - intros group [<-|[]]. discriminate.
  - reflexivity.
  - discriminate.
Qed.

(* ----------------------------------------------------------------- *)
(** ** Traces and results of effectful code *)

Lemma bind_inr {A B : Type} (m : M A) (k : A -> M B) (t : list Event) (b : B) :
  bind m k = (t, inr b) ->
  exists t1 a t2, m = (t1, inr a) /\ k a = (t2, inr b) /\ t = t1 ++ t2.
Proof.
  unfold bind. destruct m as [t1 [e|a]]; [discriminate|].
  destruct (k a) as [t2 r] eqn:Ek. intros H. inversion H; subst.
  exists t1, a, t2. repeat split. exact Ek.
Qed.

Lemma bind_fails {A B : Type} (m : M A) (k : A -> M B) :
  (forall t a, m = (t, inr a) -> exists t' e, k a = (t', inl e)) ->
  exists t e, bind m k = (t, inl e).
Proof.
  intros Hk. unfold bind. destruct m as [t1 [e1|a]].
  - eauto.
  - destruct (Hk t1 a eq_refl) as (t' & e & ->). eauto.
Qed.

Lemma quiet_bind {A B : Type} (m : M A) (k : A -> M B) :
  Forall quiet (trace m) -> (forall a, Forall quiet (trace (k a))) ->
  Forall quiet (trace (bind m k)).
Proof.
  unfold bind, trace. destruct m as [t1 [e|a]]; simpl; intros H1 H2; [exact H1|].
  specialize (H2 a). destruct (k a) as [t2 r]. simpl in *.
  apply Forall_app. split; assumption.
Qed.

Lemma quiet_fetch (w : World.t) (url : string) : Forall quiet (trace (fetch w url)).
Proof.
  unfold fetch. apply quiet_bind.
  - repeat constructor.
  - intros _. destruct (World.fetch w url); constructor.
Qed.

Lemma quiet_embedFont (w : World.t) (pdfDoc : PDF.PDFDocument) (fontBytes : list byte) :
  Forall quiet (trace (embedFont w pdfDoc fontBytes)).
Proof. unfold embedFont. destruct (World.fontkit w fontBytes); constructor. Qed.

Lemma quiet_resolveFont (impl : Implementation) (w : World.t) (font : PDF.PDFFont)
  (pdfDoc : PDF.PDFDocument) (sig : Signature.t) :
  Forall quiet (trace (resolveFont impl w font pdfDoc sig)).
Proof.
  unfold resolveFont. destruct (FONT_FILE_MAP (Signature.font sig)); [|constructor].
  apply quiet_bind; [apply quiet_fetch|]. intros response.
  destruct impl; cbn [loggedOf]; [|apply quiet_embedFont].
  apply quiet_bind; [repeat constructor|]. intros _. apply quiet_embedFont.
Qed.

Lemma quiet_getPage (pdfDoc : PDF.PDFDocument) (index : Z) :
  Forall quiet (trace (getPage pdfDoc index)).
Proof.
  unfold getPage. destruct (_ || _); [constructor|].
  destruct (nth_error _ _); constructor.
Qed.

Lemma quiet_assertChannel (value : option float) (valueName : string) :
  Forall quiet (trace (assertChannel value valueName)).
Proof.
  unfold assertChannel. destruct value as [v|]; [|constructor].
  destruct (is_nan v); [constructor|]. destruct (_ || _); constructor.
Qed.

Lemma quiet_rgb (r g b : option float) : Forall quiet (trace (rgb r g b)).
Proof.
  unfold rgb. repeat (apply quiet_bind; [apply quiet_assertChannel|intros ?]). constructor.
Qed.

Lemma quiet_drawText (w : World.t) (pdfDoc : PDF.PDFDocument) (index : nat)
  (op : PDF.TextOp) : Forall quiet (trace (drawText w pdfDoc index op)).
Proof.
  unfold drawText. repeat (destruct (is_nan _); [constructor|]).
  destruct (World.encodes _ _ _); constructor.
Qed.

(** Each loop body and each [handleSave] is made of the pieces. *)
Lemma stampOf_pieces (impl : Implementation) : stampOf impl = stampWith impl.
Proof. destruct impl; reflexivity. Qed.

Lemma handleSaveOf_pieces (impl : Implementation) :
  handleSaveOf impl = handleSave_with (stampOf impl).
Proof. destruct impl; reflexivity. Qed.

Lemma quiet_stamp (impl : Implementation) (w : World.t) (overlayWidth overlayHeight : float)
  (font : PDF.PDFFont) (pdfDoc : PDF.PDFDocument) (sig : Signature.t) :
  Forall quiet (trace (stampOf impl w overlayWidth overlayHeight font pdfDoc sig)).
Proof.
  rewrite stampOf_pieces. unfold stampWith.
  apply quiet_bind; [apply quiet_getPage|]. intros [index page].
  apply quiet_bind; [apply quiet_resolveFont|]. intros [pdfFont pdfDoc'].
  apply quiet_bind; [apply quiet_rgb|]. intros color. apply quiet_drawText.
Qed.

Lemma quiet_forOf {A S : Type} (body : S -> A -> M S) (l : list A) :
  (forall s a, Forall quiet (trace (body s a))) ->
  forall s, Forall quiet (trace (forOf body s l)).
Proof.
  intros Hbody. induction l as [|a l IH]; intros s; simpl.
  - constructor.
  - apply quiet_bind; [apply Hbody|]. intros s'. apply IH.
Qed.

Lemma quiet_not_persists (q : list Event) (ev : Event) :
  Forall quiet q -> In ev q -> persists ev = false.
Proof.
  intros Hq Hin. rewrite Forall_forall in Hq. specialize (Hq ev Hin).
  destruct ev; simpl in *; try reflexivity; contradiction.
Qed.

(* ----------------------------------------------------------------- *)
(** ** The runs of [handleSave] *)

Lemma persist_run (w : World.t) (document : Document.t) (pdfDoc : PDF.PDFDocument)
  (q : list Event) :
  Forall quiet q ->
  exists t, persist w document pdfDoc = (t, inr tt) /\ Run w document (q ++ t).
Proof.
  intros Hq. unfold persist, storage_upload, db_update.
  set (path := (Document.user_id document ++ "/" ++ "signed-" ++ Document.id document
                ++ ".pdf")%string).
  set (blob := Blob.mk (World.save w pdfDoc) "application/pdf").
  destruct (World.upload w "documents" path blob) as [message|] eqn:Eu.
  - eexists. split; [reflexivity|]. simpl.
    apply (run_upload_failed w document q path blob message Hq Eu).
  - destruct (World.update w "documents"
                [("signed_url", World.getPublicUrl w "documents" path); ("status", "signed")]
                (Document.id document)) as [message|] eqn:Ed.
    + eexists. split; [reflexivity|]. simpl.
      apply (run_update_failed w document q path blob message Hq Eu).
    + eexists. split; [reflexivity|]. simpl.
      apply (run_saved w document q path blob Hq Eu).
Qed.


Lemma persist_result (w : World.t) (document : Document.t) (pdfDoc : PDF.PDFDocument) :
  persist w document pdfDoc = (trace (persist w document pdfDoc), inr tt).
Proof.
  destruct (persist_run w document pdfDoc [] (Forall_nil _)) as (t & -> & _). reflexivity.
Qed.

(** [handleSave] with a non-empty list, step by step. *)
Lemma handleSave_with_steps
  (body : World.t -> float -> float -> PDF.PDFFont -> PDF.PDFDocument -> Signature.t
          -> M PDF.PDFDocument)
  (w : World.t) (container : option DOMRect.t) (document : Document.t) (st : State.t) :
  State.signatures st <> [] ->
  handleSave_with body w container document st =
  let url := Document.original_url document in
  let failed e := [ConsoleError e; Alert "Failed to save signatures"] in
  match World.fetch w url with
  | None => (Fetch url :: failed (NetworkError url), inr tt)
  | Some response =>
      match World.load w (Response.arrayBuffer response) with
      | None => (Fetch url :: failed InvalidPDF, inr tt)
      | Some pdf =>
          match forOf (body w (fst (overlaySize container)) (snd (overlaySize container))
                            (PDF.Standard "Helvetica"))
                      (snd (embedStandardFont pdf "Helvetica")) (State.signatures st) with
          | (q, inl e) => (Fetch url :: q ++ failed e, inr tt)
          | (q, inr pdfDoc) => (Fetch url :: q ++ trace (persist w document pdfDoc), inr tt)
          end
      end
  end.
Proof.
  intros Hne. unfold handleSave_with.
  destruct (List.length (State.signatures st) =? 0)%nat eqn:El.
  { apply Nat.eqb_eq, length_zero_iff_nil in El. contradiction. }
  cbv zeta. unfold fetch.
  destruct (World.fetch w (Document.original_url document)) as [response|];
    cbn [bind emit ret throw app try_catch]; [|reflexivity].
  unfold PDFDocument_load.
  destruct (World.load w (Response.arrayBuffer response)) as [pdf|];
    cbn [bind emit ret throw app try_catch]; [|reflexivity].
  destruct (overlaySize container) as [overlayWidth overlayHeight].
  cbn [fst snd embedStandardFont].
  destruct (forOf _ _ _) as [q [e|pdfDoc]]; cbn [bind emit ret throw app try_catch].
  - reflexivity.
  - rewrite (persist_result w document pdfDoc). cbn [bind emit ret throw app try_catch trace fst].
    reflexivity.
Qed.

Lemma handleSave_with_run
  (body : World.t -> float -> float -> PDF.PDFFont -> PDF.PDFDocument -> Signature.t
          -> M PDF.PDFDocument)
  (w : World.t) (container : option DOMRect.t) (document : Document.t) (st : State.t) :
  (forall ow oh font pdfDoc sig, Forall quiet (trace (body w ow oh font pdfDoc sig))) ->
  Run w document (trace (handleSave_with body w container document st)).
Proof.
  intros Hbody. destruct (State.signatures st) as [|sig sigs] eqn:Es.
  - unfold handleSave_with. rewrite Es. apply run_refused.
  - rewrite handleSave_with_steps by (rewrite Es; discriminate). cbv zeta.
    set (url := Document.original_url document).
    assert (Hf : Forall quiet [Fetch url]) by (repeat constructor).
    destruct (World.fetch w url) as [response|];
      [|apply (run_aborted w document [Fetch url] _ Hf)].
    destruct (World.load w (Response.arrayBuffer response)) as [pdf|];
      [|apply (run_aborted w document [Fetch url] _ Hf)].
    pose proof (quiet_forOf
                  (body w (fst (overlaySize container)) (snd (overlaySize container))
                        (PDF.Standard "Helvetica"))
                  (State.signatures st) (Hbody _ _ _)
                  (snd (embedStandardFont pdf "Helvetica"))) as Hq.
    destruct (forOf _ _ _) as [q [e|pdfDoc]]; unfold trace in *; cbn [fst] in *.
    + apply (run_aborted w document (Fetch url :: q) e). constructor; [exact I|exact Hq].
    + assert (Hq' : Forall quiet (Fetch url :: q)) by (constructor; [exact I|exact Hq]).
      destruct (persist_run w document pdfDoc _ Hq') as (t & Et & HR).
      rewrite Et. exact HR.
Qed.

Lemma handleSaveOf_run (impl : Implementation) (w : World.t) (container : option DOMRect.t)
  (document : Document.t) (st : State.t) :
  Run w document (trace (handleSaveOf impl w container document st)).
Proof.
  rewrite handleSaveOf_pieces. apply handleSave_with_run. intros. apply quiet_stamp.
Qed.

Lemma in_quiet_tail (q tail : list Event) (ev : Event) :
  Forall quiet q -> persists ev = true -> In ev (q ++ tail) -> In ev tail.
Proof.
  intros Hq Hp Hin. apply in_app_or in Hin. destruct Hin as [Hin|Hin]; [|exact Hin].
  rewrite (quiet_not_persists q ev Hq Hin) in Hp. discriminate.
Qed.

Lemma persists_only_tail (q tail : list Event) (ev : Event) :
  Forall quiet q -> (forall ev', In ev' tail -> persists ev' = false) ->
  In ev (q ++ tail) -> persists ev = false.
Proof.
  intros Hq Ht Hin. apply in_app_or in Hin. destruct Hin as [Hin|Hin].
  - apply (quiet_not_persists q ev Hq Hin).
  - apply Ht, Hin.
Qed.

(** C9.  In every run of [handleSave], of either file, a record update that
    is emitted carries the signed url and the status "signed" together, it
    is the only update of the run, and it comes right after the one upload
    of the run, which succeeded; and when storage refuses every upload no
    record update is emitted. *)
Theorem record_update_only_after_persist (impl : Implementation) (w : World.t)
  (container : option DOMRect.t) (document : Document.t) (st : State.t) :
  (forall table fields id dbError,
      In (DbUpdate table fields id dbError)
         (trace (handleSaveOf impl w container document st)) ->
      (exists signedUrl, fields = [("signed_url", signedUrl); ("status", "signed")])
      /\ exists before bucket path blob upsert after,
           trace (handleSaveOf impl w container document st)
           = before ++ StorageUpload bucket path blob upsert None
                    :: DbUpdate table fields id dbError :: after
           /\ World.upload w bucket path blob = None
           /\ (forall ev, In ev before -> persists ev = false)
           /\ (forall ev, In ev after -> persists ev = false))
  /\ ((forall bucket path blob, World.upload w bucket path blob <> None) ->
      forall table fields id dbError,
        ~ In (DbUpdate table fields id dbError)
             (trace (handleSaveOf impl w container document st))).
Proof.
  pose proof (handleSaveOf_run impl w container document st) as HR.
  assert (Hmain : forall table fields id dbError,
      In (DbUpdate table fields id dbError)
         (trace (handleSaveOf impl w container document st)) ->
      (exists signedUrl, fields = [("signed_url", signedUrl); ("status", "signed")])
      /\ exists before bucket path blob upsert after,
           trace (handleSaveOf impl w container document st)
           = before ++ StorageUpload bucket path blob upsert None
                    :: DbUpdate table fields id dbError :: after
           /\ World.upload w bucket path blob = None
           /\ (forall ev, In ev before -> persists ev = false)
           /\ (forall ev, In ev after -> persists ev = false)).
  { intros table fields id dbError Hin.
    destruct HR as [|q e Hq|q path blob message Hq Hu|q path blob message Hq Hu|q path blob Hq Hu].
    - destruct Hin as [H|[]]; discriminate H.
    - apply in_quiet_tail in Hin; [|exact Hq|reflexivity].
      destruct Hin as [H|[H|[]]]; discriminate H.
    - apply in_quiet_tail in Hin; [|exact Hq|reflexivity].
      destruct Hin as [H|[H|[]]]; discriminate H.
    - apply in_quiet_tail in Hin; [|exact Hq|reflexivity].
      destruct Hin as [H|[H|[H|[]]]]; try discriminate H. inversion H; subst.
      split; [eexists; reflexivity|].
      exists q, "documents", path, blob, true, [Alert ("Failed to update document record: " ++ message)%string].
      repeat split; try assumption.
      + intros ev. apply quiet_not_persists, Hq.
      + intros ev [<-|[]]. reflexivity.
    - apply in_quiet_tail in Hin; [|exact Hq|reflexivity].
      destruct Hin as [H|[H|[H|[H|[]]]]]; try discriminate H. inversion H; subst.
      split; [eexists; reflexivity|].
      exists q, "documents", path, blob, true,
             [Alert "Document signed and uploaded successfully!"; OnSave].
      repeat split; try assumption.
      + intros ev. apply quiet_not_persists, Hq.
      + intros ev [<-|[<-|[]]]; reflexivity. }
  split; [exact Hmain|].
  intros Hrefuse table fields id dbError Hin.
  destruct (Hmain table fields id dbError Hin)
    as (_ & before & bucket & path & blob & upsert & after & _ & Hu & _).
  exact (Hrefuse bucket path blob Hu).
Qed.

Lemma record_update_only_after_persist_witness :
  let tr := trace (handleSaveOf UnnamedPart3 (Scenario.world 1 []) None Scenario.document
                                (Scenario.editing [Scenario.jane 1])) in
  let fields := [("signed_url", "https://storage/documents/user-1/signed-doc-1.pdf");
                 ("status", "signed")] in
  (exists signedUrl, fields = [("signed_url", signedUrl); ("status", "signed")])
  /\ exists before bucket path blob upsert after,
       tr = before ++ StorageUpload bucket path blob upsert None
                   :: DbUpdate "documents" fields "doc-1" None :: after
       /\ World.upload (Scenario.world 1 []) bucket path blob = None
       /\ (forall ev, In ev before -> persists ev = false)
       /\ (forall ev, In ev after -> persists ev = false).
Proof.
  apply (proj1 (record_update_only_after_persist UnnamedPart3 (Scenario.world 1 []) None
                  Scenario.document (Scenario.editing [Scenario.jane 1]))
               "documents"
               [("signed_url", "https://storage/documents/user-1/signed-doc-1.pdf");
                ("status", "signed")] "doc-1" None).
  vm_compute. repeat (try (left; reflexivity); right).
Defined.

(* ----------------------------------------------------------------- *)
(** ** Pages and their text operations *)

Lemma replace_nth_length {A : Type} (n : nat) (a : A) (l : list A) :
  List.length (PDF.replace_nth n a l) = List.length l.
Proof.
  revert n. induction l as [|b l IH]; intros [|n]; simpl; try reflexivity.
  rewrite IH. reflexivity.
Qed.

Lemma nth_error_replace_nth_same {A : Type} (n : nat) (a b : A) (l : list A) :
  nth_error l n = Some b -> nth_error (PDF.replace_nth n a l) n = Some a.
Proof.
  revert n. induction l as [|c l IH]; intros [|n]; simpl; try discriminate.
  - reflexivity.
  - apply IH.
Qed.

Lemma nth_error_replace_nth_other {A : Type} (n i : nat) (a : A) (l : list A) :
  i <> n -> nth_error (PDF.replace_nth n a l) i = nth_error l i.
Proof.
  revert n i. induction l as [|c l IH]; intros [|n] [|i] Hne; simpl; try reflexivity.
  - contradiction.
  - apply IH. intros E. apply Hne. f_equal. exact E.
Qed.

Lemma extends_refl (doc : PDF.PDFDocument) : extends doc doc.
Proof.
  split; [reflexivity|]. intros i p Hp. exists p. repeat split; auto.
Qed.

Lemma extends_trans (doc1 doc2 doc3 : PDF.PDFDocument) :
  extends doc1 doc2 -> extends doc2 doc3 -> extends doc1 doc3.
Proof.
  intros [L12 H12] [L23 H23]. split; [congruence|].
  intros i p Hp. destruct (H12 i p Hp) as (p2 & Hp2 & W2 & H2 & C2).
  destruct (H23 i p2 Hp2) as (p3 & Hp3 & W3 & H3 & C3).
  exists p3. repeat split; try congruence. intros op Hop. apply C3, C2, Hop.
Qed.

Lemma extends_same_pages (doc doc1 : PDF.PDFDocument) :
  PDF.pages doc1 = PDF.pages doc -> extends doc doc1.
Proof.
  intros E. split; [rewrite E; reflexivity|].
  intros i p Hp. exists p. rewrite E. repeat split; auto.
Qed.

Lemma appendOp_extends (doc : PDF.PDFDocument) (index : nat) (op : PDF.TextOp) :
  extends doc (PDF.appendOp doc index op).
Proof.
  unfold PDF.appendOp. destruct (nth_error (PDF.pages doc) index) as [p0|] eqn:E0;
    [|apply extends_refl].
  split; [apply replace_nth_length|]. cbn [PDF.pages].
  intros i p Hp. destruct (Nat.eq_dec i index) as [->|Hne].
  - rewrite (nth_error_replace_nth_same _ _ _ _ E0). eexists. split; [reflexivity|].
    assert (p0 = p) by congruence. subst p0. cbn. repeat split.
    intros op' Hop. apply in_or_app. left. exact Hop.
  - rewrite (nth_error_replace_nth_other _ _ _ _ Hne). exists p. repeat split; auto.
Qed.

Lemma appendOp_adds (doc : PDF.PDFDocument) (index : nat) (op : PDF.TextOp)
  (p : PDF.PDFPage) :
  nth_error (PDF.pages doc) index = Some p ->
  exists p', nth_error (PDF.pages (PDF.appendOp doc index op)) index = Some p'
             /\ In op (PDF.contents p').
Proof.
  intros E. unfold PDF.appendOp. rewrite E. cbn [PDF.pages].
  rewrite (nth_error_replace_nth_same _ _ _ _ E). eexists. split; [reflexivity|].
  cbn. apply in_or_app. right. left. reflexivity.
Qed.

(* ----------------------------------------------------------------- *)
(** ** One stamp *)

Lemma getPage_inr (pdfDoc : PDF.PDFDocument) (index : Z) (t : list Event) (i : nat)
  (page : PDF.PDFPage) :
  getPage pdfDoc index = (t, inr (i, page)) ->
  t = [] /\ i = Z.to_nat index /\ nth_error (PDF.pages pdfDoc) i = Some page.
Proof.
  unfold getPage. destruct (_ || _); [discriminate|].
  destruct (nth_error (PDF.pages pdfDoc) (Z.to_nat index)) as [p|] eqn:E; [|discriminate].
  intros H. inversion H; subst. auto.
Qed.

Lemma resolveFont_pages (impl : Implementation) (w : World.t) (font pdfFont : PDF.PDFFont)
  (pdfDoc pdfDoc' : PDF.PDFDocument) (sig : Signature.t) (t : list Event) :
  resolveFont impl w font pdfDoc sig = (t, inr (pdfFont, pdfDoc')) ->
  PDF.pages pdfDoc' = PDF.pages pdfDoc.
Proof.
  unfold resolveFont. destruct (FONT_FILE_MAP (Signature.font sig)) as [fontUrl|].
  - intros H. apply bind_inr in H. destruct H as (t1 & response & t2 & _ & H & _).
    assert (He : exists t', embedFont w pdfDoc (Response.arrayBuffer response)
                            = (t', inr (pdfFont, pdfDoc'))).
    { destruct impl; cbn [loggedOf] in H; [|eauto].
      apply bind_inr in H. destruct H as (t3 & u & t4 & _ & H & _). eauto. }
    destruct He as [t' He]. unfold embedFont in He.
    destruct (World.fontkit w _); [|discriminate].
    inversion He; subst. reflexivity.
  - intros H. inversion H; subst. reflexivity.
Qed.

Lemma drawText_inr (w : World.t) (pdfDoc pdfDoc' : PDF.PDFDocument) (index : nat)
  (op : PDF.TextOp) (t : list Event) :
  drawText w pdfDoc index op = (t, inr pdfDoc') ->
  t = [] /\ pdfDoc' = PDF.appendOp pdfDoc index (PDF.drawn op).
Proof.
  unfold drawText. repeat (destruct (is_nan _); [discriminate|]).
  destruct (World.encodes _ _ _); [|discriminate].
  intros H. inversion H; subst. auto.
Qed.

Lemma rgb_silent (r g b : option float) : trace (rgb r g b) = [].
Proof.
  unfold rgb, assertChannel.
  destruct r as [r|]; [|reflexivity]. destruct (is_nan r); [reflexivity|].
  destruct (_ || _); [reflexivity|].
  destruct g as [g|]; [|reflexivity]. destruct (is_nan g); [reflexivity|].
  destruct (_ || _); [reflexivity|].
  destruct b as [b|]; [|reflexivity]. destruct (is_nan b); [reflexivity|].
  destruct (_ || _); reflexivity.
Qed.

(** A stamp that returns has drawn the expected operation on the page of
    the signature, after resolving its font. *)
Lemma stamp_inr (impl : Implementation) (w : World.t) (overlayWidth overlayHeight : float)
  (font : PDF.PDFFont) (pdfDoc pdfDoc' : PDF.PDFDocument) (sig : Signature.t)
  (t : list Event) :
  stampOf impl w overlayWidth overlayHeight font pdfDoc sig = (t, inr pdfDoc') ->
  exists page color pdfFont pdfDoc1,
    nth_error (PDF.pages pdfDoc) (Z.to_nat (Signature.page sig - 1)) = Some page
    /\ resolveFont impl w font pdfDoc sig = (t, inr (pdfFont, pdfDoc1))
    /\ PDF.pages pdfDoc1 = PDF.pages pdfDoc
    /\ pdfDoc' = PDF.appendOp pdfDoc1 (Z.to_nat (Signature.page sig - 1))
                   (expectedOp impl overlayWidth overlayHeight page sig color pdfFont).
Proof.
  rewrite stampOf_pieces. unfold stampWith. intros H.
  apply bind_inr in H. destruct H as (t1 & [index page] & t2 & Hget & H & ->).
  apply getPage_inr in Hget. destruct Hget as (-> & -> & Hpage).
  cbv beta iota in H.
  apply bind_inr in H. destruct H as (t3 & [pdfFont pdfDoc1] & t4 & Hfont & H & ->).
  cbv beta iota in H.
  apply bind_inr in H. destruct H as (t5 & color & t6 & Hrgb & H & ->).
  apply drawText_inr in H. destruct H as (-> & ->).
  assert (t5 = []) by (rewrite <- (rgb_silent (Rgb.r (hexToRgb (Signature.color sig)))
                                              (Rgb.g (hexToRgb (Signature.color sig)))
                                              (Rgb.b (hexToRgb (Signature.color sig))));
                       rewrite Hrgb; reflexivity).
  subst t5. cbn [app]. rewrite app_nil_r.
  exists page, color, pdfFont, pdfDoc1. repeat split; try assumption.
  apply (resolveFont_pages _ _ _ _ _ _ _ _ Hfont).
Qed.

Lemma stamp_extends (impl : Implementation) (w : World.t) (overlayWidth overlayHeight : float)
  (font : PDF.PDFFont) (pdfDoc pdfDoc' : PDF.PDFDocument) (sig : Signature.t)
  (t : list Event) :
  stampOf impl w overlayWidth overlayHeight font pdfDoc sig = (t, inr pdfDoc') ->
  extends pdfDoc pdfDoc'.
Proof.
  intros H. apply stamp_inr in H.
  destruct H as (page & color & pdfFont & pdfDoc1 & _ & _ & E & ->).
  apply (extends_trans _ pdfDoc1); [apply extends_same_pages, E|apply appendOp_extends].
Qed.

Lemma forOf_extends (impl : Implementation) (w : World.t) (overlayWidth overlayHeight : float)
  (font : PDF.PDFFont) (sigs : list Signature.t) :
  forall (pdfDoc pdfDoc' : PDF.PDFDocument) (t : list Event),
    forOf (stampOf impl w overlayWidth overlayHeight font) pdfDoc sigs = (t, inr pdfDoc') ->
    extends pdfDoc pdfDoc'.
Proof.
  induction sigs as [|sig sigs IH]; intros pdfDoc pdfDoc' t H; simpl in H.
  - inversion H; subst. apply extends_refl.
  - apply bind_inr in H. destruct H as (t1 & pdfDoc1 & t2 & H1 & H2 & _).
    apply (extends_trans _ pdfDoc1); [apply (stamp_extends _ _ _ _ _ _ _ _ _ H1)|].
    apply (IH _ _ _ H2).
Qed.

Lemma extends_back (doc doc1 : PDF.PDFDocument) (i : nat) (p1 : PDF.PDFPage) :
  extends doc doc1 -> nth_error (PDF.pages doc1) i = Some p1 ->
  exists p, nth_error (PDF.pages doc) i = Some p
            /\ PDF.width p1 = PDF.width p /\ PDF.height p1 = PDF.height p.
Proof.
  intros [L H] E1.
  assert (Hi : i < List.length (PDF.pages doc)).
  { rewrite <- L. apply nth_error_Some. rewrite E1. discriminate. }
  apply nth_error_Some in Hi.
  destruct (nth_error (PDF.pages doc) i) as [p|] eqn:E; [|contradiction].
  destruct (H i p E) as (p' & Ep' & W & Hh & _).
  assert (p' = p1) by congruence. subst p'. exists p. auto.
Qed.

Lemma expectedOp_placement (impl : Implementation) (overlayWidth overlayHeight : float)
  (page : PDF.PDFPage) (sig : Signature.t) (color : PDF.Color) (pdfFont : PDF.PDFFont) :
  let op := expectedOp impl overlayWidth overlayHeight page sig color pdfFont in
  PDF.text op = Signature.text sig
  /\ PDF.x op = nativeX (PDF.width page) overlayWidth (Signature.x sig)
  /\ PDF.y op =
     match impl with
     | EditorFile =>
         nativeY_offset (PDF.height page) overlayHeight (Signature.y sig)
                        (Signature.fontSize sig)
     | UnnamedPart3 =>
         nativeY_proportional (PDF.height page) overlayHeight (Signature.y sig)
                              (Signature.fontSize sig)
     end.
Proof. destruct impl; repeat split. Qed.

Lemma stamp_places (impl : Implementation) (w : World.t) (overlayWidth overlayHeight : float)
  (font : PDF.PDFFont) (pdfDoc pdfDoc' : PDF.PDFDocument) (sig : Signature.t)
  (t : list Event) :
  stampOf impl w overlayWidth overlayHeight font pdfDoc sig = (t, inr pdfDoc') ->
  exists page page' color pdfFont,
    nth_error (PDF.pages pdfDoc) (Z.to_nat (Signature.page sig - 1)) = Some page
    /\ nth_error (PDF.pages pdfDoc') (Z.to_nat (Signature.page sig - 1)) = Some page'
    /\ In (expectedOp impl overlayWidth overlayHeight page sig color pdfFont)
          (PDF.contents page').
Proof.
  intros H. apply stamp_inr in H.
  destruct H as (page & color & pdfFont & pdfDoc1 & Hpage & _ & E & ->).
  rewrite <- E in Hpage.
  destruct (appendOp_adds pdfDoc1 _
              (expectedOp impl overlayWidth overlayHeight page sig color pdfFont) page Hpage)
    as (page' & Hpage' & Hin).
  rewrite E in Hpage. exists page, page', color, pdfFont. auto.
Qed.

#[local] Set Warnings "-inexact-float".

Lemma loop_places (impl : Implementation) (w : World.t) (overlayWidth overlayHeight : float)
  (font : PDF.PDFFont) (sigs : list Signature.t) :
  forall (pdfDoc pdfDoc' : PDF.PDFDocument) (t : list Event),
    forOf (stampOf impl w overlayWidth overlayHeight font) pdfDoc sigs = (t, inr pdfDoc') ->
    forall sig, In sig sigs ->
      exists page page' op,
        nth_error (PDF.pages pdfDoc) (Z.to_nat (Signature.page sig - 1)) = Some page
        /\ nth_error (PDF.pages pdfDoc') (Z.to_nat (Signature.page sig - 1)) = Some page'
        /\ In op (PDF.contents page')
        /\ PDF.text op = Signature.text sig
        /\ PDF.x op = nativeX (PDF.width page) overlayWidth (Signature.x sig)
        /\ PDF.y op =
           match impl with
           | EditorFile =>
               nativeY_offset (PDF.height page) overlayHeight (Signature.y sig)
                              (Signature.fontSize sig)
           | UnnamedPart3 =>
               nativeY_proportional (PDF.height page) overlayHeight (Signature.y sig)
                                    (Signature.fontSize sig)
           end.
Proof.
  induction sigs as [|sig0 sigs IH]; intros pdfDoc pdfDoc' t H sig Hin; [contradiction|].
  simpl in H. apply bind_inr in H. destruct H as (t1 & pdfDoc1 & t2 & H1 & H2 & _).
  destruct Hin as [->|Hin].
  - destruct (stamp_places _ _ _ _ _ _ _ _ _ H1)
      as (page & page1 & color & pdfFont & Hpage & Hpage1 & Hop).
    destruct (forOf_extends _ _ _ _ _ _ _ _ _ H2) as [_ Hext].
    destruct (Hext _ _ Hpage1) as (page' & Hpage' & _ & _ & Hkeep).
    exists page, page', (expectedOp impl overlayWidth overlayHeight page sig color pdfFont).
    repeat split; try assumption; try apply Hkeep, Hop;
      apply (expectedOp_placement impl overlayWidth overlayHeight page sig color pdfFont).
  - destruct (IH _ _ _ H2 sig Hin) as (page1 & page' & op & Hpage1 & Hpage' & Hop & Ht & Hx & Hy).
    destruct (extends_back _ _ _ _ (stamp_extends _ _ _ _ _ _ _ _ _ H1) Hpage1)
      as (page & Hpage & W & Hh).
    exists page, page', op. rewrite <- W, <- Hh. auto 10.
Qed.

Lemma persist_upload_blob (w : World.t) (document : Document.t) (pdfDoc : PDF.PDFDocument)
  (bucket path : string) (blob : Blob.t) (upsert : bool) (uploadError : option string) :
  In (StorageUpload bucket path blob upsert uploadError) (trace (persist w document pdfDoc)) ->
  blob = Blob.mk (World.save w pdfDoc) "application/pdf".
Proof.
  unfold persist, storage_upload, db_update.
  destruct (World.upload w _ _ _); [|destruct (World.update w _ _ _)]; cbn;
    intros H; repeat (destruct H as [H|H]; [inversion H; reflexivity|]); contradiction.
Qed.

(** What is uploaded is the serialization of a document in which the loop
    has returned. *)
Lemma uploaded_after_loop (impl : Implementation) (w : World.t)
  (container : option DOMRect.t) (document : Document.t) (st : State.t)
  (bucket path : string) (blob : Blob.t) (upsert : bool) (uploadError : option string) :
  In (StorageUpload bucket path blob upsert uploadError)
     (trace (handleSaveOf impl w container document st)) ->
  exists response pdf pdfDoc q,
    World.fetch w (Document.original_url document) = Some response
    /\ World.load w (Response.arrayBuffer response) = Some pdf
    /\ forOf (stampOf impl w (fst (overlaySize container)) (snd (overlaySize container))
                      (PDF.Standard "Helvetica"))
             (snd (embedStandardFont pdf "Helvetica")) (State.signatures st)
       = (q, inr pdfDoc)
    /\ blob = Blob.mk (World.save w pdfDoc) "application/pdf".
Proof.
  rewrite handleSaveOf_pieces.
  destruct (State.signatures st) as [|sig0 sigs] eqn:Es.
  { unfold handleSave_with. rewrite Es. intros [H|[]]. discriminate H. }
  rewrite handleSave_with_steps by (rewrite Es; discriminate). cbv zeta. rewrite Es.
  set (url := Document.original_url document).
  destruct (World.fetch w url) as [response|];
    [|intros H; repeat (destruct H as [H|H]; [discriminate H|]); contradiction].
  destruct (World.load w (Response.arrayBuffer response)) as [pdf|] eqn:El;
    [|intros H; repeat (destruct H as [H|H]; [discriminate H|]); contradiction].
  pose proof (quiet_forOf
                (stampOf impl w (fst (overlaySize container)) (snd (overlaySize container))
                         (PDF.Standard "Helvetica"))
                (sig0 :: sigs) (quiet_stamp impl w _ _ _)
                (snd (embedStandardFont pdf "Helvetica"))) as Hq.
  destruct (forOf _ _ _) as [q [e|pdfDoc]] eqn:Eloop; unfold trace in *; cbn [fst] in *;
    intros [H|H]; try discriminate H.
  - apply in_quiet_tail in H; [|exact Hq|reflexivity].
    repeat (destruct H as [H|H]; [discriminate H|]). contradiction.
  - apply in_quiet_tail in H; [|exact Hq|reflexivity].
    apply persist_upload_blob in H. exists response, pdf, pdfDoc, q. auto.
Qed.

(** C1, as amended.  Whenever [handleSave] uploads, what it uploads is the
    serialization of the source document in which every annotation has, on
    its page, a text operation at native X = x * (pageWidth / overlayWidth)
    and, in part_003, at native Y = pageHeight - y * scaleY - fontSize *
    scaleY, but in SignatureEditor.tsx at native Y = pageHeight - y * scaleY
    - fontSize / 2 + 110, all in binary64 arithmetic.  For x = 100, y = 100,
    fontSize = 24, overlay 500 x 600 and page 612 x 792, these are
    X = 122.39999999999999, and Y = 628.32 in part_003 and Y = 758 in
    SignatureEditor.tsx. *)
Theorem stamps_placed_by_formula :
  (forall (impl : Implementation) (w : World.t) (container : option DOMRect.t)
          (document : Document.t) (st : State.t)
          (bucket path : string) (blob : Blob.t) (upsert : bool)
          (uploadError : option string),
      In (StorageUpload bucket path blob upsert uploadError)
         (trace (handleSaveOf impl w container document st)) ->
      exists response pdf pdfDoc,
        World.fetch w (Document.original_url document) = Some response
        /\ World.load w (Response.arrayBuffer response) = Some pdf
        /\ Blob.parts blob = World.save w pdfDoc
        /\ forall sig, In sig (State.signatures st) ->
             exists page page' op,
               nth_error (PDF.pages pdf) (Z.to_nat (Signature.page sig - 1)) = Some page
               /\ nth_error (PDF.pages pdfDoc) (Z.to_nat (Signature.page sig - 1))
                  = Some page'
               /\ In op (PDF.contents page')
               /\ PDF.text op = Signature.text sig
               /\ PDF.x op = nativeX (PDF.width page) (fst (overlaySize container))
                                     (Signature.x sig)
               /\ PDF.y op =
                  match impl with
                  | EditorFile =>
                      nativeY_offset (PDF.height page) (snd (overlaySize container))
                                     (Signature.y sig) (Signature.fontSize sig)
                  | UnnamedPart3 =>
                      nativeY_proportional (PDF.height page) (snd (overlaySize container))
                                           (Signature.y sig) (Signature.fontSize sig)
                  end)
  /\ nativeX 612 500 100 = 122.39999999999999%float
  /\ nativeY_proportional 792 600 100 24 = 628.32%float
  /\ nativeY_offset 792 600 100 24 = 758%float.
Proof.
  split; [|repeat split].
  intros impl w container document st bucket path blob upsert uploadError Hin.
  destruct (uploaded_after_loop _ _ _ _ _ _ _ _ _ _ Hin)
    as (response & pdf & pdfDoc & q & Hfetch & Hload & Hloop & ->).
  exists response, pdf, pdfDoc. repeat split; try assumption.
  intros sig Hsig. apply (loop_places _ _ _ _ _ _ _ _ _ Hloop sig Hsig).
Qed.

Lemma stamps_placed_by_formula_witness :
  exists response pdf pdfDoc,
    World.fetch (Scenario.world 1 []) (Document.original_url Scenario.document)
    = Some response
    /\ World.load (Scenario.world 1 []) (Response.arrayBuffer response) = Some pdf
    /\ [x25] = World.save (Scenario.world 1 []) pdfDoc
    /\ forall sig, In sig [Scenario.jane 1] ->
         exists page page' op,
           nth_error (PDF.pages pdf) (Z.to_nat (Signature.page sig - 1)) = Some page
           /\ nth_error (PDF.pages pdfDoc) (Z.to_nat (Signature.page sig - 1)) = Some page'
           /\ In op (PDF.contents page')
           /\ PDF.text op = Signature.text sig
           /\ PDF.x op = nativeX (PDF.width page) 500 (Signature.x sig)
           /\ PDF.y op = nativeY_proportional (PDF.height page) 600 (Signature.y sig)
                                              (Signature.fontSize sig).
Proof.
  apply (proj1 stamps_placed_by_formula UnnamedPart3 (Scenario.world 1 [])
               (Scenario.overlay 500 600) Scenario.document
               (Scenario.editing [Scenario.jane 1])
               "documents" "user-1/signed-doc-1.pdf" (Blob.mk [x25] "application/pdf")
               true None).
  vm_compute. repeat (try (left; reflexivity); right).
Defined.

(** C1, counterexample.  At the scenario of the specification, the X that
    part_003 draws at is 122.39999999999999, the binary64 number just below
    122.4, and the Y that SignatureEditor.tsx draws at is 758, not 628.32. *)
Lemma stamps_placed_counterexample :
  (exists op,
      result (forOf (stampOf UnnamedPart3 (Scenario.world 1 []) 500 600 Scenario.helvetica)
                    (Scenario.source 1) [Scenario.jane 1])
      = inr (PDF.mkDoc [PDF.mkPage 612 792 [op]] [Scenario.cursive])
      /\ PDF.x op <> 122.4%float /\ next_up (PDF.x op) = 122.4%float
      /\ PDF.y op = 628.32%float)
  /\ (exists op,
      result (forOf (stampOf EditorFile (Scenario.world 1 []) 500 600 Scenario.helvetica)
                    (Scenario.source 1) [Scenario.jane 1])
      = inr (PDF.mkDoc [PDF.mkPage 612 792 [op]] [Scenario.cursive])
      /\ PDF.y op = 758%float /\ PDF.y op <> 628.32%float).
Proof.
  split.
  - eexists. split; [vm_compute; reflexivity|]. cbn [PDF.x PDF.y]. repeat split.
    intros H. apply (f_equal (fun v => (v =? 122.4)%float)) in H. vm_compute in H. discriminate H.
  - eexists. split; [vm_compute; reflexivity|]. cbn [PDF.y]. split; [reflexivity|].
    intros H. apply (f_equal (fun v => (v =? 628.32)%float)) in H. vm_compute in H. discriminate H.
Qed.

(** C4.  The two save implementations are not equivalent.  A stamp of
    SignatureEditor.tsx draws at native
    Y = pageHeight - y * scaleY - fontSize / 2 + 110 with the font size
    unscaled; a stamp of part_003 draws at native
    Y = pageHeight - y * scaleY - fontSize * scaleY with the font size
    multiplied by scaleY; in both, a size of 0 is drawn as the size 24 of
    the page; and for some annotation and geometry the two vertical
    placements differ.  With a font size of 0, on a page 612 x 792 under an
    overlay 500 x 600, both draw in size 24, at Y = 770 and at Y = 660. *)
Theorem save_implementations_differ :
  (forall (w : World.t) (overlayWidth overlayHeight : float) (font : PDF.PDFFont)
          (pdfDoc pdfDoc' : PDF.PDFDocument) (sig : Signature.t) (t : list Event),
      SignatureEditor.stamp w overlayWidth overlayHeight font pdfDoc sig = (t, inr pdfDoc') ->
      exists page color pdfFont pdfDoc1,
        nth_error (PDF.pages pdfDoc) (Z.to_nat (Signature.page sig - 1)) = Some page
        /\ PDF.pages pdfDoc1 = PDF.pages pdfDoc
        /\ pdfDoc' =
           PDF.appendOp pdfDoc1 (Z.to_nat (Signature.page sig - 1))
             (PDF.mkTextOp (Signature.text sig)
                (Signature.x sig * (PDF.width page / overlayWidth))
                (PDF.height page - Signature.y sig * (PDF.height page / overlayHeight)
                 - Signature.fontSize sig / 2 + 110)
                (PDF.sizeOr (Signature.fontSize sig)) color pdfFont))
  /\ (forall (w : World.t) (overlayWidth overlayHeight : float) (font : PDF.PDFFont)
             (pdfDoc pdfDoc' : PDF.PDFDocument) (sig : Signature.t) (t : list Event),
      Part003.stamp w overlayWidth overlayHeight font pdfDoc sig = (t, inr pdfDoc') ->
      exists page color pdfFont pdfDoc1,
        nth_error (PDF.pages pdfDoc) (Z.to_nat (Signature.page sig - 1)) = Some page
        /\ PDF.pages pdfDoc1 = PDF.pages pdfDoc
        /\ pdfDoc' =
           PDF.appendOp pdfDoc1 (Z.to_nat (Signature.page sig - 1))
             (PDF.mkTextOp (Signature.text sig)
                (Signature.x sig * (PDF.width page / overlayWidth))
                (PDF.height page - Signature.y sig * (PDF.height page / overlayHeight)
                 - Signature.fontSize sig * (PDF.height page / overlayHeight))
                (PDF.sizeOr (Signature.fontSize sig * (PDF.height page / overlayHeight)))
                color pdfFont))
  /\ (exists (w : World.t) (overlayWidth overlayHeight : float) (font : PDF.PDFFont)
             (pdfDoc : PDF.PDFDocument) (sig : Signature.t) (op op' : PDF.TextOp),
      result (SignatureEditor.stamp w overlayWidth overlayHeight font pdfDoc sig)
      = inr (PDF.mkDoc [PDF.mkPage 612 792 [op]] [Scenario.cursive])
      /\ result (Part003.stamp w overlayWidth overlayHeight font pdfDoc sig)
         = inr (PDF.mkDoc [PDF.mkPage 612 792 [op']] [Scenario.cursive])
      /\ PDF.y op <> PDF.y op')
  /\ (exists op op' : PDF.TextOp,
      result (SignatureEditor.stamp (Scenario.world 1 []) 500 600 Scenario.helvetica
                (Scenario.source 1) (Scenario.sized 0))
      = inr (PDF.mkDoc [PDF.mkPage 612 792 [op]] [Scenario.cursive])
      /\ result (Part003.stamp (Scenario.world 1 []) 500 600 Scenario.helvetica
                   (Scenario.source 1) (Scenario.sized 0))
         = inr (PDF.mkDoc [PDF.mkPage 612 792 [op']] [Scenario.cursive])
      /\ PDF.size op = 24%float /\ PDF.size op' = 24%float
      /\ PDF.y op = 770%float /\ PDF.y op' = 660%float).
Proof.
  split; [|split; [|split]].
  - intros w overlayWidth overlayHeight font pdfDoc pdfDoc' sig t H.
    destruct (stamp_inr EditorFile w overlayWidth overlayHeight font pdfDoc pdfDoc' sig t H)
      as (page & color & pdfFont & pdfDoc1 & Hpage & _ & E & ->).
    exists page, color, pdfFont, pdfDoc1. auto.
  - intros w overlayWidth overlayHeight font pdfDoc pdfDoc' sig t H.
    destruct (stamp_inr UnnamedPart3 w overlayWidth overlayHeight font pdfDoc pdfDoc' sig t H)
      as (page & color & pdfFont & pdfDoc1 & Hpage & _ & E & ->).
    exists page, color, pdfFont, pdfDoc1. auto.
  - exists (Scenario.world 1 []), 500%float, 600%float, Scenario.helvetica,
           (Scenario.source 1), (Scenario.jane 1).
    eexists. eexists. split; [vm_compute; reflexivity|]. split; [vm_compute; reflexivity|].
    cbn [PDF.y]. intros H.
    apply (f_equal (fun v => (v =? 628.32)%float)) in H. vm_compute in H. discriminate H.
  - eexists. eexists. split; [vm_compute; reflexivity|]. split; [vm_compute; reflexivity|].
    repeat split.
Qed.

Lemma save_implementations_differ_witness :
  exists page color pdfFont pdfDoc1,
    nth_error (PDF.pages (Scenario.source 1)) 0 = Some page
    /\ PDF.pages pdfDoc1 = PDF.pages (Scenario.source 1)
    /\ PDF.mkDoc [PDF.mkPage 612 792
                    [PDF.mkTextOp "Jane Doe" 122.39999999999999 758 24
                       (PDF.mkColor (30 / 255) (64 / 255) (175 / 255)) Scenario.cursive]]
                 [Scenario.cursive]
       = PDF.appendOp pdfDoc1 0
           (PDF.mkTextOp "Jane Doe" (100 * (PDF.width page / 500))
              (PDF.height page - 100 * (PDF.height page / 600) - 24 / 2 + 110) 24
              color pdfFont).
Proof.
  refine (proj1 save_implementations_differ (Scenario.world 1 []) 500%float 600%float
                Scenario.helvetica (Scenario.source 1) _ (Scenario.jane 1)
                [Fetch "/fonts/GreatVibes-Regular.ttf";
                 ConsoleLog (Path "/fonts/GreatVibes-Regular.ttf") 200 4] _).
  vm_compute. reflexivity.
Defined.

(* ----------------------------------------------------------------- *)
(** ** The empty list *)

(** C6, as amended.  With an empty annotation list, [handleSave] of either
    file refuses to run: it alerts "Please add at least one signature" and
    returns, without fetching, producing or persisting anything. *)
Theorem empty_list_refused (impl : Implementation) (w : World.t)
  (container : option DOMRect.t) (document : Document.t) (st : State.t) :
  State.signatures st = [] ->
  handleSaveOf impl w container document st
  = ([Alert "Please add at least one signature"], inr tt).
Proof.
  intros E. rewrite handleSaveOf_pieces. unfold handleSave_with. rewrite E. reflexivity.
Qed.

Lemma empty_list_refused_witness :
  handleSaveOf EditorFile (Scenario.world 3 []) (Scenario.overlay 500 600) Scenario.document
               State.initial
  = ([Alert "Please add at least one signature"], inr tt).
Proof.
  apply (empty_list_refused EditorFile (Scenario.world 3 []) (Scenario.overlay 500 600)
           Scenario.document State.initial).
  reflexivity.
Defined.

(** C6, counterexample.  On a three-page document that can be fetched,
    parsed and stored, saving with no annotation uploads nothing: the only
    event of the run is the alert. *)
Lemma empty_list_counterexample :
  trace (handleSaveOf UnnamedPart3 (Scenario.world 3 []) (Scenario.overlay 500 600)
                      Scenario.document (Scenario.editing []))
  = [Alert "Please add at least one signature"]
  /\ existsb persists
       (trace (handleSaveOf UnnamedPart3 (Scenario.world 3 []) (Scenario.overlay 500 600)
                            Scenario.document (Scenario.editing []))) = false.
Proof. split; vm_compute; reflexivity. Qed.

(* ----------------------------------------------------------------- *)
(** ** Failures inside the loop *)

Lemma bind_throws {A B : Type} (m : M A) (k : A -> M B) (t : list Event) (e : Exn) :
  m = (t, inl e) -> bind m k = (t, inl e).
Proof. intros ->. reflexivity. Qed.

Lemma forOf_fails {A S : Type} (body : S -> A -> M S) (Inv : S -> Prop) (bad : A)
  (l : list A) :
  In bad l ->
  (forall s a t s', Inv s -> body s a = (t, inr s') -> Inv s') ->
  (forall s, Inv s -> exists t e, body s bad = (t, inl e)) ->
  forall s, Inv s -> exists t e, forOf body s l = (t, inl e).
Proof.
  intros Hin Hkeep Hbad. induction l as [|a l IH]; [contradiction|].
  intros s Hs. simpl. apply bind_fails. intros t s' Hbody.
  destruct Hin as [->|Hin].
  - destruct (Hbad s Hs) as (t' & e & Hf). congruence.
  - apply (IH Hin s'). apply (Hkeep s a t s' Hs Hbody).
Qed.

Lemma forOf_first_failure {A S : Type} (body : S -> A -> M S) (good rest : list A) (bad : A)
  (t' : list Event) (e : Exn) :
  forall (s s' : S) (t : list Event),
    forOf body s good = (t, inr s') -> body s' bad = (t', inl e) ->
    forOf body s (good ++ bad :: rest) = (t ++ t', inl e).
Proof.
  induction good as [|a good IH]; intros s s' t Hgood Hbad; simpl in *.
  - inversion Hgood; subst. rewrite Hbad. reflexivity.
  - apply bind_inr in Hgood. destruct Hgood as (t1 & s1 & t2 & H1 & H2 & ->).
    rewrite H1. cbn [bind]. rewrite (IH s1 s' t2 H2 Hbad). rewrite app_assoc. reflexivity.
Qed.

Lemma getPage_beyond (pdfDoc : PDF.PDFDocument) (index : Z) :
  (Z.of_nat (PDF.getPageCount pdfDoc) <= index)%Z ->
  getPage pdfDoc index = ([], inl (beyond (PDF.getPageCount pdfDoc) (index + 1))).
Proof.
  intros Hle. unfold getPage, beyond, PDF.getPageCount in *.
  destruct ((index <? 0)%Z || _) eqn:Er.
  - destruct (List.length (PDF.pages pdfDoc)) as [|n] eqn:El; [|reflexivity].
    cbn [Nat.eqb andb]. destruct (index + 1 =? 1)%Z eqn:E1; [|reflexivity].
    apply Z.eqb_eq in E1. apply orb_true_iff in Er. cbn [Z.of_nat] in Er.
    destruct Er as [Er|Er]; [apply Z.ltb_lt in Er|apply Z.ltb_lt in Er]; lia.
  - apply orb_false_elim in Er. destruct Er as [E0 Emax].
    apply Z.ltb_ge in E0, Emax.
    assert (Hnone : nth_error (PDF.pages pdfDoc) (Z.to_nat index) = None).
    { apply nth_error_None. lia. }
    rewrite Hnone.
    assert (El : List.length (PDF.pages pdfDoc) = 0) by lia.
    rewrite El in *. cbn [Nat.eqb andb].
    assert (E1 : (index + 1 =? 1)%Z = true) by (apply Z.eqb_eq; cbn [Z.of_nat] in *; lia).
    rewrite E1. reflexivity.
Qed.

Lemma stamp_beyond (impl : Implementation) (w : World.t) (overlayWidth overlayHeight : float)
  (font : PDF.PDFFont) (pdfDoc : PDF.PDFDocument) (sig : Signature.t) :
  (Z.of_nat (PDF.getPageCount pdfDoc) < Signature.page sig)%Z ->
  stampOf impl w overlayWidth overlayHeight font pdfDoc sig
  = ([], inl (beyond (PDF.getPageCount pdfDoc) (Signature.page sig))).
Proof.
  intros Hlt. rewrite stampOf_pieces. unfold stampWith.
  apply bind_throws. rewrite (getPage_beyond pdfDoc (Signature.page sig - 1)) by lia.
  replace (Signature.page sig - 1 + 1)%Z with (Signature.page sig) by lia. reflexivity.
Qed.

Lemma stamp_page_count (impl : Implementation) (w : World.t)
  (overlayWidth overlayHeight : float) (font : PDF.PDFFont)
  (pdfDoc pdfDoc' : PDF.PDFDocument) (sig : Signature.t) (t : list Event) :
  stampOf impl w overlayWidth overlayHeight font pdfDoc sig = (t, inr pdfDoc') ->
  PDF.getPageCount pdfDoc' = PDF.getPageCount pdfDoc.
Proof. intros H. apply stamp_extends in H. destruct H as [L _]. exact L. Qed.

Lemma resolveFont_fails (impl : Implementation) (w : World.t) (font : PDF.PDFFont)
  (pdfDoc : PDF.PDFDocument) (sig : Signature.t) (fontUrl : FontUrl) :
  FONT_FILE_MAP (Signature.font sig) = Some fontUrl ->
  (World.fetch w (requested w fontUrl) = None
   \/ exists response, World.fetch w (requested w fontUrl) = Some response
                       /\ World.fontkit w (Response.arrayBuffer response) = false) ->
  exists t e, resolveFont impl w font pdfDoc sig = (t, inl e).
Proof.
  intros Hmap Hfail. unfold resolveFont, fetch, embedFont. rewrite Hmap.
  destruct Hfail as [Hf | (response & Hf & Hk)]; rewrite Hf.
  - eexists. eexists. reflexivity.
  - cbn [bind emit ret app]. destruct impl; cbn [loggedOf bind emit ret app]; rewrite Hk;
      eexists; eexists; reflexivity.
Qed.

Lemma stamp_font_fails (impl : Implementation) (w : World.t)
  (overlayWidth overlayHeight : float) (font : PDF.PDFFont) (pdfDoc : PDF.PDFDocument)
  (sig : Signature.t) (fontUrl : FontUrl) :
  FONT_FILE_MAP (Signature.font sig) = Some fontUrl ->
  (World.fetch w (requested w fontUrl) = None
   \/ exists response, World.fetch w (requested w fontUrl) = Some response
                       /\ World.fontkit w (Response.arrayBuffer response) = false) ->
  exists t e, stampOf impl w overlayWidth overlayHeight font pdfDoc sig = (t, inl e).
Proof.
  intros Hmap Hfail. rewrite stampOf_pieces. unfold stampWith.
  apply bind_fails. intros t [index page] _. cbv beta iota.
  destruct (resolveFont_fails impl w font pdfDoc sig fontUrl Hmap Hfail) as (t' & e & Hr).
  exists t', e. apply bind_throws, Hr.
Qed.

Lemma aborted_not_persisted (error : Exn) (tr : list Event) (ev : Event) :
  aborted_with error tr -> In ev tr -> persists ev = false.
Proof.
  intros (q & Hq & ->). apply persists_only_tail; [exact Hq|].
  intros ev' [<-|[<-|[]]]; reflexivity.
Qed.

(** A loop that fails on every document that can be loaded makes the save
    end in its [catch]. *)
Lemma handleSaveOf_aborts (impl : Implementation) (w : World.t)
  (container : option DOMRect.t) (document : Document.t) (st : State.t) :
  State.signatures st <> [] ->
  (forall response pdf,
      World.fetch w (Document.original_url document) = Some response ->
      World.load w (Response.arrayBuffer response) = Some pdf ->
      exists t e,
        forOf (stampOf impl w (fst (overlaySize container)) (snd (overlaySize container))
                       (PDF.Standard "Helvetica"))
              (snd (embedStandardFont pdf "Helvetica")) (State.signatures st) = (t, inl e)) ->
  exists error, aborted_with error (trace (handleSaveOf impl w container document st)).
Proof.
  intros Hne Hloop.
  rewrite handleSaveOf_pieces, (handleSave_with_steps _ _ _ _ _ Hne). cbv zeta.
  set (url := Document.original_url document) in *.
  assert (Hf : Forall quiet [Fetch url]) by (repeat constructor).
  destruct (World.fetch w url) as [response|] eqn:Ef;
    [|eexists; exists [Fetch url]; split; [exact Hf|reflexivity]].
  destruct (World.load w (Response.arrayBuffer response)) as [pdf|] eqn:El;
    [|eexists; exists [Fetch url]; split; [exact Hf|reflexivity]].
  pose proof (quiet_forOf
                (stampOf impl w (fst (overlaySize container)) (snd (overlaySize container))
                         (PDF.Standard "Helvetica"))
                (State.signatures st) (quiet_stamp impl w _ _ _)
                (snd (embedStandardFont pdf "Helvetica"))) as Hq.
  destruct (Hloop response pdf eq_refl El) as (t & e & Hl). rewrite Hl in *.
  exists e, (Fetch url :: t). split; [constructor; [exact I|exact Hq]|reflexivity].
Qed.

(** C3, as amended.  When the source document is fetched and parsed and
    some annotation has a page index above its page count, [handleSave] of
    either file ends in its [catch]: the run consists of requests and logs
    followed by the report of an error and the failure alert, and nothing
    is uploaded and no record is updated.  The error caught is that of the
    first annotation that fails: when the annotations before the one out of
    range are stamped without error, it is the range error of [getPage] on
    the index, except for page 1 of a document with no page, where it is
    the error of reading the size of a page that is [undefined]. *)
Theorem page_out_of_range_aborts (impl : Implementation) (w : World.t)
  (container : option DOMRect.t) (document : Document.t) (st : State.t)
  (response : Response.t) (pdf : PDF.PDFDocument) (sig : Signature.t) :
  World.fetch w (Document.original_url document) = Some response ->
  World.load w (Response.arrayBuffer response) = Some pdf ->
  In sig (State.signatures st) ->
  (Z.of_nat (PDF.getPageCount pdf) < Signature.page sig)%Z ->
  (exists error, aborted_with error (trace (handleSaveOf impl w container document st)))
  /\ (forall ev, In ev (trace (handleSaveOf impl w container document st)) ->
                 persists ev = false)
  /\ (forall good rest q pdfDoc,
         State.signatures st = good ++ sig :: rest ->
         forOf (stampOf impl w (fst (overlaySize container)) (snd (overlaySize container))
                        (PDF.Standard "Helvetica"))
               (snd (embedStandardFont pdf "Helvetica")) good = (q, inr pdfDoc) ->
         handleSaveOf impl w container document st
         = (Fetch (Document.original_url document)
              :: q ++ [ConsoleError
                         (if (PDF.getPageCount pdf =? 0)%nat && (Signature.page sig =? 1)%Z
                          then TypeError "page" else RangeError "index");
                       Alert "Failed to save signatures"],
            inr tt)).
Proof.
  intros Hfetch Hload Hin Hpage.
  assert (Hne : State.signatures st <> []) by (intros E; rewrite E in Hin; contradiction).
  assert (Habort : exists error,
             aborted_with error (trace (handleSaveOf impl w container document st))).
  { apply handleSaveOf_aborts; [exact Hne|].
    intros response' pdf' Hfetch' Hload'.
    assert (response' = response) by congruence. subst response'.
    assert (pdf' = pdf) by congruence. subst pdf'.
    apply (forOf_fails _ (fun doc => PDF.getPageCount doc = PDF.getPageCount pdf) sig);
      [exact Hin| | |reflexivity].
    - intros s a t s' Hs Hbody. rewrite (stamp_page_count _ _ _ _ _ _ _ _ _ Hbody). exact Hs.
    - intros s Hs. eexists. eexists. apply stamp_beyond. rewrite Hs. exact Hpage. }
  split; [exact Habort|]. split.
  - destruct Habort as [error Ha]. intros ev. apply (aborted_not_persisted error), Ha.
  - intros good rest q pdfDoc Hsplit Hgood.
    rewrite handleSaveOf_pieces, (handleSave_with_steps _ _ _ _ _ Hne). cbv zeta.
    rewrite Hfetch, Hload, Hsplit.
    assert (Hcount : PDF.getPageCount pdfDoc = PDF.getPageCount pdf).
    { destruct (forOf_extends _ _ _ _ _ _ _ _ _ Hgood) as [L _]. exact L. }
    assert (Hbad : stampOf impl w (fst (overlaySize container)) (snd (overlaySize container))
                           (PDF.Standard "Helvetica") pdfDoc sig
                   = ([], inl (beyond (PDF.getPageCount pdf) (Signature.page sig)))).
    { rewrite <- Hcount. apply stamp_beyond. rewrite Hcount. assumption. }
    rewrite (forOf_first_failure _ good rest sig [] _ _ _ _ Hgood Hbad).
    rewrite app_nil_r. reflexivity.
Qed.

Lemma page_out_of_range_aborts_witness :
  let run := handleSaveOf EditorFile (Scenario.world 3 []) (Scenario.overlay 500 600)
                          Scenario.document
                          (Scenario.editing [Scenario.jane 1; Scenario.jane 5]) in
  run = ([Fetch "https://storage/documents/user-1/contract.pdf";
          Fetch "/fonts/GreatVibes-Regular.ttf";
          ConsoleLog (Path "/fonts/GreatVibes-Regular.ttf") 200 4;
          ConsoleError (RangeError "index"); Alert "Failed to save signatures"], inr tt)
  /\ (exists error, aborted_with error (trace run))
  /\ (forall ev, In ev (trace run) -> persists ev = false).
Proof.
  pose proof (page_out_of_range_aborts EditorFile (Scenario.world 3 [])
                (Scenario.overlay 500 600) Scenario.document
                (Scenario.editing [Scenario.jane 1; Scenario.jane 5])
                (Response.mk 200 [x25; x50; x44; x46]) (Scenario.source 3) (Scenario.jane 5)
                eq_refl eq_refl (or_intror (or_introl eq_refl)) eq_refl) as (Ha & Hp & Hr).
  split; [|split; assumption].
  exact (Hr [Scenario.jane 1] []
            [Fetch "/fonts/GreatVibes-Regular.ttf";
             ConsoleLog (Path "/fonts/GreatVibes-Regular.ttf") 200 4]
            (PDF.mkDoc
               [PDF.mkPage 612 792
                  [PDF.mkTextOp "Jane Doe" 122.39999999999999 758 24
                     (PDF.mkColor (30 / 255) (64 / 255) (175 / 255)) Scenario.cursive];
                Scenario.letter; Scenario.letter]
               [Scenario.helvetica; Scenario.cursive])
            eq_refl eq_refl).
Defined.

(** C3, counterexample.  On a document with no page, an annotation on page 1
    is above the page count, and what the save catches is not a range
    error but the error of reading the undefined page.  And on a document
    of three pages, an annotation on page 5 that follows one whose font
    file cannot be fetched is never looked up: the save catches the
    network error. *)
Lemma page_out_of_range_counterexample :
  (Z.of_nat (PDF.getPageCount (Scenario.source 0)) < Signature.page (Scenario.jane 1))%Z
  /\ handleSaveOf EditorFile (Scenario.world 0 []) (Scenario.overlay 500 600)
                  Scenario.document (Scenario.editing [Scenario.jane 1])
     = ([Fetch "https://storage/documents/user-1/contract.pdf";
         ConsoleError (TypeError "page"); Alert "Failed to save signatures"], inr tt)
  /\ handleSaveOf UnnamedPart3 (Scenario.world 0 []) (Scenario.overlay 500 600)
                  Scenario.document (Scenario.editing [Scenario.jane 1])
     = ([Fetch "https://storage/documents/user-1/contract.pdf";
         ConsoleError (TypeError "page"); Alert "Failed to save signatures"], inr tt)
  /\ handleSaveOf EditorFile (Scenario.world 3 ["/fonts/Satisfy-Regular.ttf"])
                  (Scenario.overlay 500 600) Scenario.document
                  (Scenario.editing [Scenario.john; Scenario.jane 5])
     = ([Fetch "https://storage/documents/user-1/contract.pdf";
         Fetch "/fonts/Satisfy-Regular.ttf";
         ConsoleError (NetworkError "/fonts/Satisfy-Regular.ttf");
         Alert "Failed to save signatures"], inr tt).
Proof. repeat split; vm_compute; reflexivity. Qed.

(* ----------------------------------------------------------------- *)
(** ** Font failures *)

Lemma fetched_app (t1 t2 : list Event) : fetched (t1 ++ t2) = fetched t1 ++ fetched t2.
Proof. unfold fetched. apply flat_map_app. Qed.

Lemma fetch_inr (w : World.t) (url : string) (t : list Event) (response : Response.t) :
  fetch w url = (t, inr response) -> t = [Fetch url] /\ World.fetch w url = Some response.
Proof.
  unfold fetch. cbn [bind emit]. destruct (World.fetch w url) as [r|]; cbn [ret throw].
  - intros H. inversion H; subst. auto.
  - discriminate.
Qed.

Lemma embedFont_inr (w : World.t) (pdfDoc pdfDoc' : PDF.PDFDocument) (fontBytes : list byte)
  (t : list Event) (pdfFont : PDF.PDFFont) :
  embedFont w pdfDoc fontBytes = (t, inr (pdfFont, pdfDoc')) ->
  t = [] /\ World.fontkit w fontBytes = true /\ pdfFont = PDF.Custom fontBytes
  /\ pdfDoc' = PDF.mkDoc (PDF.pages pdfDoc) (PDF.fonts pdfDoc ++ [PDF.Custom fontBytes]).
Proof.
  unfold embedFont. destruct (World.fontkit w fontBytes); [|discriminate].
  intros H. inversion H; subst. auto.
Qed.

Lemma resolveFont_inr (impl : Implementation) (w : World.t) (font pdfFont : PDF.PDFFont)
  (pdfDoc pdfDoc' : PDF.PDFDocument) (sig : Signature.t) (t : list Event) :
  resolveFont impl w font pdfDoc sig = (t, inr (pdfFont, pdfDoc')) ->
  match FONT_FILE_MAP (Signature.font sig) with
  | Some fontUrl =>
      served w (requested w fontUrl) pdfFont /\ fetched t = [requested w fontUrl]
      /\ pdfDoc' = PDF.mkDoc (PDF.pages pdfDoc) (PDF.fonts pdfDoc ++ [pdfFont])
  | None => t = [] /\ pdfFont = font /\ pdfDoc' = pdfDoc
  end.
Proof.
  unfold resolveFont. destruct (FONT_FILE_MAP (Signature.font sig)) as [fontUrl|].
  - intros H. apply bind_inr in H. destruct H as (t1 & response & t2 & Hf & H & ->).
    apply fetch_inr in Hf. destruct Hf as [-> Hf].
    assert (He : embedFont w pdfDoc (Response.arrayBuffer response)
                 = ([], inr (pdfFont, pdfDoc')) /\ fetched t2 = []).
    { destruct impl; cbn [loggedOf] in H.
      - apply bind_inr in H. destruct H as (t3 & u & t4 & Hl & H & ->).
        inversion Hl; subst. destruct (embedFont_inr _ _ _ _ _ _ H) as [-> _].
        split; [exact H | reflexivity].
      - destruct (embedFont_inr _ _ _ _ _ _ H) as [-> _]. split; [exact H | reflexivity]. }
    destruct He as [He Ht]. apply embedFont_inr in He. destruct He as (_ & Hk & -> & ->).
    split; [exists response; auto|]. split; [|reflexivity].
    rewrite fetched_app, Ht. reflexivity.
  - intros H. inversion H; subst. auto.
Qed.

(** The keys for which the lookup in [FONT_FILE_MAP] is truthy. *)
Lemma FONT_FILE_MAP_keys (font : string) :
  FONT_FILE_MAP font <> None
  <-> In font ["Great Vibes, cursive"; "Pacifico, cursive"; "Satisfy, cursive";
               "Brush Script MT, cursive"]
      \/ In font Object_prototype.
Proof.
  unfold FONT_FILE_MAP.
  destruct (String.eqb_spec font "Great Vibes, cursive") as [->|N1].
  { split; [intros _; left; simpl; auto | discriminate]. }
  destruct (String.eqb_spec font "Pacifico, cursive") as [->|N2].
  { split; [intros _; left; simpl; auto | discriminate]. }
  destruct (String.eqb_spec font "Satisfy, cursive") as [->|N3].
  { split; [intros _; left; simpl; auto | discriminate]. }
  destruct (String.eqb_spec font "Brush Script MT, cursive") as [->|N4].
  { split; [intros _; left; simpl; auto 6 | discriminate]. }
  destruct (String.eqb_spec font "Arial, sans-serif") as [->|N5].
  { split; [intros H; contradiction H; reflexivity|].
    intros [H|H]; exfalso; simpl in H; intuition discriminate. }
  destruct (String.eqb_spec font "Times New Roman, serif") as [->|N6].
  { split; [intros H; contradiction H; reflexivity|].
    intros [H|H]; exfalso; simpl in H; intuition discriminate. }
  destruct (existsb (String.eqb font) Object_prototype) eqn:E.
  - split; [|discriminate]. intros _. right.
    apply existsb_exists in E. destruct E as (k & Hk & Ek).
    apply String.eqb_eq in Ek. subst k. exact Hk.
  - split; [intros H; contradiction H; reflexivity|].
    intros [H|H]; exfalso.
    + simpl in H. intuition congruence.
    + assert (E' : existsb (String.eqb font) Object_prototype = true).
      { apply existsb_exists. exists font. split; [exact H|apply String.eqb_refl]. }
      congruence.
Qed.

(** C5, as amended.  When what [FONT_FILE_MAP] has for the font of some
    annotation cannot be fetched, or fontkit rejects its bytes, [handleSave]
    of either file ends in its [catch]: the whole save is aborted, nothing
    is uploaded and no record is updated, and the run returns nothing, so no
    warning list.  A stamp of the loop that returns has drawn in the
    standard font, without any fetch, exactly when [FONT_FILE_MAP] has
    nothing for the font of its annotation; otherwise it has made one
    request and drawn in the font program of the response.  [FONT_FILE_MAP]
    has a value for the four font names with a file and, being an object
    literal, for the names of the members of [Object.prototype]. *)
Theorem font_failure_aborts (impl : Implementation) (w : World.t)
  (container : option DOMRect.t) (document : Document.t) (st : State.t)
  (sig : Signature.t) (fontUrl : FontUrl) :
  In sig (State.signatures st) ->
  FONT_FILE_MAP (Signature.font sig) = Some fontUrl ->
  (World.fetch w (requested w fontUrl) = None
   \/ exists response, World.fetch w (requested w fontUrl) = Some response
                       /\ World.fontkit w (Response.arrayBuffer response) = false) ->
  (exists error, aborted_with error (trace (handleSaveOf impl w container document st)))
  /\ (forall ev, In ev (trace (handleSaveOf impl w container document st)) ->
                 persists ev = false)
  /\ result (handleSaveOf impl w container document st) = inr tt
  /\ (forall overlayWidth overlayHeight pdfDoc pdfDoc' other t,
         stampOf impl w overlayWidth overlayHeight (PDF.Standard "Helvetica") pdfDoc other
         = (t, inr pdfDoc') ->
         exists page color pdfFont pdfDoc1,
           pdfDoc' = PDF.appendOp pdfDoc1 (Z.to_nat (Signature.page other - 1))
                       (expectedOp impl overlayWidth overlayHeight page other color pdfFont)
           /\ (pdfFont = PDF.Standard "Helvetica"
               <-> FONT_FILE_MAP (Signature.font other) = None)
           /\ (fetched t = [] <-> FONT_FILE_MAP (Signature.font other) = None)
           /\ match FONT_FILE_MAP (Signature.font other) with
              | Some value =>
                  served w (requested w value) pdfFont
                  /\ fetched t = [requested w value]
                  /\ pdfDoc1 = PDF.mkDoc (PDF.pages pdfDoc) (PDF.fonts pdfDoc ++ [pdfFont])
              | None => t = [] /\ pdfDoc1 = pdfDoc
              end)
  /\ (forall font,
         FONT_FILE_MAP font <> None
         <-> In font ["Great Vibes, cursive"; "Pacifico, cursive"; "Satisfy, cursive";
                      "Brush Script MT, cursive"]
             \/ In font Object_prototype).
Proof.
  intros Hin Hmap Hfail.
  assert (Hne : State.signatures st <> []) by (intros E; rewrite E in Hin; contradiction).
  assert (Habort : exists error,
             aborted_with error (trace (handleSaveOf impl w container document st))).
  { apply handleSaveOf_aborts; [exact Hne|].
    intros response pdf _ _.
    apply (forOf_fails _ (fun _ => True) sig); [exact Hin|auto| |exact I].
    intros s _. apply (stamp_font_fails impl w _ _ _ s sig fontUrl Hmap Hfail). }
  split; [exact Habort|]. split; [|split; [|split]].
  - destruct Habort as [error Ha]. intros ev. apply (aborted_not_persisted error), Ha.
  - rewrite handleSaveOf_pieces, (handleSave_with_steps _ _ _ _ _ Hne). cbv zeta.
    destruct (World.fetch w (Document.original_url document)) as [response|]; [|reflexivity].
    destruct (World.load w (Response.arrayBuffer response)); [|reflexivity].
    destruct (forOf _ _ _) as [q [e|pdfDoc]]; reflexivity.
  - intros overlayWidth overlayHeight pdfDoc pdfDoc' other t Hstamp.
    apply stamp_inr in Hstamp.
    destruct Hstamp as (page & color & pdfFont & pdfDoc1 & _ & Hfont & _ & ->).
    exists page, color, pdfFont, pdfDoc1. split; [reflexivity|].
    apply resolveFont_inr in Hfont.
    destruct (FONT_FILE_MAP (Signature.font other)) as [value|].
    + destruct Hfont as ((response & Hf & Hk & ->) & Ht & ->).
      split; [split; discriminate|]. split; [rewrite Ht; split; discriminate|].
      split; [exists response; auto|]. split; [exact Ht|reflexivity].
    + destruct Hfont as (-> & -> & ->). repeat split; reflexivity.
  - intros font. apply FONT_FILE_MAP_keys.
Qed.

Lemma font_failure_aborts_witness :
  let run := handleSaveOf UnnamedPart3 (Scenario.world 1 ["/fonts/Satisfy-Regular.ttf"])
                          (Scenario.overlay 500 600) Scenario.document
                          (Scenario.editing [Scenario.jane 1; Scenario.john]) in
  let odd := handleSaveOf EditorFile (Scenario.world 1 [Scenario.oddUrl])
                          (Scenario.overlay 500 600) Scenario.document
                          (Scenario.editing [Scenario.odd]) in
  ((exists error, aborted_with error (trace run))
   /\ (forall ev, In ev (trace run) -> persists ev = false)
   /\ result run = inr tt)
  /\ ((exists error, aborted_with error (trace odd))
      /\ (forall ev, In ev (trace odd) -> persists ev = false)
      /\ result odd = inr tt).
Proof.
  split.
  - pose proof (font_failure_aborts UnnamedPart3
                  (Scenario.world 1 ["/fonts/Satisfy-Regular.ttf"])
                  (Scenario.overlay 500 600) Scenario.document
                  (Scenario.editing [Scenario.jane 1; Scenario.john])
                  Scenario.john (Path "/fonts/Satisfy-Regular.ttf")
                  (or_intror (or_introl eq_refl)) eq_refl (or_introl eq_refl))
      as (Ha & Hp & Hr & _).
    split; [exact Ha|split; [exact Hp|exact Hr]].
  - pose proof (font_failure_aborts EditorFile
                  (Scenario.world 1 [Scenario.oddUrl])
                  (Scenario.overlay 500 600) Scenario.document
                  (Scenario.editing [Scenario.odd])
                  Scenario.odd (Inherited "toString")
                  (or_introl eq_refl) eq_refl (or_introl eq_refl))
      as (Ha & Hp & Hr & _).
    split; [exact Ha|split; [exact Hp|exact Hr]].
Defined.

(** C5, counterexample.  With two annotations, the second of which has a
    font file that cannot be fetched, the save of SignatureEditor.tsx aborts
    after the failed fetch: neither annotation is embedded in any output,
    nothing is uploaded, and the run returns nothing. *)
Lemma font_failure_counterexample :
  handleSaveOf EditorFile (Scenario.world 1 ["/fonts/Satisfy-Regular.ttf"])
               (Scenario.overlay 500 600) Scenario.document
               (Scenario.editing [Scenario.jane 1; Scenario.john])
  = ([Fetch "https://storage/documents/user-1/contract.pdf";
      Fetch "/fonts/GreatVibes-Regular.ttf";
      ConsoleLog (Path "/fonts/GreatVibes-Regular.ttf") 200 4;
      Fetch "/fonts/Satisfy-Regular.ttf";
      ConsoleError (NetworkError "/fonts/Satisfy-Regular.ttf");
      Alert "Failed to save signatures"], inr tt).
Proof. vm_compute. reflexivity. Qed.

(* ----------------------------------------------------------------- *)
(** ** An overlay of size zero *)

Lemma Prim2SF_zero : Prim2SF 0 = S754_zero false.
Proof. vm_compute. reflexivity. Qed.

Lemma Prim2SF_infinity : Prim2SF infinity = S754_infinity false.
Proof. vm_compute. reflexivity. Qed.

Lemma positive_SF (a : float) :
  (0 <? a)%float = true ->
  Prim2SF a = S754_infinity false \/ exists m e, Prim2SF a = S754_finite false m e.
Proof.
  rewrite ltb_spec, Prim2SF_zero. unfold SFltb.
  destruct (Prim2SF a) as [s|s| |s m e]; simpl; try discriminate;
    destruct s; try discriminate; intros _; eauto.
Qed.

Lemma div_zero_infinity (a : float) : (0 <? a)%float = true -> (a / 0)%float = infinity.
Proof.
  intros H. apply Prim2SF_inj. rewrite div_spec, Prim2SF_zero, Prim2SF_infinity.
  destruct (positive_SF a H) as [-> | (m & e & ->)]; reflexivity.
Qed.

Lemma mul_infinity (a : float) : (0 <? a)%float = true -> (a * infinity)%float = infinity.
Proof.
  intros H. apply Prim2SF_inj. rewrite mul_spec, Prim2SF_infinity.
  destruct (positive_SF a H) as [-> | (m & e & ->)]; reflexivity.
Qed.

Lemma persist_uploads (w : World.t) (document : Document.t) (pdfDoc : PDF.PDFDocument) :
  exists rest,
    trace (persist w document pdfDoc)
    = StorageUpload "documents" (signedPath document)
        (Blob.mk (World.save w pdfDoc) "application/pdf") true
        (World.upload w "documents" (signedPath document)
           (Blob.mk (World.save w pdfDoc) "application/pdf")) :: rest.
Proof.
  unfold persist, storage_upload, db_update, signedPath.
  destruct (World.upload w _ _ _); [eexists; reflexivity|].
  destruct (World.update w _ _ _); eexists; reflexivity.
Qed.

(** C2, as amended.  An overlay of width or height 0 raises no
    DegenerateGeometry error: the division is made, and for a page of
    positive width and an annotation at a positive x an overlay width of 0
    gives the native X +Infinity.  Whatever the overlay size, a stamp whose
    page, font, colour and text are accepted and whose computed coordinates
    and size are not NaN is drawn at these coordinates, in this size or, when
    it is 0, in the size 24 of the page; and when the loop returns, the
    serialized document is handed to storage. *)
Theorem zero_overlay_not_detected :
  (forall pageWidth x : float,
      (0 <? pageWidth)%float = true -> (0 <? x)%float = true ->
      nativeX pageWidth 0 x = infinity)
  /\ (forall (impl : Implementation) (w : World.t) (overlayWidth overlayHeight : float)
             (font pdfFont : PDF.PDFFont) (pdfDoc pdfDoc1 : PDF.PDFDocument)
             (sig : Signature.t) (index : nat) (page : PDF.PDFPage) (color : PDF.Color)
             (t : list Event),
      getPage pdfDoc (Signature.page sig - 1) = ([], inr (index, page)) ->
      resolveFont impl w font pdfDoc sig = (t, inr (pdfFont, pdfDoc1)) ->
      rgb (Rgb.r (hexToRgb (Signature.color sig))) (Rgb.g (hexToRgb (Signature.color sig)))
          (Rgb.b (hexToRgb (Signature.color sig))) = ([], inr color) ->
      let options := optionsOf impl overlayWidth overlayHeight page sig color pdfFont in
      is_nan (PDF.x options) = false ->
      is_nan (PDF.y options) = false ->
      is_nan (PDF.size options) = false ->
      World.encodes w pdfFont (Signature.text sig) = true ->
      stampOf impl w overlayWidth overlayHeight font pdfDoc sig
      = (t, inr (PDF.appendOp pdfDoc1 index
                   (PDF.mkTextOp (Signature.text sig) (PDF.x options) (PDF.y options)
                      (PDF.sizeOr (PDF.size options)) color pdfFont))))
  /\ (forall (impl : Implementation) (w : World.t) (container : option DOMRect.t)
             (document : Document.t) (st : State.t) (response : Response.t)
             (pdf pdfDoc : PDF.PDFDocument) (q : list Event),
      State.signatures st <> [] ->
      World.fetch w (Document.original_url document) = Some response ->
      World.load w (Response.arrayBuffer response) = Some pdf ->
      forOf (stampOf impl w (fst (overlaySize container)) (snd (overlaySize container))
                     (PDF.Standard "Helvetica"))
            (snd (embedStandardFont pdf "Helvetica")) (State.signatures st)
      = (q, inr pdfDoc) ->
      In (StorageUpload "documents" (signedPath document)
            (Blob.mk (World.save w pdfDoc) "application/pdf") true
            (World.upload w "documents" (signedPath document)
               (Blob.mk (World.save w pdfDoc) "application/pdf")))
         (trace (handleSaveOf impl w container document st))).
Proof.
  split; [|split].
  - intros pageWidth x Hw Hx. unfold nativeX.
    rewrite (div_zero_infinity _ Hw). apply mul_infinity, Hx.
  - intros impl w overlayWidth overlayHeight font pdfFont pdfDoc pdfDoc1 sig index page color t
           Hget Hfont Hrgb options Hx Hy Hsize Henc.
    rewrite stampOf_pieces. unfold stampWith.
    rewrite Hget. cbn [bind app]. rewrite Hfont. cbn [bind app]. rewrite Hrgb.
    cbn [bind app]. unfold drawText. fold options.
    rewrite Hx, Hy, Hsize. subst options. destruct impl; cbn [optionsOf PDF.font PDF.text];
      rewrite Henc; cbn [ret app]; rewrite ?app_nil_r; reflexivity.
  - intros impl w container document st response pdf pdfDoc q Hne Hfetch Hload Hloop.
    rewrite handleSaveOf_pieces, (handleSave_with_steps _ _ _ _ _ Hne). cbv zeta.
    rewrite Hfetch, Hload, Hloop. cbn [trace fst].
    destruct (persist_uploads w document pdfDoc) as [rest ->].
    right. apply in_or_app. right. left. reflexivity.
Qed.

Lemma zero_overlay_not_detected_witness :
  nativeX 612 0 100 = infinity
  /\ stampOf EditorFile (Scenario.world 1 []) 0 0 Scenario.helvetica (Scenario.source 1)
             (Scenario.jane 1)
     = ([Fetch "/fonts/GreatVibes-Regular.ttf";
         ConsoleLog (Path "/fonts/GreatVibes-Regular.ttf") 200 4],
        inr (PDF.mkDoc
               [PDF.mkPage 612 792
                  [PDF.mkTextOp "Jane Doe" infinity neg_infinity 24
                     (PDF.mkColor (30 / 255) (64 / 255) (175 / 255)) Scenario.cursive]]
               [Scenario.cursive]))
  /\ In (StorageUpload "documents" "user-1/signed-doc-1.pdf"
           (Blob.mk [x25] "application/pdf") true None)
        (trace (handleSaveOf EditorFile (Scenario.world 1 []) (Scenario.overlay 0 0)
                             Scenario.document (Scenario.editing [Scenario.jane 1]))).
Proof.
  destruct zero_overlay_not_detected as (Hx & Hstamp & Hupload).
  split; [|split].
  - apply (Hx 612%float 100%float); reflexivity.
  - apply (Hstamp EditorFile (Scenario.world 1 []) 0%float 0%float Scenario.helvetica
                  Scenario.cursive (Scenario.source 1)
                  (PDF.mkDoc [Scenario.letter] [Scenario.cursive])
                  (Scenario.jane 1) 0 Scenario.letter
                  (PDF.mkColor (30 / 255) (64 / 255) (175 / 255))
                  [Fetch "/fonts/GreatVibes-Regular.ttf";
                   ConsoleLog (Path "/fonts/GreatVibes-Regular.ttf") 200 4]);
      vm_compute; reflexivity.
  - apply (Hupload EditorFile (Scenario.world 1 []) (Scenario.overlay 0 0) Scenario.document
                   (Scenario.editing [Scenario.jane 1])
                   (Response.mk 200 [x25; x50; x44; x46]) (Scenario.source 1)
                   (PDF.mkDoc
                      [PDF.mkPage 612 792
                         [PDF.mkTextOp "Jane Doe" infinity neg_infinity 24
                            (PDF.mkColor (30 / 255) (64 / 255) (175 / 255))
                            Scenario.cursive]]
                      [Scenario.helvetica; Scenario.cursive])
                   [Fetch "/fonts/GreatVibes-Regular.ttf";
                    ConsoleLog (Path "/fonts/GreatVibes-Regular.ttf") 200 4]).
    + discriminate.
    + reflexivity.
    + reflexivity.
    + vm_compute. reflexivity.
Defined.

(** C2, counterexample.  With an overlay of width 0 and height 0 the save
    of either file does not fail: the stamp is drawn at (+Infinity,
    -Infinity), the output is uploaded and the record is updated. *)
Lemma zero_overlay_counterexample :
  (exists op,
      result (forOf (stampOf EditorFile (Scenario.world 1 []) 0 0 Scenario.helvetica)
                    (Scenario.source 1) [Scenario.jane 1])
      = inr (PDF.mkDoc [PDF.mkPage 612 792 [op]] [Scenario.cursive])
      /\ PDF.x op = infinity /\ PDF.y op = neg_infinity)
  /\ (exists op,
      result (forOf (stampOf UnnamedPart3 (Scenario.world 1 []) 0 0 Scenario.helvetica)
                    (Scenario.source 1) [Scenario.jane 1])
      = inr (PDF.mkDoc [PDF.mkPage 612 792 [op]] [Scenario.cursive])
      /\ PDF.x op = infinity /\ PDF.y op = neg_infinity)
  /\ handleSaveOf EditorFile (Scenario.world 1 []) (Scenario.overlay 0 0) Scenario.document
                  (Scenario.editing [Scenario.jane 1])
     = ([Fetch "https://storage/documents/user-1/contract.pdf";
         Fetch "/fonts/GreatVibes-Regular.ttf";
         ConsoleLog (Path "/fonts/GreatVibes-Regular.ttf") 200 4;
         StorageUpload "documents" "user-1/signed-doc-1.pdf"
           (Blob.mk [x25] "application/pdf") true None;
         DbUpdate "documents"
           [("signed_url", "https://storage/documents/user-1/signed-doc-1.pdf");
            ("status", "signed")] "doc-1" None;
         Alert "Document signed and uploaded successfully!"; OnSave], inr tt)
  /\ handleSaveOf UnnamedPart3 (Scenario.world 1 []) (Scenario.overlay 0 0) Scenario.document
                  (Scenario.editing [Scenario.jane 1])
     = ([Fetch "https://storage/documents/user-1/contract.pdf";
         Fetch "/fonts/GreatVibes-Regular.ttf";
         StorageUpload "documents" "user-1/signed-doc-1.pdf"
           (Blob.mk [x25] "application/pdf") true None;
         DbUpdate "documents"
           [("signed_url", "https://storage/documents/user-1/signed-doc-1.pdf");
            ("status", "signed")] "doc-1" None;
         Alert "Document signed and uploaded successfully!"; OnSave], inr tt).
Proof.
  split; [|split; [|split]].
  - eexists. split; [vm_compute; reflexivity|]. split; reflexivity.
  - eexists. split; [vm_compute; reflexivity|]. split; reflexivity.
  - vm_compute. reflexivity.
  - vm_compute. reflexivity.
Qed.

(* ================================================================= *)
(** * Further properties *)

(* ----------------------------------------------------------------- *)
(** ** Removing, adding and selecting *)

Lemma selected_is_false_after_remove (id : string) (st : State.t) :
  selected_is id (removeSignature id st) = false.
Proof.
  unfold removeSignature. destruct (selected_is id st) eqn:E; [reflexivity|].
  unfold selected_is in *. exact E.
Qed.

(** X1.  After [removeSignature id], no stored signature has the id and the
    selection does not have it either; every signature with another id is
    kept, and a selection with another id is left as it is. *)
Theorem removed_id_is_gone (id : string) (st : State.t) :
  (forall sig, In sig (State.signatures (removeSignature id st)) ->
               Signature.id sig <> id /\ In sig (State.signatures st))
  /\ (forall sig, In sig (State.signatures st) -> Signature.id sig <> id ->
                  In sig (State.signatures (removeSignature id st)))
  /\ selected_is id (removeSignature id st) = false
  /\ (selected_is id st = false ->
      State.selectedSignature (removeSignature id st) = State.selectedSignature st).
Proof.
  rewrite signatures_removeSignature. repeat split.
  - apply filter_In in H. destruct H as [_ H]. apply negb_true_iff in H.
    apply String.eqb_neq, H.
  - apply filter_In in H. apply H.
  - intros sig Hin Hne. apply filter_In. split; [exact Hin|].
    apply negb_true_iff, String.eqb_neq, Hne.
  - apply selected_is_false_after_remove.
  - intros E. unfold removeSignature. rewrite E. reflexivity.
Qed.

(* ----------------------------------------------------------------- *)
(** ** What [trim] leaves of a text *)

Lemma trimStart_empty (s : string) : JS.trimStart s = "" <-> has_ink s = false.
Proof.
  unfold has_ink. induction s as [|c s IH]; simpl.
  - split; reflexivity.
  - destruct (JS.isWhiteSpace c); simpl; [exact IH|].
    split; discriminate.
Qed.

Lemma has_ink_trimStart (s : string) : has_ink (JS.trimStart s) = has_ink s.
Proof.
  unfold has_ink. induction s as [|c s IH]; simpl; [reflexivity|].
  destruct (JS.isWhiteSpace c) eqn:E; simpl; [exact IH|].
  rewrite E. reflexivity.
Qed.

Lemma has_ink_rev_string (s acc : string) :
  has_ink (JS.rev_string acc s) = has_ink s || has_ink acc.
Proof.
  unfold has_ink. revert acc. induction s as [|c s IH]; intros acc; simpl; [reflexivity|].
  rewrite IH. simpl. destruct (JS.isWhiteSpace c); simpl.
  - reflexivity.
  - apply orb_true_r.
Qed.

Lemma rev_string_empty (s acc : string) : JS.rev_string acc s = "" -> s = "" /\ acc = "".
Proof.
  revert acc. induction s as [|c s IH]; intros acc H; simpl in H.
  - split; [reflexivity|exact H].
  - apply IH in H. destruct H as [_ H]. discriminate.
Qed.

Lemma trim_empty (s : string) : JS.trim s = "" <-> has_ink s = false.
Proof.
  unfold JS.trim, JS.trimEnd. split.
  - intros H. apply rev_string_empty in H. destruct H as [H _].
    apply trimStart_empty in H. rewrite has_ink_rev_string, has_ink_trimStart in H.
    rewrite orb_false_r in H. exact H.
  - intros H.
    assert (E : JS.trimStart (JS.rev_string "" (JS.trimStart s)) = "").
    { apply trimStart_empty. rewrite has_ink_rev_string, has_ink_trimStart, H. reflexivity. }
    rewrite E. reflexivity.
Qed.

Lemma trim_empty_false (s : string) :
  has_ink s = true -> String.eqb (JS.trim s) "" = false.
Proof.
  intros H. apply String.eqb_neq. intros E. apply trim_empty in E. congruence.
Qed.

(** X2.  [addSignature] changes nothing when the typed text has no character
    other than white space; otherwise it appends exactly one signature, with
    the text as typed (not trimmed), the selected font, size, colour and page,
    at (100, 100), clears the text field and leaves the selection and the
    drag as they are. *)
Theorem addSignature_needs_ink (now : Z) (st : State.t) :
  (has_ink (State.signatureText st) = false -> addSignature now st = st)
  /\ (has_ink (State.signatureText st) = true ->
      State.signatures (addSignature now st)
      = State.signatures st
        ++ [Signature.mk (JS.toString now) (State.signatureText st) (State.selectedFont st)
                         (State.fontSize st) (State.selectedColor st) 100 100
                         (State.selectedPage st)]
      /\ State.signatureText (addSignature now st) = ""
      /\ State.selectedSignature (addSignature now st) = State.selectedSignature st
      /\ State.isDragging (addSignature now st) = State.isDragging st
      /\ State.selectedPage (addSignature now st) = State.selectedPage st).
Proof.
  unfold addSignature. split; intros H.
  - apply trim_empty in H. rewrite H. reflexivity.
  - destruct (String.eqb_spec (JS.trim (State.signatureText st)) "") as [E|E].
    + apply trim_empty in E. congruence.
    + repeat split.
Qed.

(* ----------------------------------------------------------------- *)
(** ** Identifiers *)

Lemma toString_inj (n m : Z) : JS.toString n = JS.toString m -> n = m.
Proof.
  unfold JS.toString. intros H.
  assert (N : forall k, Z.to_int k <> Decimal.Pos Decimal.Nil
                        /\ Z.to_int k <> Decimal.Neg Decimal.Nil).
  { intros [|p|p]; simpl; split; try discriminate;
      intros E; injection E as E; exact (Unsigned.to_uint_nonnil p E). }
  apply DecimalZ.to_int_inj.
  assert (E : Some (Z.to_int n) = Some (Z.to_int m)).
  { rewrite <- (NilZero.isi (Z.to_int n)), <- (NilZero.isi (Z.to_int m)) by apply N.
    rewrite H. reflexivity. }
  injection E as E. exact E.
Qed.

(** X3.  While every stored id was taken from a clock reading before [now]
    and the ids are pairwise different, they still are after
    [addSignature] at [now]: the decimal string of a clock reading
    determines the reading. *)
Theorem ids_unique_while_clock_advances (now : Z) (st : State.t) :
  NoDup (map Signature.id (State.signatures st)) ->
  stamped_before now st ->
  NoDup (map Signature.id (State.signatures (addSignature now st)))
  /\ stamped_before (now + 1) (addSignature now st).
Proof.
  intros Hnd Hb. unfold stamped_before.
  destruct (signatures_addSignature now st) as [E | [sig [Hid E]]]; rewrite E.
  - split; [exact Hnd|]. intros s Hs. destruct (Hb s Hs) as [n [Hn Hlt]].
    exists n. split; [exact Hn | lia].
  - split.
    + rewrite map_app. simpl. apply NoDup_app. repeat split.
      * exact Hnd.
      * constructor; [intros [] | constructor].
      * intros id Hin [Heq | []]. apply in_map_iff in Hin.
        destruct Hin as [s [Hs Hin]]. destruct (Hb s Hin) as [n [Hn Hlt]].
        rewrite <- Heq, Hid in Hs. rewrite Hn in Hs. apply toString_inj in Hs. lia.
    + intros s Hs. apply in_app_or in Hs. destruct Hs as [Hs | [<- | []]].
      * destruct (Hb s Hs) as [n [Hn Hlt]]. exists n. split; [exact Hn | lia].
      * exists now. split; [exact Hid | lia].
Qed.

Lemma ids_unique_while_clock_advances_witness :
  let st := State.setSignatureText "Jane Doe" (Scenario.editing [Scenario.jane 1; Scenario.john]) in
  NoDup (map Signature.id (State.signatures (addSignature 1751212800002 st)))
  /\ stamped_before 1751212800003 (addSignature 1751212800002 st).
Proof.
  apply (ids_unique_while_clock_advances 1751212800002
           (State.setSignatureText "Jane Doe"
              (Scenario.editing [Scenario.jane 1; Scenario.john]))).
  - simpl. repeat constructor; simpl; intuition discriminate.
  - intros sig [<- | [<- | []]].
    + exists 1751212800000%Z. split; [reflexivity | lia].
    + exists 1751212800001%Z. split; [reflexivity | lia].
Defined.

Lemma filter_app_two (id : string) (l : list Signature.t) (a b : Signature.t) :
  Signature.id a = id -> Signature.id b = id ->
  filter (fun sig => negb (String.eqb (Signature.id sig) id)) (l ++ [a; b])
  = filter (fun sig => negb (String.eqb (Signature.id sig) id)) l.
Proof.
  intros Ha Hb. rewrite filter_app. simpl. rewrite Ha, Hb, String.eqb_refl. simpl.
  apply app_nil_r.
Qed.

(** X4.  The id of a signature is the clock reading alone: two signatures
    added at the same reading share their id, the ids are then not pairwise
    different any more, and removing by that id removes both. *)
Theorem same_reading_same_id (now : Z) (text : string) (st : State.t) :
  has_ink (State.signatureText st) = true ->
  has_ink text = true ->
  exists a b,
    State.signatures (addSignature now (State.setSignatureText text (addSignature now st)))
    = State.signatures st ++ [a; b]
    /\ Signature.text a = State.signatureText st /\ Signature.text b = text
    /\ Signature.id a = Signature.id b
    /\ ~ NoDup (map Signature.id
                  (State.signatures
                     (addSignature now (State.setSignatureText text (addSignature now st)))))
    /\ State.signatures
         (removeSignature (Signature.id a)
            (addSignature now (State.setSignatureText text (addSignature now st))))
       = filter (fun sig => negb (String.eqb (Signature.id sig) (JS.toString now)))
                (State.signatures st).
Proof.
  intros H1 H2. apply trim_empty_false in H1. apply trim_empty_false in H2.
  eexists. eexists.
  assert (E : State.signatures
                (addSignature now (State.setSignatureText text (addSignature now st)))
              = State.signatures st
                ++ [Signature.mk (JS.toString now) (State.signatureText st)
                      (State.selectedFont st) (State.fontSize st) (State.selectedColor st)
                      100 100 (State.selectedPage st);
                    Signature.mk (JS.toString now) text
                      (State.selectedFont st) (State.fontSize st) (State.selectedColor st)
                      100 100 (State.selectedPage st)]).
  { unfold addSignature at 2. rewrite H1. unfold addSignature. simpl. rewrite H2. simpl.
    rewrite <- app_assoc. reflexivity. }
  split; [exact E|]. repeat split.
  - rewrite E, map_app. simpl. intros Hnd. apply NoDup_app_remove_l in Hnd.
    inversion Hnd as [|? ? Hn _]. apply Hn. left. reflexivity.
  - rewrite signatures_removeSignature, E. simpl. apply filter_app_two; reflexivity.
Qed.

Lemma same_reading_same_id_witness :
  exists a b,
    State.signatures
      (addSignature 1751212800002
         (State.setSignatureText "J. Doe"
            (addSignature 1751212800002
               (State.setSignatureText "Jane Doe" (Scenario.editing [Scenario.john])))))
    = [Scenario.john; a; b]
    /\ Signature.text a = "Jane Doe" /\ Signature.text b = "J. Doe"
    /\ Signature.id a = Signature.id b
    /\ State.signatures
         (removeSignature (Signature.id a)
            (addSignature 1751212800002
               (State.setSignatureText "J. Doe"
                  (addSignature 1751212800002
                     (State.setSignatureText "Jane Doe" (Scenario.editing [Scenario.john]))))))
       = [Scenario.john].
Proof.
  destruct (same_reading_same_id 1751212800002 "J. Doe"
              (State.setSignatureText "Jane Doe" (Scenario.editing [Scenario.john]))
              eq_refl eq_refl)
    as [a [b [E [Ta [Tb [I [_ R]]]]]]].
  exists a, b. repeat split; assumption.
Defined.

(* ----------------------------------------------------------------- *)
(** ** What a drag changes *)

Lemma same_but_position_refl (a : Signature.t) : same_but_position a a.
Proof. repeat split. Qed.

Lemma same_but_position_spread (a : Signature.t) (newX newY : float) :
  same_but_position a (Signature.spread a (Signature.position newX newY)).
Proof. repeat split. Qed.

Lemma Forall2_map_self {A : Type} (R : A -> A -> Prop) (f : A -> A) (l : list A) :
  (forall a, R a (f a)) -> Forall2 R l (map f l).
Proof. intros H. induction l; simpl; constructor; auto. Qed.

Lemma moved_only_refl (st : State.t) : moved_only st st.
Proof.
  unfold moved_only. repeat split.
  - rewrite <- (map_id (State.signatures st)) at 2. apply Forall2_map_self.
    intros a. split; [apply same_but_position_refl | reflexivity].
  - destruct (State.selectedSignature st); [apply same_but_position_refl | exact I].
Qed.

Lemma moved_only_updateSignature (selected : Signature.t) (newX newY : float) (st : State.t) :
  State.selectedSignature st = Some selected ->
  moved_only st (updateSignature (Signature.id selected) (Signature.position newX newY) st).
Proof.
  intros Hs. unfold moved_only. rewrite signatures_updateSignature.
  unfold updateSignature. rewrite Hs, String.eqb_refl. simpl. repeat split.
  apply Forall2_map_self. intros a. unfold selected_is. rewrite Hs.
  destruct (String.eqb (Signature.id a) (Signature.id selected)) eqn:E.
  - split; [apply same_but_position_spread|].
    rewrite String.eqb_sym, E. discriminate.
  - split; [apply same_but_position_refl | reflexivity].
Qed.

(** X5.  A mouse move or a touch move changes nothing but the position of
    the signatures that have the id of the selection: the list keeps its
    length and order, every signature keeps its id, text, font, size, colour
    and page, a signature with another id is untouched, and the drag state,
    the text field and the page stay. *)
Theorem drag_moves_selected_only (container : option DOMRect.t) (st : State.t) :
  (forall e : MouseEvent.t, moved_only st (handleMouseMove container e st))
  /\ (forall e : TouchEvent.t, moved_only st (Part003.handleTouchMove container e st)).
Proof.
  split; intros e.
  - unfold handleMouseMove.
    destruct (State.isDragging st); [|apply moved_only_refl].
    destruct (State.selectedSignature st) as [selected|] eqn:Hs; [|apply moved_only_refl].
    destruct container as [rect|]; [|apply moved_only_refl].
    apply moved_only_updateSignature, Hs.
  - unfold Part003.handleTouchMove.
    destruct (State.isDragging st); [|apply moved_only_refl].
    destruct (State.selectedSignature st) as [selected|] eqn:Hs; [|apply moved_only_refl].
    destruct container as [rect|]; [|apply moved_only_refl].
    destruct (TouchEvent.touches e) as [|touch others]; [apply moved_only_refl|].
    apply moved_only_updateSignature, Hs.
Qed.

(** X6.  Moves that come when no drag is in progress are ignored: after the
    mouse is released or leaves, after the touch ends, after the selected
    signature is removed, while the container is not mounted, and in the
    initial state, a move leaves the state as it is. *)
Theorem moves_ignored_without_drag (container : option DOMRect.t)
  (e : MouseEvent.t) (te : TouchEvent.t) :
  (forall st, handleMouseMove container e (handleMouseUp st) = handleMouseUp st)
  /\ (forall st, Part003.handleTouchMove container te (handleTouchEnd st) = handleTouchEnd st)
  /\ (forall st, handleMouseMove container e (handleTouchEnd st) = handleTouchEnd st)
  /\ (forall id st, selected_is id st = true ->
        handleMouseMove container e (removeSignature id st) = removeSignature id st
        /\ Part003.handleTouchMove container te (removeSignature id st)
           = removeSignature id st)
  /\ (forall st, handleMouseMove None e st = st /\ Part003.handleTouchMove None te st = st)
  /\ handleMouseMove container e State.initial = State.initial
  /\ Part003.handleTouchMove container te State.initial = State.initial.
Proof.
  repeat split.
  - unfold removeSignature. rewrite H. unfold handleMouseMove. simpl.
    destruct (State.isDragging st); reflexivity.
  - unfold removeSignature. rewrite H. unfold Part003.handleTouchMove. simpl.
    destruct (State.isDragging st); reflexivity.
  - unfold handleMouseMove.
    destruct (State.isDragging st); [|reflexivity].
    destruct (State.selectedSignature st); reflexivity.
  - unfold Part003.handleTouchMove.
    destruct (State.isDragging st); [|reflexivity].
    destruct (State.selectedSignature st); reflexivity.
Qed.

(** X24.  The touch handlers of part_003 do with the first touch point
    what the mouse handlers do with the pointer: a touch start is a mouse
    down, a touch move a mouse move and a touch end a mouse up at the
    coordinates of that point, whatever other points the event has.  With
    no touch point at all, a start still selects the signature and begins
    the drag but leaves the drag offset as it was, and a move does nothing. *)
Theorem touch_does_what_mouse_does (container : option DOMRect.t)
  (touch : TouchEvent.Touch) (others : list TouchEvent.Touch) (sig : Signature.t)
  (st : State.t) :
  handleTouchStart container (TouchEvent.mk (touch :: others)) sig st
  = handleMouseDown container
      (MouseEvent.mk (TouchEvent.clientX touch) (TouchEvent.clientY touch)) sig st
  /\ Part003.handleTouchMove container (TouchEvent.mk (touch :: others)) st
     = handleMouseMove container
         (MouseEvent.mk (TouchEvent.clientX touch) (TouchEvent.clientY touch)) st
  /\ handleTouchEnd st = handleMouseUp st
  /\ handleTouchStart container (TouchEvent.mk []) sig st
     = State.setIsDragging true (State.setSelectedSignature (Some sig) st)
  /\ State.dragOffset (handleTouchStart container (TouchEvent.mk []) sig st)
     = State.dragOffset st
  /\ Part003.handleTouchMove container (TouchEvent.mk []) st = st.
Proof.
  split; [reflexivity|]. split; [|split; [reflexivity|split; [|split]]].
  - unfold Part003.handleTouchMove, handleMouseMove. simpl.
    destruct (State.isDragging st); [|reflexivity].
    destruct (State.selectedSignature st); [|reflexivity].
    destruct container; reflexivity.
  - unfold handleTouchStart. destruct container; reflexivity.
  - unfold handleTouchStart. destruct container; reflexivity.
  - unfold Part003.handleTouchMove. simpl.
    destruct (State.isDragging st); [|reflexivity].
    destruct (State.selectedSignature st); [|reflexivity].
    destruct container; reflexivity.
Qed.

(* ----------------------------------------------------------------- *)
(** ** The selection stays in the store *)

Lemma selectedSignature_updateSignature (id : string) (updates : Signature.partial)
  (st : State.t) :
  State.selectedSignature (updateSignature id updates st)
  = option_map (fun sig => if String.eqb (Signature.id sig) id
                           then Signature.spread sig updates else sig)
               (State.selectedSignature st).
Proof.
  unfold updateSignature. destruct (State.selectedSignature st) as [s|] eqn:E; simpl.
  - destruct (String.eqb (Signature.id s) id); simpl; [reflexivity | exact E].
  - exact E.
Qed.

Lemma selection_in_store_updateSignature (id : string) (updates : Signature.partial)
  (st : State.t) :
  selection_in_store st -> selection_in_store (updateSignature id updates st).
Proof.
  unfold selection_in_store.
  rewrite selectedSignature_updateSignature, signatures_updateSignature.
  destruct (State.selectedSignature st) as [s|]; simpl; [|trivial].
  intros H. apply in_map_iff. exists s. split; [reflexivity | exact H].
Qed.

Lemma visible_in_store (st : State.t) (sig : Signature.t) :
  In sig (visibleSignatures st) ->
  In sig (State.signatures st) /\ Signature.page sig = State.selectedPage st.
Proof.
  unfold visibleSignatures. intros H. apply filter_In in H. destruct H as [H E].
  split; [exact H | apply Z.eqb_eq, E].
Qed.

Lemma selection_in_store_addSignature (now : Z) (st : State.t) :
  selection_in_store st -> selection_in_store (addSignature now st).
Proof.
  intros H. unfold selection_in_store, addSignature in *.
  destruct (String.eqb _ _); [exact H|]. simpl.
  destruct (State.selectedSignature st); [|trivial]. apply in_or_app. left. exact H.
Qed.

Lemma selection_in_store_removeSignature (id : string) (st : State.t) :
  selection_in_store st -> selection_in_store (removeSignature id st).
Proof.
  intros H. unfold selection_in_store in *. rewrite signatures_removeSignature.
  unfold removeSignature, selected_is.
  destruct (State.selectedSignature st) as [s|] eqn:Hs; simpl.
  - destruct (String.eqb (Signature.id s) id) eqn:E; simpl; [trivial|].
    rewrite Hs. apply filter_In. split; [exact H|]. rewrite E. reflexivity.
  - rewrite Hs. trivial.
Qed.

Lemma selection_in_store_handleMouseMove (container : option DOMRect.t) (e : MouseEvent.t)
  (st : State.t) :
  selection_in_store st -> selection_in_store (handleMouseMove container e st).
Proof.
  intros H. unfold handleMouseMove.
  destruct (State.isDragging st); [|exact H].
  destruct (State.selectedSignature st) as [selected|] eqn:Hs; [|exact H].
  destruct container as [rect|]; [|exact H].
  apply selection_in_store_updateSignature. exact H.
Qed.

Lemma selection_in_store_handleTouchMove (container : option DOMRect.t) (e : TouchEvent.t)
  (st : State.t) :
  selection_in_store st -> selection_in_store (Part003.handleTouchMove container e st).
Proof.
  intros H. unfold Part003.handleTouchMove.
  destruct (State.isDragging st); [|exact H].
  destruct (State.selectedSignature st) as [selected|] eqn:Hs; [|exact H].
  destruct container as [rect|]; [|exact H].
  destruct (TouchEvent.touches e); [exact H|].
  apply selection_in_store_updateSignature. exact H.
Qed.

Lemma selection_in_store_handleMouseDown (container : option DOMRect.t) (e : MouseEvent.t)
  (sig : Signature.t) (st : State.t) :
  In sig (State.signatures st) -> selection_in_store (handleMouseDown container e sig st).
Proof. intros H. unfold handleMouseDown. destruct container; exact H. Qed.

Lemma selection_in_store_handleTouchStart (container : option DOMRect.t) (e : TouchEvent.t)
  (sig : Signature.t) (st : State.t) :
  In sig (State.signatures st) -> selection_in_store (handleTouchStart container e sig st).
Proof.
  intros H. unfold handleTouchStart.
  destruct container; [destruct (TouchEvent.touches e)|]; exact H.
Qed.

(** X7.  If the selected signature is one of the stored signatures, it still
    is after every handler of the editor: after an add, a removal, an
    update, a move, a release, and after a press on a signature that the
    overlay shows. *)
Theorem selection_stays_in_store (st : State.t) :
  selection_in_store st ->
  (forall now, selection_in_store (addSignature now st))
  /\ (forall id, selection_in_store (removeSignature id st))
  /\ (forall id updates, selection_in_store (updateSignature id updates st))
  /\ (forall container e, selection_in_store (handleMouseMove container e st))
  /\ (forall container e, selection_in_store (Part003.handleTouchMove container e st))
  /\ selection_in_store (handleMouseUp st)
  /\ selection_in_store (handleTouchEnd st)
  /\ (forall container e sig, In sig (visibleSignatures st) ->
        selection_in_store (handleMouseDown container e sig st))
  /\ (forall container e sig, In sig (visibleSignatures st) ->
        selection_in_store (handleTouchStart container e sig st)).
Proof.
  intros H. repeat split.
  - intros now. apply selection_in_store_addSignature, H.
  - intros id. apply selection_in_store_removeSignature, H.
  - intros id updates. apply selection_in_store_updateSignature, H.
  - intros container e. apply selection_in_store_handleMouseMove, H.
  - intros container e. apply selection_in_store_handleTouchMove, H.
  - exact H.
  - exact H.
  - intros container e sig Hv. apply selection_in_store_handleMouseDown.
    apply visible_in_store in Hv. apply Hv.
  - intros container e sig Hv. apply selection_in_store_handleTouchStart.
    apply visible_in_store in Hv. apply Hv.
Qed.

Lemma selection_stays_in_store_witness :
  selection_in_store
    (removeSignature "1751212800001"
       (State.setSelectedSignature (Some (Scenario.jane 1))
          (Scenario.editing [Scenario.jane 1; Scenario.john])))
  /\ selection_in_store
       (handleMouseMove (Scenario.overlay 500 600) (MouseEvent.mk 700 (-50))
          (Scenario.dragging (Scenario.jane 1))).
Proof.
  split.
  - apply (proj1 (proj2 (selection_stays_in_store
                           (State.setSelectedSignature (Some (Scenario.jane 1))
                              (Scenario.editing [Scenario.jane 1; Scenario.john]))
                           (or_introl eq_refl)))).
  - apply (proj1 (proj2 (proj2 (proj2 (selection_stays_in_store
                                         (Scenario.dragging (Scenario.jane 1))
                                         (or_introl eq_refl)))))).
Defined.

(* ----------------------------------------------------------------- *)
(** ** Where a failed save failed *)

Lemma bind_inl {A B : Type} (m : M A) (k : A -> M B) (t : list Event) (e : Exn) :
  bind m k = (t, inl e) ->
  m = (t, inl e)
  \/ exists t1 a t2, m = (t1, inr a) /\ k a = (t2, inl e) /\ t = t1 ++ t2.
Proof.
  unfold bind. destruct m as [t1 [e1|a]].
  - intros H. left. inversion H; subst. reflexivity.
  - destruct (k a) as [t2 r] eqn:Ek. intros H. inversion H; subst.
    right. exists t1, a, t2. repeat split. exact Ek.
Qed.

Lemma forOf_inl {A S : Type} (body : S -> A -> M S) (l : list A) :
  forall (s : S) (t : list Event) (e : Exn),
    forOf body s l = (t, inl e) ->
    exists good bad rest s' t1 t2,
      l = good ++ bad :: rest /\ forOf body s good = (t1, inr s')
      /\ body s' bad = (t2, inl e) /\ t = t1 ++ t2.
Proof.
  induction l as [|a l IH]; intros s t e H; simpl in H; [discriminate|].
  apply bind_inl in H. destruct H as [H | (t1 & s1 & t2 & H1 & H2 & ->)].
  - exists [], a, l, s, [], t. repeat split. exact H.
  - destruct (IH s1 t2 e H2) as (good & bad & rest & s' & u1 & u2 & -> & Hg & Hb & ->).
    exists (a :: good), bad, rest, s', (t1 ++ u1), u2. repeat split.
    + simpl. rewrite H1. cbn [bind]. rewrite Hg. reflexivity.
    + exact Hb.
    + apply app_assoc.
Qed.

Lemma getPage_inl (pdfDoc : PDF.PDFDocument) (index : Z) (t : list Event) (e : Exn) :
  getPage pdfDoc index = (t, inl e) ->
  t = []
  /\ ((e = RangeError "index"
       /\ (index < 0 \/ Z.max 0 (Z.of_nat (PDF.getPageCount pdfDoc) - 1) < index)%Z)
      \/ (e = TypeError "page" /\ PDF.pages pdfDoc = [] /\ index = 0%Z)).
Proof.
  unfold getPage.
  destruct (index <? 0)%Z eqn:E1; simpl.
  - intros H. inversion H; subst. split; [reflexivity|]. left. split; [reflexivity|].
    left. apply Z.ltb_lt, E1.
  - destruct (Z.max 0 (Z.of_nat (PDF.getPageCount pdfDoc) - 1) <? index)%Z eqn:E2.
    + intros H. inversion H; subst. split; [reflexivity|]. left. split; [reflexivity|].
      right. apply Z.ltb_lt, E2.
    + destruct (nth_error (PDF.pages pdfDoc) (Z.to_nat index)) as [p|] eqn:E; [discriminate|].
      intros H. inversion H; subst. split; [reflexivity|]. right. split; [reflexivity|].
      apply Z.ltb_ge in E1, E2. apply nth_error_None in E. unfold PDF.getPageCount in E2.
      destruct (PDF.pages pdfDoc) as [|p l]; [split; [reflexivity|simpl in E2; lia]|].
      simpl List.length in *. lia.
Qed.

Lemma assertChannel_inl (value : option float) (valueName : string) (t : list Event)
  (e : Exn) :
  assertChannel value valueName = (t, inl e) ->
  e = TypeError valueName \/ e = RangeError valueName.
Proof.
  unfold assertChannel. destruct value as [v|].
  - destruct (is_nan v); [intros H; inversion H; auto|].
    destruct (_ || _); [intros H; inversion H; auto | discriminate].
  - intros H; inversion H; auto.
Qed.

Lemma rgb_inl (r g b : option float) (t : list Event) (e : Exn) :
  rgb r g b = (t, inl e) -> e <> RangeError "index".
Proof.
  unfold rgb. intros H.
  apply bind_inl in H. destruct H as [H | (t1 & red & t2 & _ & H & _)].
  { apply assertChannel_inl in H. destruct H as [-> | ->]; discriminate. }
  apply bind_inl in H. destruct H as [H | (t3 & green & t4 & _ & H & _)].
  { apply assertChannel_inl in H. destruct H as [-> | ->]; discriminate. }
  apply bind_inl in H. destruct H as [H | (t5 & blue & t6 & _ & H & _)].
  { apply assertChannel_inl in H. destruct H as [-> | ->]; discriminate. }
  discriminate.
Qed.

Lemma fetch_inl (w : World.t) (url : string) (t : list Event) (e : Exn) :
  fetch w url = (t, inl e) -> e = NetworkError url.
Proof.
  unfold fetch. cbn [bind emit]. destruct (World.fetch w url); cbn [ret throw].
  - discriminate.
  - intros H. inversion H. reflexivity.
Qed.

Lemma embedFont_inl (w : World.t) (pdfDoc : PDF.PDFDocument) (fontBytes : list byte)
  (t : list Event) (e : Exn) :
  embedFont w pdfDoc fontBytes = (t, inl e) -> e = InvalidFont.
Proof.
  unfold embedFont. destruct (World.fontkit w fontBytes); [discriminate|].
  intros H. inversion H. reflexivity.
Qed.

Lemma resolveFont_inl (impl : Implementation) (w : World.t) (font : PDF.PDFFont)
  (pdfDoc : PDF.PDFDocument) (sig : Signature.t) (t : list Event) (e : Exn) :
  resolveFont impl w font pdfDoc sig = (t, inl e) ->
  exists fontUrl, FONT_FILE_MAP (Signature.font sig) = Some fontUrl
                  /\ (e = NetworkError (requested w fontUrl) \/ e = InvalidFont).
Proof.
  unfold resolveFont. destruct (FONT_FILE_MAP (Signature.font sig)) as [fontUrl|];
    [|discriminate].
  intros H. exists fontUrl. split; [reflexivity|].
  apply bind_inl in H. destruct H as [H | (t1 & response & t2 & _ & H & _)].
  - left. apply (fetch_inl _ _ _ _ H).
  - right. destruct impl; cbn [loggedOf] in H.
    + apply bind_inl in H. destruct H as [H | (t3 & u & t4 & _ & H & _)]; [discriminate|].
      apply (embedFont_inl _ _ _ _ _ H).
    + apply (embedFont_inl _ _ _ _ _ H).
Qed.

Lemma drawText_inl (w : World.t) (pdfDoc : PDF.PDFDocument) (index : nat) (op : PDF.TextOp)
  (t : list Event) (e : Exn) :
  drawText w pdfDoc index op = (t, inl e) ->
  e = TypeError "options.size" \/ e = TypeError "options.x" \/ e = TypeError "options.y"
  \/ e = EncodingError.
Proof.
  unfold drawText.
  destruct (is_nan (PDF.size op)); [intros H; inversion H; auto|].
  destruct (is_nan (PDF.x op)); [intros H; inversion H; auto|].
  destruct (is_nan (PDF.y op)); [intros H; inversion H; auto|].
  destruct (World.encodes _ _ _); [discriminate|]. intros H; inversion H; auto.
Qed.

(** A stamp that fails with the range error of the page index failed at
    [getPage], before any request. *)
Lemma stamp_range_error (impl : Implementation) (w : World.t)
  (overlayWidth overlayHeight : float) (font : PDF.PDFFont) (pdfDoc : PDF.PDFDocument)
  (sig : Signature.t) (t : list Event) :
  stampOf impl w overlayWidth overlayHeight font pdfDoc sig = (t, inl (RangeError "index")) ->
  t = []
  /\ (Signature.page sig < 1
      \/ Z.max 1 (Z.of_nat (PDF.getPageCount pdfDoc)) < Signature.page sig)%Z.
Proof.
  rewrite stampOf_pieces. unfold stampWith. intros H.
  apply bind_inl in H. destruct H as [H | (t1 & [index page] & t2 & _ & H & _)].
  { apply getPage_inl in H. destruct H as [-> [[_ H] | [H _]]]; [|discriminate].
    split; [reflexivity|]. lia. }
  cbv beta iota in H.
  apply bind_inl in H. destruct H as [H | (t3 & [pdfFont pdfDoc1] & t4 & _ & H & _)].
  { apply resolveFont_inl in H. destruct H as (u & _ & [H | H]); discriminate. }
  cbv beta iota in H.
  apply bind_inl in H. destruct H as [H | (t5 & color & t6 & _ & H & _)].
  { apply rgb_inl in H. contradiction. }
  apply drawText_inl in H. destruct H as [H | [H | [H | H]]]; discriminate.
Qed.

Lemma stamp_inr_index (impl : Implementation) (w : World.t)
  (overlayWidth overlayHeight : float) (font : PDF.PDFFont) (pdfDoc pdfDoc' : PDF.PDFDocument)
  (sig : Signature.t) (t : list Event) :
  stampOf impl w overlayWidth overlayHeight font pdfDoc sig = (t, inr pdfDoc') ->
  (1 <= Signature.page sig <= Z.of_nat (PDF.getPageCount pdfDoc))%Z.
Proof.
  rewrite stampOf_pieces. unfold stampWith. intros H.
  apply bind_inr in H. destruct H as (t1 & [index page] & t2 & Hget & _).
  unfold getPage in Hget.
  destruct (Signature.page sig - 1 <? 0)%Z eqn:E1; [discriminate|]. cbn [orb] in Hget.
  destruct (Z.max 0 (Z.of_nat (PDF.getPageCount pdfDoc) - 1) <? Signature.page sig - 1)%Z;
    [discriminate|].
  destruct (nth_error _ _) as [p|] eqn:E; [|discriminate].
  apply Z.ltb_ge in E1.
  assert (Hlt : Z.to_nat (Signature.page sig - 1) < List.length (PDF.pages pdfDoc)).
  { apply nth_error_Some. rewrite E. discriminate. }
  unfold PDF.getPageCount. lia.
Qed.

Lemma loop_pages_in_range (impl : Implementation) (w : World.t)
  (overlayWidth overlayHeight : float) (font : PDF.PDFFont) (sigs : list Signature.t) :
  forall (pdfDoc pdfDoc' : PDF.PDFDocument) (t : list Event),
    forOf (stampOf impl w overlayWidth overlayHeight font) pdfDoc sigs = (t, inr pdfDoc') ->
    PDF.getPageCount pdfDoc' = PDF.getPageCount pdfDoc
    /\ forall sig, In sig sigs ->
         (1 <= Signature.page sig <= Z.of_nat (PDF.getPageCount pdfDoc))%Z.
Proof.
  induction sigs as [|a sigs IH]; intros pdfDoc pdfDoc' t H; simpl in H.
  - inversion H; subst. split; [reflexivity | intros sig []].
  - apply bind_inr in H. destruct H as (t1 & pdfDoc1 & t2 & H1 & H2 & _).
    destruct (IH _ _ _ H2) as [L Hall].
    assert (L1 := stamp_page_count _ _ _ _ _ _ _ _ _ H1).
    split; [congruence|]. intros sig [<- | Hin].
    + apply (stamp_inr_index _ _ _ _ _ _ _ _ _ H1).
    + rewrite <- L1. apply Hall, Hin.
Qed.

Lemma console_error_in_quiet (q : list Event) (e : Exn) :
  Forall quiet q -> ~ In (ConsoleError e) q.
Proof.
  intros Hq Hin. rewrite Forall_forall in Hq. apply (Hq _ Hin).
Qed.

Lemma persist_no_console_error (w : World.t) (document : Document.t)
  (pdfDoc : PDF.PDFDocument) (e : Exn) :
  ~ In (ConsoleError e) (trace (persist w document pdfDoc)).
Proof.
  unfold persist, storage_upload, db_update. cbn [bind emit ret app trace fst].
  destruct (World.upload w _ _ _); cbn [bind emit ret app trace fst].
  - simpl. intuition discriminate.
  - destruct (World.update w _ _ _); simpl; intuition discriminate.
Qed.

(** The error reported by a run of [handleSave] that got as far as the loop
    is the error of the first signature whose stamp failed. *)
Lemma reported_error (impl : Implementation) (w : World.t) (container : option DOMRect.t)
  (document : Document.t) (st : State.t) (response : Response.t) (pdf : PDF.PDFDocument)
  (e : Exn) :
  World.fetch w (Document.original_url document) = Some response ->
  World.load w (Response.arrayBuffer response) = Some pdf ->
  In (ConsoleError e) (trace (handleSaveOf impl w container document st)) ->
  exists good bad rest pdfDoc t1 t2,
    State.signatures st = good ++ bad :: rest
    /\ forOf (stampOf impl w (fst (overlaySize container)) (snd (overlaySize container))
                      (PDF.Standard "Helvetica"))
             (snd (embedStandardFont pdf "Helvetica")) good = (t1, inr pdfDoc)
    /\ stampOf impl w (fst (overlaySize container)) (snd (overlaySize container))
               (PDF.Standard "Helvetica") pdfDoc bad = (t2, inl e).
Proof.
  intros Hf Hl Hin. rewrite handleSaveOf_pieces in Hin.
  destruct (State.signatures st) as [|a l] eqn:Es.
  { unfold handleSave_with in Hin. rewrite Es in Hin. simpl in Hin.
    destruct Hin as [Hin | []]. discriminate. }
  rewrite handleSave_with_steps in Hin by (rewrite Es; discriminate).
  cbv zeta in Hin. rewrite Hf, Hl, Es in Hin.
  destruct (forOf _ _ (a :: l)) as [q [e'|pdfDoc]] eqn:Eloop.
  - assert (Hq : Forall quiet q).
    { change q with (trace (q, @inl Exn PDF.PDFDocument e')). rewrite <- Eloop.
      apply quiet_forOf. intros s sig. apply quiet_stamp. }
    cbn [trace fst] in Hin. destruct Hin as [Hin | Hin]; [discriminate|].
    apply in_app_or in Hin. destruct Hin as [Hin | Hin].
    { exfalso. apply (console_error_in_quiet _ _ Hq Hin). }
    destruct Hin as [Hin | [Hin | []]]; [|discriminate]. inversion Hin; subst e'.
    apply forOf_inl in Eloop.
    destruct Eloop as (good & bad & rest & s' & t1 & t2 & El & Hg & Hb & _).
    exists good, bad, rest, s', t1, t2. repeat split; assumption.
  - assert (Hq : Forall quiet q).
    { change q with (trace (q, @inr Exn PDF.PDFDocument pdfDoc)). rewrite <- Eloop.
      apply quiet_forOf. intros s sig. apply quiet_stamp. }
    cbn [trace fst] in Hin. destruct Hin as [Hin | Hin]; [discriminate|].
    apply in_app_or in Hin. destruct Hin as [Hin | Hin].
    + exfalso. apply (console_error_in_quiet _ _ Hq Hin).
    + exfalso. apply (persist_no_console_error _ _ _ _ Hin).
Qed.

(** X8.  A run of [handleSave] that reports the range error of the page
    index has met a signature whose page is below 1 or beyond the pages of
    the document; the signatures before it were all on pages of the
    document. *)
Theorem range_error_names_a_page (impl : Implementation) (w : World.t)
  (container : option DOMRect.t) (document : Document.t) (st : State.t)
  (response : Response.t) (pdf : PDF.PDFDocument) :
  World.fetch w (Document.original_url document) = Some response ->
  World.load w (Response.arrayBuffer response) = Some pdf ->
  In (ConsoleError (RangeError "index")) (trace (handleSaveOf impl w container document st)) ->
  exists good sig rest,
    State.signatures st = good ++ sig :: rest
    /\ (Signature.page sig < 1
        \/ Z.max 1 (Z.of_nat (PDF.getPageCount pdf)) < Signature.page sig)%Z
    /\ forall s, In s good ->
         (1 <= Signature.page s <= Z.of_nat (PDF.getPageCount pdf))%Z.
Proof.
  intros Hf Hl Hin.
  destruct (reported_error _ _ _ _ _ _ _ _ Hf Hl Hin)
    as (good & bad & rest & pdfDoc & t1 & t2 & Es & Hg & Hb).
  apply loop_pages_in_range in Hg. destruct Hg as [L Hall].
  apply stamp_range_error in Hb. destruct Hb as [_ Hb].
  exists good, bad, rest. split; [exact Es|]. split.
  - rewrite L in Hb. exact Hb.
  - exact Hall.
Qed.

Lemma range_error_names_a_page_witness :
  exists good sig rest,
    [Scenario.jane 1; Scenario.jane 5] = good ++ sig :: rest
    /\ (Signature.page sig < 1 \/ Z.max 1 3 < Signature.page sig)%Z
    /\ forall s, In s good -> (1 <= Signature.page s <= 3)%Z.
Proof.
  apply (range_error_names_a_page EditorFile (Scenario.world 3 []) (Scenario.overlay 500 600)
           Scenario.document (Scenario.editing [Scenario.jane 1; Scenario.jane 5])
           (Response.mk 200 [x25; x50; x44; x46]) (Scenario.source 3)).
  - reflexivity.
  - reflexivity.
  - vm_compute. repeat (try (left; reflexivity); right).
Defined.

(* ----------------------------------------------------------------- *)
(** ** The colour step *)

Lemma leb_not_ltb (a b : float) : (a <=? b)%float = true -> (b <? a)%float = false.
Proof.
  rewrite ltb_spec, leb_spec. unfold SFltb, SFleb.
  rewrite (SFcompare_antisym (Prim2SF a) (Prim2SF b)).
  destruct (SFcompare (Prim2SF a) (Prim2SF b)) as [[]|]; simpl; congruence.
Qed.

Lemma assertChannel_unit (v : float) (valueName : string) :
  (0 <=? v)%float = true -> (v <=? 1)%float = true ->
  assertChannel (Some v) valueName = ([], inr v).
Proof.
  intros H0 H1. unfold assertChannel.
  rewrite (leb_is_number _ _ H0), (leb_not_ltb _ _ H0), (leb_not_ltb _ _ H1). reflexivity.
Qed.

Lemma hexToRgb_six (c1 c2 c3 c4 c5 c6 : ascii) (r1 r2 g1 g2 b1 b2 : Z) :
  hexValue c1 = Some r1 -> hexValue c2 = Some r2 ->
  hexValue c3 = Some g1 -> hexValue c4 = Some g2 ->
  hexValue c5 = Some b1 -> hexValue c6 = Some b2 ->
  colourOf (String "#" (String c1 (String c2 (String c3 (String c4
              (String c5 (String c6 EmptyString)))))))
  = ([], inr (PDF.mkColor (channel (16 * r1 + r2)) (channel (16 * g1 + g2))
                          (channel (16 * b1 + b2)))).
Proof.
  intros H1 H2 H3 H4 H5 H6.
  destruct (hex_pair _ _ _ _ H1 H2) as (L1 & L2 & Pr & Rlo & Rhi).
  destruct (hex_pair _ _ _ _ H3 H4) as (L3 & L4 & Pg & Glo & Ghi).
  destruct (hex_pair _ _ _ _ H5 H6) as (L5 & L6 & Pb & Blo & Bhi).
  unfold colourOf, hexToRgb. rewrite replace_leading_hash. unfold JS.match_1_2.
  rewrite !groups_pair by assumption.
  cbn [JS.groups_1_2 map nth_error Rgb.r Rgb.g Rgb.b]. rewrite Pr, Pg, Pb.
  fold (channel (16 * r1 + r2)) (channel (16 * g1 + g2)) (channel (16 * b1 + b2)).
  unfold rgb. rewrite !assertChannel_unit by assumption. reflexivity.
Qed.

Lemma groups_count (n : nat) :
  forall s, String.length s <= n -> 2 * List.length (JS.groups_1_2 s) <= String.length s + 1.
Proof.
  induction n as [|n IH]; intros s H.
  - destruct s; [simpl; lia | simpl in H; lia].
  - destruct s as [|c1 s1]; [simpl; lia|].
    simpl in H. cbn [JS.groups_1_2].
    destruct (JS.isLineTerminator c1).
    + assert (L := IH s1 ltac:(lia)). simpl String.length. lia.
    + destruct s1 as [|c2 s2]; [simpl; lia|].
      simpl in H. assert (L := IH s2 ltac:(lia)).
      destruct (JS.isLineTerminator c2); simpl List.length; simpl String.length; lia.
Qed.

Lemma short_colour (hex : string) :
  String.length (JS.replace "#" "" hex) <= 4 ->
  hexToRgb hex = black \/ Rgb.b (hexToRgb hex) = None.
Proof.
  intros H. assert (L := groups_count _ _ H).
  unfold hexToRgb, JS.match_1_2.
  destruct (JS.groups_1_2 (JS.replace "#" "" hex)) as [|a l] eqn:E; [left; reflexivity|].
  right. cbn [Rgb.b]. apply nth_error_None. rewrite length_map. lia.
Qed.

Lemma colourOf_undefined (hex : string) :
  Rgb.b (hexToRgb hex) = None -> exists e, colourOf hex = ([], inl e).
Proof.
  intros H. unfold colourOf. rewrite H.
  assert (F : exists t e, rgb (Rgb.r (hexToRgb hex)) (Rgb.g (hexToRgb hex)) None
                          = (t, inl e)).
  { unfold rgb. apply bind_fails. intros t1 red _. apply bind_fails. intros t2 green _.
    exists [], (TypeError "blue"). reflexivity. }
  destruct F as (t & e & F).
  assert (T := rgb_silent (Rgb.r (hexToRgb hex)) (Rgb.g (hexToRgb hex)) None).
  rewrite F in T. cbn [trace fst] in T. subst t. exists e. exact F.
Qed.

Lemma stamp_colour_fails (impl : Implementation) (w : World.t)
  (overlayWidth overlayHeight : float) (font : PDF.PDFFont) (pdfDoc : PDF.PDFDocument)
  (sig : Signature.t) :
  Rgb.b (hexToRgb (Signature.color sig)) = None ->
  exists t e, stampOf impl w overlayWidth overlayHeight font pdfDoc sig = (t, inl e).
Proof.
  intros H. rewrite stampOf_pieces. unfold stampWith.
  apply bind_fails. intros t1 [index page] _. cbv beta iota.
  apply bind_fails. intros t2 [pdfFont pdfDoc1] _. cbv beta iota.
  destruct (colourOf_undefined _ H) as [e He]. unfold colourOf in He.
  exists [], e. rewrite He. reflexivity.
Qed.

Lemma six_hex_digits_colour (hex : string) :
  six_hex_digits hex = true -> exists color, colourOf hex = ([], inr color).
Proof.
  intros H. unfold six_hex_digits in H.
  destruct hex as [|h [|c1 [|c2 [|c3 [|c4 [|c5 [|c6 [|c7 s]]]]]]]]; try discriminate.
  repeat (apply andb_prop in H; destruct H as [H ?]).
  apply Ascii.eqb_eq in H. subst h. unfold is_hex in *.
  destruct (hexValue c1) as [r1|] eqn:E1; [|discriminate].
  destruct (hexValue c2) as [r2|] eqn:E2; [|discriminate].
  destruct (hexValue c3) as [g1|] eqn:E3; [|discriminate].
  destruct (hexValue c4) as [g2|] eqn:E4; [|discriminate].
  destruct (hexValue c5) as [b1|] eqn:E5; [|discriminate].
  destruct (hexValue c6) as [b2|] eqn:E6; [|discriminate].
  eexists. apply (hexToRgb_six _ _ _ _ _ _ _ _ _ _ _ _ E1 E2 E3 E4 E5 E6).
Qed.

(** X9.  The colour of a signature never stops a save when it is a hash and
    six hexadecimal digits, as every colour of the selector is: [rgb] then
    returns the three channels.  A colour of at most four characters after
    the hash is either read as black or has no blue channel, and a
    signature with no blue channel makes the save give up with nothing
    stored. *)
Theorem colour_step :
  (forall (c1 c2 c3 c4 c5 c6 : ascii) (r1 r2 g1 g2 b1 b2 : Z),
      hexValue c1 = Some r1 -> hexValue c2 = Some r2 ->
      hexValue c3 = Some g1 -> hexValue c4 = Some g2 ->
      hexValue c5 = Some b1 -> hexValue c6 = Some b2 ->
      colourOf (String "#" (String c1 (String c2 (String c3 (String c4
                  (String c5 (String c6 EmptyString)))))))
      = ([], inr (PDF.mkColor (channel (16 * r1 + r2)) (channel (16 * g1 + g2))
                              (channel (16 * b1 + b2)))))
  /\ (forall hex, six_hex_digits hex = true -> exists color, colourOf hex = ([], inr color))
  /\ forallb six_hex_digits COLOR_OPTIONS = true
  /\ (forall hex, String.length (JS.replace "#" "" hex) <= 4 ->
        hexToRgb hex = black \/ Rgb.b (hexToRgb hex) = None)
  /\ (forall (impl : Implementation) (w : World.t) (container : option DOMRect.t)
             (document : Document.t) (st : State.t) (sig : Signature.t),
        In sig (State.signatures st) ->
        Rgb.b (hexToRgb (Signature.color sig)) = None ->
        (exists error, aborted_with error (trace (handleSaveOf impl w container document st)))
        /\ (forall ev, In ev (trace (handleSaveOf impl w container document st)) ->
                       persists ev = false)).
Proof.
  split; [exact hexToRgb_six|]. split; [|split; [reflexivity|split; [exact short_colour|]]].
  - exact six_hex_digits_colour.
  - intros impl w container document st sig Hin Hb.
    assert (Hne : State.signatures st <> []) by (intros E; rewrite E in Hin; exact Hin).
    assert (Ha : exists error,
               aborted_with error (trace (handleSaveOf impl w container document st))).
    { apply handleSaveOf_aborts; [exact Hne|]. intros response pdf _ _.
      apply (forOf_fails _ (fun _ => True) sig); auto.
      intros s _. apply stamp_colour_fails, Hb. }
    split; [exact Ha|]. destruct Ha as [error Ha].
    intros ev Hev. apply (aborted_not_persisted _ _ _ Ha Hev).
Qed.

Lemma hexToRgb_six_rest (c1 c2 c3 c4 c5 c6 : ascii) (r1 r2 g1 g2 b1 b2 : Z)
  (rest : string) :
  hexValue c1 = Some r1 -> hexValue c2 = Some r2 ->
  hexValue c3 = Some g1 -> hexValue c4 = Some g2 ->
  hexValue c5 = Some b1 -> hexValue c6 = Some b2 ->
  hexToRgb (String "#" (String c1 (String c2 (String c3 (String c4
              (String c5 (String c6 rest)))))))
  = Rgb.mk (Some (channel (16 * r1 + r2))) (Some (channel (16 * g1 + g2)))
           (Some (channel (16 * b1 + b2))).
Proof.
  intros H1 H2 H3 H4 H5 H6.
  destruct (hex_pair _ _ _ _ H1 H2) as (L1 & L2 & Pr & _).
  destruct (hex_pair _ _ _ _ H3 H4) as (L3 & L4 & Pg & _).
  destruct (hex_pair _ _ _ _ H5 H6) as (L5 & L6 & Pb & _).
  unfold hexToRgb. rewrite replace_leading_hash. unfold JS.match_1_2.
  rewrite !groups_pair by assumption.
  cbn [map nth_error]. rewrite Pr, Pg, Pb. reflexivity.
Qed.

(** X25.  [hexToRgb] reads the first three groups of two characters and
    nothing else: what follows the six hexadecimal digits of a colour, an
    alpha channel for one, is ignored, and the colour is drawn as without
    it. *)
Theorem colour_beyond_six_digits_ignored (hex rest : string) :
  six_hex_digits hex = true ->
  hexToRgb (hex ++ rest) = hexToRgb hex /\ colourOf (hex ++ rest) = colourOf hex.
Proof.
  intros H. unfold six_hex_digits in H.
  destruct hex as [|h [|c1 [|c2 [|c3 [|c4 [|c5 [|c6 [|c7 s]]]]]]]]; try discriminate.
  repeat (apply andb_prop in H; destruct H as [H ?]).
  apply Ascii.eqb_eq in H. subst h. unfold is_hex in *.
  destruct (hexValue c1) as [r1|] eqn:E1; [|discriminate].
  destruct (hexValue c2) as [r2|] eqn:E2; [|discriminate].
  destruct (hexValue c3) as [g1|] eqn:E3; [|discriminate].
  destruct (hexValue c4) as [g2|] eqn:E4; [|discriminate].
  destruct (hexValue c5) as [b1|] eqn:E5; [|discriminate].
  destruct (hexValue c6) as [b2|] eqn:E6; [|discriminate].
  assert (E : hexToRgb (String "#" (String c1 (String c2 (String c3 (String c4
                          (String c5 (String c6 ""))))))  ++ rest)
              = hexToRgb (String "#" (String c1 (String c2 (String c3 (String c4
                            (String c5 (String c6 "")))))))).
  { cbn [String.append].
    rewrite !(hexToRgb_six_rest _ _ _ _ _ _ _ _ _ _ _ _ _ E1 E2 E3 E4 E5 E6). reflexivity. }
  split; [exact E|]. unfold colourOf. rewrite E. reflexivity.
Qed.

Lemma colour_beyond_six_digits_ignored_witness :
  hexToRgb "#1e40afff" = hexToRgb "#1e40af"
  /\ colourOf "#1e40afff" = colourOf "#1e40af".
Proof.
  apply (colour_beyond_six_digits_ignored "#1e40af" "ff"). reflexivity.
Defined.

(* ----------------------------------------------------------------- *)
(** ** What a finished loop has drawn and embedded *)

Lemma drawText_encodes (w : World.t) (pdfDoc pdfDoc' : PDF.PDFDocument) (index : nat)
  (op : PDF.TextOp) (t : list Event) :
  drawText w pdfDoc index op = (t, inr pdfDoc') ->
  World.encodes w (PDF.font op) (PDF.text op) = true.
Proof.
  unfold drawText. repeat (destruct (is_nan _); [discriminate|]).
  destruct (World.encodes _ _ _); [reflexivity | discriminate].
Qed.

(** A stamp that returns: the page, the font, the colour and the drawing. *)
Lemma stamp_returns (impl : Implementation) (w : World.t) (overlayWidth overlayHeight : float)
  (font : PDF.PDFFont) (pdfDoc pdfDoc' : PDF.PDFDocument) (sig : Signature.t)
  (t : list Event) :
  stampOf impl w overlayWidth overlayHeight font pdfDoc sig = (t, inr pdfDoc') ->
  exists page pdfFont pdfDoc1 op,
    nth_error (PDF.pages pdfDoc) (Z.to_nat (Signature.page sig - 1)) = Some page
    /\ resolveFont impl w font pdfDoc sig = (t, inr (pdfFont, pdfDoc1))
    /\ drawnFor impl w overlayWidth overlayHeight font page sig op
    /\ pdfDoc' = PDF.appendOp pdfDoc1 (Z.to_nat (Signature.page sig - 1)) op.
Proof.
  rewrite stampOf_pieces. unfold stampWith. intros H.
  apply bind_inr in H. destruct H as (t1 & [index page] & t2 & Hget & H & ->).
  apply getPage_inr in Hget. destruct Hget as (-> & -> & Hpage).
  cbv beta iota in H.
  apply bind_inr in H. destruct H as (t3 & [pdfFont pdfDoc1] & t4 & Hfont & H & ->).
  cbv beta iota in H.
  apply bind_inr in H. destruct H as (t5 & color & t6 & Hrgb & H & ->).
  assert (He := drawText_encodes _ _ _ _ _ _ H).
  apply drawText_inr in H. destruct H as (-> & ->).
  assert (t5 = []) by (rewrite <- (rgb_silent (Rgb.r (hexToRgb (Signature.color sig)))
                                              (Rgb.g (hexToRgb (Signature.color sig)))
                                              (Rgb.b (hexToRgb (Signature.color sig))));
                       rewrite Hrgb; reflexivity).
  subst t5. cbn [app]. rewrite app_nil_r.
  assert (He' : World.encodes w pdfFont (Signature.text sig) = true)
    by (destruct impl; exact He).
  clear He. rename He' into He.
  exists page, pdfFont, pdfDoc1,
    (expectedOp impl overlayWidth overlayHeight page sig color pdfFont).
  repeat split; try assumption.
  exists color, pdfFont. repeat split; try assumption.
  apply resolveFont_inr in Hfont.
  destruct (FONT_FILE_MAP (Signature.font sig)); [apply Hfont | apply Hfont].
Qed.

Lemma appendOp_fonts (doc : PDF.PDFDocument) (index : nat) (op : PDF.TextOp) :
  PDF.fonts (PDF.appendOp doc index op) = PDF.fonts doc.
Proof. unfold PDF.appendOp. destruct (nth_error _ _); reflexivity. Qed.

Lemma appendOp_page (doc : PDF.PDFDocument) (index i : nat) (op : PDF.TextOp)
  (p : PDF.PDFPage) :
  nth_error (PDF.pages doc) i = Some p ->
  nth_error (PDF.pages (PDF.appendOp doc index op)) i
  = Some (if Nat.eqb index i
          then PDF.mkPage (PDF.width p) (PDF.height p) (PDF.contents p ++ [op])
          else p).
Proof.
  intros H. unfold PDF.appendOp. destruct (Nat.eqb_spec index i) as [->|Hne].
  - rewrite H. cbn [PDF.pages]. apply (nth_error_replace_nth_same _ _ _ _ H).
  - destruct (nth_error (PDF.pages doc) index) as [q|]; [|exact H].
    cbn [PDF.pages]. rewrite nth_error_replace_nth_other by congruence. exact H.
Qed.

Lemma fontFiles_cons (w : World.t) (sig : Signature.t) (sigs : list Signature.t) :
  fontFiles w (sig :: sigs)
  = match FONT_FILE_MAP (Signature.font sig) with
    | Some fontUrl => [requested w fontUrl]
    | None => []
    end ++ fontFiles w sigs.
Proof. reflexivity. Qed.

Lemma loop_fonts (impl : Implementation) (w : World.t) (overlayWidth overlayHeight : float)
  (font : PDF.PDFFont) (sigs : list Signature.t) :
  forall (pdfDoc pdfDoc' : PDF.PDFDocument) (t : list Event),
    forOf (stampOf impl w overlayWidth overlayHeight font) pdfDoc sigs = (t, inr pdfDoc') ->
    fetched t = fontFiles w sigs
    /\ exists customs,
         PDF.fonts pdfDoc' = PDF.fonts pdfDoc ++ customs
         /\ Forall2 (served w) (fontFiles w sigs) customs.
Proof.
  induction sigs as [|sig sigs IH]; intros pdfDoc pdfDoc' t H; simpl in H.
  - inversion H; subst. split; [reflexivity|]. exists []. rewrite app_nil_r.
    split; [reflexivity | constructor].
  - apply bind_inr in H. destruct H as (t1 & pdfDoc1 & t2 & H1 & H2 & ->).
    destruct (IH _ _ _ H2) as (Ft & customs & Ef & Hc).
    apply stamp_returns in H1.
    destruct H1 as (page & pdfFont & pdfDoc0 & op & _ & Hfont & _ & ->).
    rewrite appendOp_fonts in Ef. apply resolveFont_inr in Hfont.
    rewrite fetched_app, Ft, !fontFiles_cons.
    destruct (FONT_FILE_MAP (Signature.font sig)) as [fontUrl|].
    + destruct Hfont as (Hs & -> & ->). split; [reflexivity|].
      exists (pdfFont :: customs). cbn [PDF.fonts] in Ef. rewrite Ef, <- app_assoc.
      split; [reflexivity|]. constructor; assumption.
    + destruct Hfont as (-> & _ & ->). split; [reflexivity|].
      exists customs. split; assumption.
Qed.

Lemma loop_contents (impl : Implementation) (w : World.t)
  (overlayWidth overlayHeight : float) (font : PDF.PDFFont) (sigs : list Signature.t) :
  forall (pdfDoc pdfDoc' : PDF.PDFDocument) (t : list Event),
    forOf (stampOf impl w overlayWidth overlayHeight font) pdfDoc sigs = (t, inr pdfDoc') ->
    forall i page, nth_error (PDF.pages pdfDoc) i = Some page ->
      exists ops,
        nth_error (PDF.pages pdfDoc') i
        = Some (PDF.mkPage (PDF.width page) (PDF.height page) (PDF.contents page ++ ops))
        /\ Forall2 (drawnFor impl w overlayWidth overlayHeight font page) (onPage i sigs) ops.
Proof.
  induction sigs as [|sig sigs IH]; intros pdfDoc pdfDoc' t H i page Hp; simpl in H.
  - inversion H; subst. exists []. rewrite app_nil_r. destruct page. split; [exact Hp|].
    constructor.
  - apply bind_inr in H. destruct H as (t1 & pdfDoc1 & t2 & H1 & H2 & ->).
    assert (Hidx := stamp_inr_index _ _ _ _ _ _ _ _ _ H1).
    apply stamp_returns in H1.
    destruct H1 as (page0 & pdfFont & pdfDoc0 & op & Hp0 & Hfont & Hd & ->).
    assert (Epages := resolveFont_pages _ _ _ _ _ _ _ _ Hfont).
    assert (Hp1 : nth_error (PDF.pages pdfDoc0) i = Some page) by (rewrite Epages; exact Hp).
    assert (Hn := appendOp_page pdfDoc0 (Z.to_nat (Signature.page sig - 1)) i op page Hp1).
    unfold onPage. cbn [filter]. fold (onPage i sigs).
    destruct (Nat.eqb_spec (Z.to_nat (Signature.page sig - 1)) i) as [Ei|Ei].
    + assert (Ez : (Signature.page sig =? Z.of_nat i + 1)%Z = true) by (apply Z.eqb_eq; lia).
      rewrite Ez. rewrite Ei in Hp0. assert (page0 = page) by congruence. subst page0.
      destruct (IH _ _ _ H2 i _ Hn) as (ops & Ho & Hall).
      cbn [PDF.width PDF.height PDF.contents] in Ho.
      exists (op :: ops). rewrite <- app_assoc in Ho. split; [exact Ho|].
      constructor; [exact Hd|].
      eapply Forall2_impl; [|exact Hall]. intros s o (color & f & Hc & Hf & He & ->).
      exists color, f. repeat split; assumption.
    + assert (Ez : (Signature.page sig =? Z.of_nat i + 1)%Z = false) by (apply Z.eqb_neq; lia).
      rewrite Ez. apply (IH _ _ _ H2 i page Hn).
Qed.

Lemma persist_fetched (w : World.t) (document : Document.t) (pdfDoc : PDF.PDFDocument) :
  fetched (trace (persist w document pdfDoc)) = [].
Proof.
  unfold persist, storage_upload, db_update. cbn [bind emit ret app trace fst].
  destruct (World.upload w _ _ _); cbn [bind emit ret app trace fst]; [reflexivity|].
  destruct (World.update w _ _ _); reflexivity.
Qed.

(** A run of [handleSave] that uploads has loaded the document and finished
    its loop. *)
Lemma saved_run (impl : Implementation) (w : World.t) (container : option DOMRect.t)
  (document : Document.t) (st : State.t)
  (bucket path : string) (blob : Blob.t) (upsert : bool) (uploadError : option string) :
  In (StorageUpload bucket path blob upsert uploadError)
     (trace (handleSaveOf impl w container document st)) ->
  exists response pdf pdfDoc q,
    World.fetch w (Document.original_url document) = Some response
    /\ World.load w (Response.arrayBuffer response) = Some pdf
    /\ forOf (stampOf impl w (fst (overlaySize container)) (snd (overlaySize container))
                      (PDF.Standard "Helvetica"))
             (snd (embedStandardFont pdf "Helvetica")) (State.signatures st)
       = (q, inr pdfDoc)
    /\ blob = Blob.mk (World.save w pdfDoc) "application/pdf"
    /\ handleSaveOf impl w container document st
       = (Fetch (Document.original_url document) :: q ++ trace (persist w document pdfDoc),
          inr tt).
Proof.
  intros Hin.
  assert (Hne : State.signatures st <> []).
  { intros E. rewrite handleSaveOf_pieces in Hin. unfold handleSave_with in Hin.
    rewrite E in Hin. destruct Hin as [Hin | []]. discriminate. }
  destruct (uploaded_after_loop _ _ _ _ _ _ _ _ _ _ Hin)
    as (response & pdf & pdfDoc & q & Hf & Hl & Hloop & Hb).
  exists response, pdf, pdfDoc, q. repeat split; try assumption.
  rewrite handleSaveOf_pieces, handleSave_with_steps by exact Hne.
  cbv zeta. rewrite Hf, Hl, Hloop. reflexivity.
Qed.

(** X10.  In the document a run of [handleSave] uploads, every page of the
    source has its size and its former content, followed by exactly one text
    operation for each signature of that page, in the order of the list:
    placed by the formula of the implementation, in the size the
    implementation passes or, when that is 0, in the size 24 of the page,
    in the colour of the signature, and in the font program served for what
    [FONT_FILE_MAP] has for its font, or in Helvetica when it has nothing.
    No page is added or removed. *)
Theorem pages_hold_stamps_in_order (impl : Implementation) (w : World.t)
  (container : option DOMRect.t) (document : Document.t) (st : State.t)
  (bucket path : string) (blob : Blob.t) (upsert : bool) (uploadError : option string) :
  In (StorageUpload bucket path blob upsert uploadError)
     (trace (handleSaveOf impl w container document st)) ->
  exists response pdf pdfDoc,
    World.fetch w (Document.original_url document) = Some response
    /\ World.load w (Response.arrayBuffer response) = Some pdf
    /\ blob = Blob.mk (World.save w pdfDoc) "application/pdf"
    /\ PDF.getPageCount pdfDoc = PDF.getPageCount pdf
    /\ forall i page, nth_error (PDF.pages pdf) i = Some page ->
         exists ops,
           nth_error (PDF.pages pdfDoc) i
           = Some (PDF.mkPage (PDF.width page) (PDF.height page) (PDF.contents page ++ ops))
           /\ Forall2 (drawnFor impl w (fst (overlaySize container))
                                (snd (overlaySize container)) (PDF.Standard "Helvetica") page)
                      (onPage i (State.signatures st)) ops.
Proof.
  intros Hin.
  destruct (saved_run _ _ _ _ _ _ _ _ _ _ Hin)
    as (response & pdf & pdfDoc & q & Hf & Hl & Hloop & Hb & _).
  exists response, pdf, pdfDoc. repeat split; try assumption.
  - apply loop_pages_in_range in Hloop. apply Hloop.
  - intros i page Hp. apply (loop_contents _ _ _ _ _ _ _ _ _ Hloop i page Hp).
Qed.

(** X11.  A run of [handleSave] that uploads has requested the document and
    then made one request for each signature for whose font [FONT_FILE_MAP]
    has a value, in the order of the list and again when a font repeats:
    the file path of the font, or, for a font named like a member of
    [Object.prototype], that member converted to a string.  The uploaded
    document has the fonts of the source, Helvetica, and one embedded font
    program for each of these requests. *)
Theorem fonts_fetched_per_signature (impl : Implementation) (w : World.t)
  (container : option DOMRect.t) (document : Document.t) (st : State.t)
  (bucket path : string) (blob : Blob.t) (upsert : bool) (uploadError : option string) :
  In (StorageUpload bucket path blob upsert uploadError)
     (trace (handleSaveOf impl w container document st)) ->
  fetched (trace (handleSaveOf impl w container document st))
  = Document.original_url document :: fontFiles w (State.signatures st)
  /\ exists response pdf pdfDoc customs,
       World.fetch w (Document.original_url document) = Some response
       /\ World.load w (Response.arrayBuffer response) = Some pdf
       /\ blob = Blob.mk (World.save w pdfDoc) "application/pdf"
       /\ PDF.fonts pdfDoc = PDF.fonts pdf ++ PDF.Standard "Helvetica" :: customs
       /\ Forall2 (served w) (fontFiles w (State.signatures st)) customs.
Proof.
  intros Hin.
  destruct (saved_run _ _ _ _ _ _ _ _ _ _ Hin)
    as (response & pdf & pdfDoc & q & Hf & Hl & Hloop & Hb & Hrun).
  apply loop_fonts in Hloop. destruct Hloop as (Hq & customs & Efonts & Hc).
  split.
  - rewrite Hrun. cbn [trace fst]. change (Fetch ?u :: ?l) with ([Fetch u] ++ l).
    rewrite !fetched_app, persist_fetched, Hq, app_nil_r. reflexivity.
  - exists response, pdf, pdfDoc, customs. repeat split; try assumption.
    rewrite Efonts. cbn [embedStandardFont snd PDF.fonts]. rewrite <- app_assoc. reflexivity.
Qed.

Lemma pages_hold_stamps_in_order_witness :
  exists response pdf pdfDoc,
    World.fetch (Scenario.world 2 []) (Document.original_url Scenario.document)
    = Some response
    /\ World.load (Scenario.world 2 []) (Response.arrayBuffer response) = Some pdf
    /\ Blob.mk [x25; x25] "application/pdf"
       = Blob.mk (World.save (Scenario.world 2 []) pdfDoc) "application/pdf"
    /\ PDF.getPageCount pdfDoc = PDF.getPageCount pdf
    /\ forall i page, nth_error (PDF.pages pdf) i = Some page ->
         exists ops,
           nth_error (PDF.pages pdfDoc) i
           = Some (PDF.mkPage (PDF.width page) (PDF.height page) (PDF.contents page ++ ops))
           /\ Forall2 (drawnFor EditorFile (Scenario.world 2 [])
                                (fst (overlaySize (Scenario.overlay 500 600)))
                                (snd (overlaySize (Scenario.overlay 500 600)))
                                (PDF.Standard "Helvetica") page)
                      (onPage i (State.signatures
                                   (Scenario.editing
                                      [Scenario.jane 2; Scenario.john; Scenario.jane 1])))
                      ops.
Proof.
  apply (pages_hold_stamps_in_order EditorFile (Scenario.world 2 [])
           (Scenario.overlay 500 600) Scenario.document
           (Scenario.editing [Scenario.jane 2; Scenario.john; Scenario.jane 1])
           "documents" "user-1/signed-doc-1.pdf" (Blob.mk [x25; x25] "application/pdf")
           true None).
  vm_compute. repeat (try (left; reflexivity); right).
Defined.

Lemma fonts_fetched_per_signature_witness :
  fetched (trace (handleSaveOf UnnamedPart3 (Scenario.world 1 []) None Scenario.document
                               (Scenario.editing
                                  [Scenario.jane 1; Scenario.odd; Scenario.jane 1])))
  = ["https://storage/documents/user-1/contract.pdf";
     "/fonts/GreatVibes-Regular.ttf"; "function toString() { [native code] }";
     "/fonts/GreatVibes-Regular.ttf"].
Proof.
  apply (proj1 (fonts_fetched_per_signature UnnamedPart3 (Scenario.world 1 []) None
                  Scenario.document
                  (Scenario.editing [Scenario.jane 1; Scenario.odd; Scenario.jane 1])
                  "documents" "user-1/signed-doc-1.pdf" (Blob.mk [x25] "application/pdf")
                  true None
                  ltac:(vm_compute; repeat (try (left; reflexivity); right)))).
Defined.

(* ----------------------------------------------------------------- *)
(** ** What the user is told *)

Lemma quiet_unseen (q : list Event) : Forall quiet q -> Forall unseen q.
Proof.
  intros H. eapply Forall_impl; [|exact H].
  intros [] Hq; try contradiction; split; (reflexivity || discriminate).
Qed.

Lemma handleSaveOf_result (impl : Implementation) (w : World.t)
  (container : option DOMRect.t) (document : Document.t) (st : State.t) :
  result (handleSaveOf impl w container document st) = inr tt.
Proof.
  rewrite handleSaveOf_pieces.
  destruct (State.signatures st) as [|a l] eqn:Es.
  { unfold handleSave_with. rewrite Es. reflexivity. }
  rewrite handleSave_with_steps by (rewrite Es; discriminate). cbv zeta.
  destruct (World.fetch w _); [|reflexivity].
  destruct (World.load w _); [|reflexivity].
  destruct (forOf _ _ _) as [q [e|pdfDoc]]; reflexivity.
Qed.

(** X12.  Every run of [handleSave] returns without throwing and ends with
    exactly one alert; [onSave] is called in one case only, right after the
    alert of success, and then the record update was acknowledged. *)
Theorem one_alert_per_run (impl : Implementation) (w : World.t)
  (container : option DOMRect.t) (document : Document.t) (st : State.t) :
  result (handleSaveOf impl w container document st) = inr tt
  /\ exists before message,
       Forall unseen before
       /\ ((trace (handleSaveOf impl w container document st) = before ++ [Alert message]
            /\ message <> "Document signed and uploaded successfully!")
           \/ (trace (handleSaveOf impl w container document st)
               = before ++ [Alert message; OnSave]
               /\ message = "Document signed and uploaded successfully!"
               /\ exists fields, In (DbUpdate "documents" fields (Document.id document) None)
                                    before)).
Proof.
  split; [apply handleSaveOf_result|].
  destruct (handleSaveOf_run impl w container document st)
    as [ | q error Hq | q path blob message Hq Hu | q path blob message Hq Hu
       | q path blob Hq Hu ].
  - exists [], "Please add at least one signature". split; [constructor|].
    left. split; [reflexivity | discriminate].
  - exists (q ++ [ConsoleError error]), "Failed to save signatures". split.
    + apply Forall_app. split; [apply quiet_unseen, Hq|].
      repeat constructor. discriminate.
    + left. split; [rewrite <- app_assoc; reflexivity | discriminate].
  - exists (q ++ [StorageUpload "documents" path blob true (Some message)]),
      ("Failed to upload signed PDF: " ++ message)%string. split.
    + apply Forall_app. split; [apply quiet_unseen, Hq|].
      repeat constructor. discriminate.
    + left. split; [rewrite <- app_assoc; reflexivity | discriminate].
  - eexists (q ++ [StorageUpload "documents" path blob true None; DbUpdate _ _ _ _]),
      ("Failed to update document record: " ++ message)%string. split.
    + apply Forall_app. split; [apply quiet_unseen, Hq|].
      repeat constructor; discriminate.
    + left. split; [rewrite <- app_assoc; reflexivity | discriminate].
  - eexists (q ++ [StorageUpload "documents" path blob true None; DbUpdate _ _ _ _]),
      "Document signed and uploaded successfully!". split.
    + apply Forall_app. split; [apply quiet_unseen, Hq|].
      repeat constructor; discriminate.
    + right. split; [rewrite <- app_assoc; reflexivity|]. split; [reflexivity|].
      eexists. apply in_or_app. right. right. left. reflexivity.
Qed.

(* ================================================================= *)
(** * The download *)

(* ----------------------------------------------------------------- *)
(** ** The download in pieces *)

Lemma download_stampOf_pieces (impl : Implementation) :
  Download.stampOf impl = Download.stampWith impl.
Proof. destruct impl; reflexivity. Qed.

Lemma download_pieces (impl : Implementation) (env : Download.Env)
  (container : option DOMRect.t) (document : Document.t) (st : State.t) :
  Download.handleDownloadSignedPDFOf impl env container document st
  = Download.handleDownloadSignedPDF_with (Download.stampOf impl) env container document st.
Proof. destruct impl; destruct container; reflexivity. Qed.

Lemma getPage_silent (pdfDoc : PDF.PDFDocument) (index : Z) :
  trace (getPage pdfDoc index) = [].
Proof.
  unfold getPage. destruct (_ || _); [reflexivity|].
  destruct (nth_error _ _); reflexivity.
Qed.

Lemma drawText_silent (w : World.t) (pdfDoc : PDF.PDFDocument) (index : nat)
  (op : PDF.TextOp) : trace (drawText w pdfDoc index op) = [].
Proof.
  unfold drawText. repeat (destruct (is_nan _); [reflexivity|]).
  destruct (World.encodes _ _ _); reflexivity.
Qed.

Lemma red_is_a_colour :
  rgb (Some 1%float) (Some 0%float) (Some 0%float) = ([], inr Download.red).
Proof. vm_compute. reflexivity. Qed.

(** Where the text was drawn, the dot is drawn too. *)
Lemma drawCircle_after_text (w : World.t) (pdfDoc pdfDoc' : PDF.PDFDocument) (index : nat)
  (op : PDF.TextOp) (t : list Event) (circles : list (nat * Download.Circle)) :
  drawText w pdfDoc index op = (t, inr pdfDoc') ->
  Download.drawCircle circles index (Download.mkCircle (PDF.x op) (PDF.y op) 3 Download.red)
  = ([], inr (circles ++ [(index, Download.mkCircle (PDF.x op) (PDF.y op) 3 Download.red)])).
Proof.
  unfold drawText, Download.drawCircle. cbn [Download.size Download.x Download.y].
  destruct (is_nan (PDF.size op)); [discriminate|].
  destruct (is_nan (PDF.x op)); [discriminate|].
  destruct (is_nan (PDF.y op)); [discriminate|].
  intros _. reflexivity.
Qed.

(** One loop body of the download, step by step. *)
Lemma download_stamp_steps (impl : Implementation) (w : World.t)
  (overlayWidth overlayHeight : float) (font : PDF.PDFFont) (d : Download.Drawn)
  (sig : Signature.t) :
  Download.stampOf impl w overlayWidth overlayHeight font d sig =
  match getPage (Download.pdfDoc d) (Signature.page sig - 1) with
  | (_, inl e) => ([], inl e)
  | (_, inr (index, page)) =>
      let logs := Download.logsOf impl overlayWidth overlayHeight page sig in
      match resolveFont EditorFile w font (Download.pdfDoc d) sig with
      | (t, inl e) => (logs ++ map Download.Base t, inl e)
      | (t, inr (pdfFont, pdfDoc1)) =>
          match colourOf (Signature.color sig) with
          | (_, inl e) => (logs ++ map Download.Base t, inl e)
          | (_, inr color) =>
              match drawText w pdfDoc1 index
                      (Download.optionsOf impl overlayWidth overlayHeight page sig
                                           color pdfFont) with
              | (_, inl e) => (logs ++ map Download.Base t, inl e)
              | (_, inr pdfDoc2) =>
                  (logs ++ map Download.Base t,
                   inr (Download.mkDrawn pdfDoc2
                          (Download.circles d
                           ++ [(index,
                                Download.dotOf impl overlayWidth overlayHeight page sig)])))
              end
          end
      end
  end.
Proof.
  rewrite download_stampOf_pieces. unfold Download.stampWith.
  assert (G := getPage_silent (Download.pdfDoc d) (Signature.page sig - 1)).
  destruct (getPage (Download.pdfDoc d) (Signature.page sig - 1)) as [t0 [e|[index page]]];
    cbn [trace fst] in G; subst t0;
    cbn [Download.bindD Download.lift Download.emitD fst snd map app]; [reflexivity|].
  destruct (resolveFont EditorFile w font (Download.pdfDoc d) sig)
    as [t [e|[pdfFont pdfDoc1]]];
    cbn [Download.bindD Download.lift Download.emitD fst snd map app]; [reflexivity|].
  assert (C := rgb_silent (Rgb.r (hexToRgb (Signature.color sig)))
                          (Rgb.g (hexToRgb (Signature.color sig)))
                          (Rgb.b (hexToRgb (Signature.color sig)))).
  fold (colourOf (Signature.color sig)) in C.
  destruct (colourOf (Signature.color sig)) as [t1 [e|color]];
    cbn [trace fst] in C; subst t1;
    cbn [Download.bindD Download.lift Download.emitD fst snd map app];
    [rewrite app_nil_r; reflexivity|].
  assert (T := drawText_silent w pdfDoc1 index
                 (Download.optionsOf impl overlayWidth overlayHeight page sig color pdfFont)).
  destruct (drawText w pdfDoc1 index _) as [t2 [e|pdfDoc2]] eqn:Ed;
    cbn [trace fst] in T; subst t2;
    cbn [Download.bindD Download.lift Download.emitD fst snd map app];
    [rewrite !app_nil_r; reflexivity|].
  rewrite red_is_a_colour.
  cbn [Download.bindD Download.lift Download.emitD fst snd map app].
  change (Download.mkCircle (nativeX (PDF.width page) overlayWidth (Signature.x sig))
            (Download.scaledY impl overlayHeight page sig) 3 Download.red)
    with (Download.mkCircle
            (PDF.x (Download.optionsOf impl overlayWidth overlayHeight page sig color pdfFont))
            (PDF.y (Download.optionsOf impl overlayWidth overlayHeight page sig color pdfFont))
            3 Download.red).
  rewrite (drawCircle_after_text _ _ _ _ _ _ (Download.circles d) Ed).
  cbn [Download.bindD Download.lift Download.retD fst snd map app].
  rewrite !app_nil_r. reflexivity.
Qed.

Lemma download_finish_cases (env : Download.Env) (document : Document.t)
  (d : Download.Drawn) :
  Download.finish env document d =
  let w := Download.world env in
  let blob := Blob.mk (Download.save env d) "application/pdf" in
  let fields := [("signed_url", World.getPublicUrl w "documents" (signedPath document));
                 ("status", "signed")] in
  match World.upload w "documents" (signedPath document) blob with
  | Some message =>
      ([Download.Base (StorageUpload "documents" (signedPath document) blob true
                                     (Some message));
        Download.Base (Alert ("Failed to upload signed PDF: " ++ message)%string)], inr tt)
  | None =>
      match World.update w "documents" fields (Document.id document) with
      | Some message =>
          ([Download.Base (StorageUpload "documents" (signedPath document) blob true None);
            Download.Base (DbUpdate "documents" fields (Document.id document) (Some message));
            Download.Base (Alert ("Failed to update document record: " ++ message)%string)],
           inr tt)
      | None =>
          ([Download.Base (StorageUpload "documents" (signedPath document) blob true None);
            Download.Base (DbUpdate "documents" fields (Document.id document) None);
            Download.LinkClick blob ("signed-" ++ Document.id document ++ ".pdf")%string;
            Download.Base (Alert "Signed PDF uploaded and available in dashboard!")], inr tt)
      end
  end.
Proof.
  unfold Download.finish, storage_upload, db_update. cbv zeta.
  cbn [bind emit ret Download.bindD Download.lift Download.emitD fst snd map app].
  destruct (World.upload _ _ _ _);
    cbn [bind emit ret Download.bindD Download.lift Download.emitD fst snd map app];
    [reflexivity|].
  destruct (World.update _ _ _ _); reflexivity.
Qed.

Lemma download_finish_result (env : Download.Env) (document : Document.t)
  (d : Download.Drawn) :
  Download.finish env document d = (fst (Download.finish env document d), inr tt).
Proof.
  rewrite download_finish_cases. cbv zeta.
  destruct (World.upload _ _ _ _); [reflexivity|].
  destruct (World.update _ _ _ _); reflexivity.
Qed.

(** A run of the download, step by step. *)
Lemma download_steps (impl : Implementation) (env : Download.Env)
  (container : option DOMRect.t) (document : Document.t) (st : State.t) :
  Download.handleDownloadSignedPDFOf impl env container document st =
  let w := Download.world env in
  let url := Document.original_url document in
  let overlayWidth := fst (overlaySize container) in
  let overlayHeight := snd (overlaySize container) in
  match World.fetch w url with
  | None => ([Download.Base (Fetch url)], inl (NetworkError url))
  | Some response =>
      match World.load w (Response.arrayBuffer response) with
      | None => ([Download.Base (Fetch url)], inl InvalidPDF)
      | Some pdf =>
          match Download.forOfD
                  (Download.stampOf impl w overlayWidth overlayHeight
                                    (PDF.Standard "Helvetica"))
                  (Download.mkDrawn (snd (embedStandardFont pdf "Helvetica")) [])
                  (State.signatures st) with
          | (q, inl e) =>
              (Download.Base (Fetch url)
                 :: Download.LogOverlay overlayWidth overlayHeight :: q, inl e)
          | (q, inr d) =>
              (Download.Base (Fetch url)
                 :: Download.LogOverlay overlayWidth overlayHeight
                 :: q ++ fst (Download.finish env document d), inr tt)
          end
      end
  end.
Proof.
  rewrite download_pieces. unfold Download.handleDownloadSignedPDF_with, fetch,
    PDFDocument_load. cbv zeta.
  cbn [bind emit ret throw Download.bindD Download.lift Download.emitD fst snd map app].
  destruct (World.fetch (Download.world env) (Document.original_url document))
    as [response|];
    cbn [bind emit ret throw Download.bindD Download.lift Download.emitD fst snd map app];
    [|reflexivity].
  destruct (World.load (Download.world env) (Response.arrayBuffer response)) as [pdf|];
    cbn [bind emit ret throw Download.bindD Download.lift Download.emitD fst snd map app];
    [|reflexivity].
  destruct (Download.forOfD _ _ _) as [q [e|d]];
    cbn [bind emit ret throw Download.bindD Download.lift Download.emitD fst snd map app];
    [reflexivity|].
  rewrite (download_finish_result env document d). reflexivity.
Qed.

(* ----------------------------------------------------------------- *)
(** ** What a download does to the outside *)

Lemma silent_base (t : list Event) :
  Forall quiet t -> Forall Download.silent (map Download.Base t).
Proof. intros H. induction H; simpl; constructor; assumption. Qed.

Lemma download_logs_silent (impl : Implementation) (overlayWidth overlayHeight : float)
  (page : PDF.PDFPage) (sig : Signature.t) (t : list Event) :
  Forall quiet t ->
  Forall Download.silent
    (Download.logsOf impl overlayWidth overlayHeight page sig ++ map Download.Base t).
Proof.
  intros H. apply Forall_app. split; [repeat constructor | apply silent_base, H].
Qed.

Lemma download_stamp_silent (impl : Implementation) (w : World.t)
  (overlayWidth overlayHeight : float) (font : PDF.PDFFont) (d : Download.Drawn)
  (sig : Signature.t) :
  Forall Download.silent (fst (Download.stampOf impl w overlayWidth overlayHeight font d sig)).
Proof.
  rewrite download_stamp_steps.
  assert (Q := quiet_resolveFont EditorFile w font (Download.pdfDoc d) sig).
  destruct (getPage _ _) as [t0 [e|[index page]]]; [constructor|]. cbv zeta.
  destruct (resolveFont _ _ _ _ _) as [t [e|[pdfFont pdfDoc1]]]; cbn [trace fst] in Q;
    [apply download_logs_silent, Q|].
  destruct (colourOf _) as [t1 [e|color]]; [apply download_logs_silent, Q|].
  destruct (drawText _ _ _ _) as [t2 [e|pdfDoc2]]; apply download_logs_silent, Q.
Qed.

Lemma download_loop_silent (impl : Implementation) (w : World.t)
  (overlayWidth overlayHeight : float) (font : PDF.PDFFont) (sigs : list Signature.t) :
  forall d,
    Forall Download.silent
      (fst (Download.forOfD (Download.stampOf impl w overlayWidth overlayHeight font) d sigs)).
Proof.
  induction sigs as [|sig sigs IH]; intros d; simpl; [constructor|].
  assert (S := download_stamp_silent impl w overlayWidth overlayHeight font d sig).
  destruct (Download.stampOf impl w overlayWidth overlayHeight font d sig) as [t [e|d1]];
    cbn [Download.bindD fst] in *; [exact S|].
  specialize (IH d1). destruct (Download.forOfD _ d1 sigs) as [t' r]. cbn [fst] in *.
  apply Forall_app. split; assumption.
Qed.

(** X13.  [handleDownloadSignedPDF] has no guard on the list: with no
    signature at all it still requests the document, stores it under the
    name of the signed document, marks the record signed, clicks the
    download link and tells the user. *)
Theorem download_has_no_guard (impl : Implementation) (env : Download.Env)
  (container : option DOMRect.t) (document : Document.t) (st : State.t)
  (response : Response.t) (pdf : PDF.PDFDocument) :
  let w := Download.world env in
  let blob := Blob.mk (Download.save env
                         (Download.mkDrawn
                            (PDF.mkDoc (PDF.pages pdf)
                                       (PDF.fonts pdf ++ [PDF.Standard "Helvetica"])) []))
                      "application/pdf" in
  let fields := [("signed_url", World.getPublicUrl w "documents" (signedPath document));
                 ("status", "signed")] in
  State.signatures st = [] ->
  World.fetch w (Document.original_url document) = Some response ->
  World.load w (Response.arrayBuffer response) = Some pdf ->
  World.upload w "documents" (signedPath document) blob = None ->
  World.update w "documents" fields (Document.id document) = None ->
  Download.handleDownloadSignedPDFOf impl env container document st
  = ([Download.Base (Fetch (Document.original_url document));
      Download.LogOverlay (fst (overlaySize container)) (snd (overlaySize container));
      Download.Base (StorageUpload "documents" (signedPath document) blob true None);
      Download.Base (DbUpdate "documents" fields (Document.id document) None);
      Download.LinkClick blob ("signed-" ++ Document.id document ++ ".pdf")%string;
      Download.Base (Alert "Signed PDF uploaded and available in dashboard!")], inr tt).
Proof.
  intros w blob fields Hs Hf Hl Hu Hd. rewrite download_steps. cbv zeta.
  fold w. rewrite Hf, Hl, Hs. cbn [Download.forOfD Download.retD].
  rewrite download_finish_cases. cbv zeta. fold w.
  cbn [embedStandardFont snd]. fold blob. rewrite Hu. fold fields. rewrite Hd.
  reflexivity.
Qed.

Lemma download_has_no_guard_witness :
  Download.handleDownloadSignedPDFOf UnnamedPart3 (downloadEnv 2 []) None Scenario.document
                                     State.initial
  = ([Download.Base (Fetch "https://storage/documents/user-1/contract.pdf");
      Download.LogOverlay 500 600;
      Download.Base (StorageUpload "documents" "user-1/signed-doc-1.pdf"
                                   (Blob.mk [x25; x25] "application/pdf") true None);
      Download.Base (DbUpdate "documents"
                       [("signed_url", "https://storage/documents/user-1/signed-doc-1.pdf");
                        ("status", "signed")] "doc-1" None);
      Download.LinkClick (Blob.mk [x25; x25] "application/pdf") "signed-doc-1.pdf";
      Download.Base (Alert "Signed PDF uploaded and available in dashboard!")], inr tt).
Proof.
  apply (download_has_no_guard UnnamedPart3 (downloadEnv 2 []) None Scenario.document
           State.initial (Response.mk 200 [x25; x50; x44; x46]) (Scenario.source 2));
    reflexivity.
Defined.

(** X14.  [handleDownloadSignedPDF] has no [catch]: when the request, the
    parsing or a stamp throws, the exception leaves the handler and nothing
    but requests and console logs has happened, so the user is told
    nothing; when it returns, what it did after the loop is the upload and
    what follows it. *)
Theorem download_fails_silently (impl : Implementation) (env : Download.Env)
  (container : option DOMRect.t) (document : Document.t) (st : State.t) :
  (forall e,
      snd (Download.handleDownloadSignedPDFOf impl env container document st) = inl e ->
      Forall Download.silent
             (fst (Download.handleDownloadSignedPDFOf impl env container document st)))
  /\ (snd (Download.handleDownloadSignedPDFOf impl env container document st) = inr tt ->
      exists q d,
        Forall Download.silent q
        /\ fst (Download.handleDownloadSignedPDFOf impl env container document st)
           = q ++ fst (Download.finish env document d))
  /\ (World.fetch (Download.world env) (Document.original_url document) = None ->
      Download.handleDownloadSignedPDFOf impl env container document st
      = ([Download.Base (Fetch (Document.original_url document))],
         inl (NetworkError (Document.original_url document))))
  /\ (forall response,
        World.fetch (Download.world env) (Document.original_url document) = Some response ->
        World.load (Download.world env) (Response.arrayBuffer response) = None ->
        Download.handleDownloadSignedPDFOf impl env container document st
        = ([Download.Base (Fetch (Document.original_url document))], inl InvalidPDF)).
Proof.
  rewrite download_steps. cbv zeta.
  assert (L := fun pdf =>
            download_loop_silent impl (Download.world env) (fst (overlaySize container))
              (snd (overlaySize container)) (PDF.Standard "Helvetica")
              (State.signatures st)
              (Download.mkDrawn (snd (embedStandardFont pdf "Helvetica")) [])).
  destruct (World.fetch _ _) as [response|].
  - destruct (World.load _ _) as [pdf|] eqn:El.
    + specialize (L pdf). destruct (Download.forOfD _ _ _) as [q [e|d]]; cbn [fst snd] in *.
      * split; [|split; [|split]].
        -- intros _ _. repeat constructor. exact L.
        -- intros H. discriminate H.
        -- intros H. discriminate H.
        -- intros r Hr H. injection Hr as <-. rewrite El in H. discriminate H.
      * split; [|split; [|split]].
        -- intros e H. discriminate H.
        -- intros _. exists (Download.Base (Fetch (Document.original_url document))
                             :: Download.LogOverlay (fst (overlaySize container))
                                                    (snd (overlaySize container)) :: q), d.
           split; [repeat constructor; exact L | reflexivity].
        -- intros H. discriminate H.
        -- intros r Hr H. injection Hr as <-. rewrite El in H. discriminate H.
    + split; [|split; [|split]].
      * intros _ _. repeat constructor.
      * intros H. discriminate H.
      * intros H. discriminate H.
      * intros r _ _. reflexivity.
  - split; [|split; [|split]].
    + intros _ _. repeat constructor.
    + intros H. discriminate H.
    + intros _. reflexivity.
    + intros r H. discriminate H.
Qed.

Lemma silent_in (q : list Download.Ev) (ev : Download.Ev) :
  Forall Download.silent q -> In ev q -> Download.silent ev.
Proof. intros H Hin. rewrite Forall_forall in H. apply H, Hin. Qed.

Lemma download_stamp_inr (impl : Implementation) (w : World.t)
  (overlayWidth overlayHeight : float) (font : PDF.PDFFont) (d d' : Download.Drawn)
  (sig : Signature.t) (t : list Download.Ev) :
  Download.stampOf impl w overlayWidth overlayHeight font d sig = (t, inr d') ->
  exists page color pdfFont pdfDoc1 tf,
    nth_error (PDF.pages (Download.pdfDoc d)) (Z.to_nat (Signature.page sig - 1)) = Some page
    /\ resolveFont EditorFile w font (Download.pdfDoc d) sig = (tf, inr (pdfFont, pdfDoc1))
    /\ colourOf (Signature.color sig) = ([], inr color)
    /\ World.encodes w pdfFont (Signature.text sig) = true
    /\ t = Download.logsOf impl overlayWidth overlayHeight page sig ++ map Download.Base tf
    /\ d' = Download.mkDrawn
              (PDF.appendOp pdfDoc1 (Z.to_nat (Signature.page sig - 1))
                 (Download.expectedOp impl overlayWidth overlayHeight page sig color pdfFont))
              (Download.circles d
               ++ [(Z.to_nat (Signature.page sig - 1),
                    Download.dotOf impl overlayWidth overlayHeight page sig)]).
Proof.
  rewrite download_stamp_steps.
  destruct (getPage _ _) as [t0 [e|[index page]]] eqn:Eg; [discriminate|]. cbv zeta.
  apply getPage_inr in Eg. destruct Eg as (_ & -> & Hp).
  destruct (resolveFont _ _ _ _ _) as [tf [e|[pdfFont pdfDoc1]]]; [discriminate|].
  assert (C := rgb_silent (Rgb.r (hexToRgb (Signature.color sig)))
                          (Rgb.g (hexToRgb (Signature.color sig)))
                          (Rgb.b (hexToRgb (Signature.color sig)))).
  fold (colourOf (Signature.color sig)) in C.
  destruct (colourOf _) as [t1 [e|color]]; [discriminate|]. cbn [trace fst] in C. subst t1.
  destruct (drawText _ _ _ _) as [t2 [e|pdfDoc2]] eqn:Ed; [discriminate|].
  intros H. inversion H; subst. assert (He := drawText_encodes _ _ _ _ _ _ Ed).
  apply drawText_inr in Ed. destruct Ed as [_ ->].
  exists page, color, pdfFont, pdfDoc1, tf. repeat split; assumption.
Qed.

Lemma download_loop_circles (impl : Implementation) (w : World.t)
  (overlayWidth overlayHeight : float) (font : PDF.PDFFont) (sigs : list Signature.t) :
  forall d d' t,
    Download.forOfD (Download.stampOf impl w overlayWidth overlayHeight font) d sigs
    = (t, inr d') ->
    List.length (Download.circles d')
    = List.length (Download.circles d) + List.length sigs.
Proof.
  induction sigs as [|sig sigs IH]; intros d d' t H; simpl in H.
  - inversion H; subst. simpl. lia.
  - destruct (Download.stampOf impl w overlayWidth overlayHeight font d sig)
      as [t1 [e|d1]] eqn:E1; cbn [Download.bindD] in H; [discriminate|].
    destruct (Download.forOfD _ d1 sigs) as [t2 [e|d2]] eqn:E2; inversion H; subst.
    apply IH in E2. apply download_stamp_inr in E1.
    destruct E1 as (page & color & pdfFont & pdfDoc1 & tf & _ & _ & _ & _ & _ & ->).
    cbn [Download.circles] in E2. rewrite E2, length_app. simpl. lia.
Qed.

(** X15.  What [handleDownloadSignedPDF] stores, it stores where
    [handleSave] does, replacing what is there: in the bucket [documents],
    under [<user_id>/signed-<id>.pdf], with [upsert]; the stored document
    has one debug dot for each signature.  The download link is clicked only
    after the upload and the record update were acknowledged; it serves the
    uploaded blob under the name [signed-<id>.pdf]. *)
Theorem download_overwrites_signed_document (impl : Implementation) (env : Download.Env)
  (container : option DOMRect.t) (document : Document.t) (st : State.t) :
  (forall bucket path blob upsert uploadError,
      In (Download.Base (StorageUpload bucket path blob upsert uploadError))
         (fst (Download.handleDownloadSignedPDFOf impl env container document st)) ->
      bucket = "documents" /\ path = signedPath document /\ upsert = true
      /\ exists d, blob = Blob.mk (Download.save env d) "application/pdf"
                   /\ List.length (Download.circles d) = List.length (State.signatures st))
  /\ (forall href download,
         In (Download.LinkClick href download)
            (fst (Download.handleDownloadSignedPDFOf impl env container document st)) ->
         download = ("signed-" ++ Document.id document ++ ".pdf")%string
         /\ In (Download.Base (StorageUpload "documents" (signedPath document) href true None))
               (fst (Download.handleDownloadSignedPDFOf impl env container document st))
         /\ In (Download.Base
                  (DbUpdate "documents"
                     [("signed_url",
                       World.getPublicUrl (Download.world env) "documents"
                                          (signedPath document));
                      ("status", "signed")] (Document.id document) None))
               (fst (Download.handleDownloadSignedPDFOf impl env container document st)))
  /\ (forall w' impl' bucket path blob upsert uploadError,
         In (StorageUpload bucket path blob upsert uploadError)
            (trace (handleSaveOf impl' w' container document st)) ->
         bucket = "documents" /\ path = signedPath document /\ upsert = true).
Proof.
  split; [|split].
  - intros bucket path blob upsert uploadError. rewrite download_steps. cbv zeta.
    destruct (World.fetch _ _) as [response|];
      [|intros [H|[]]; discriminate H].
    destruct (World.load _ _) as [pdf|];
      [|intros [H|[]]; discriminate H].
    assert (L := download_loop_silent impl (Download.world env) (fst (overlaySize container))
                   (snd (overlaySize container)) (PDF.Standard "Helvetica")
                   (State.signatures st)
                   (Download.mkDrawn (snd (embedStandardFont pdf "Helvetica")) [])).
    destruct (Download.forOfD _ _ _) as [q [e|d]] eqn:Eloop; cbn [fst] in *;
      intros [H|[H|H]]; try discriminate H.
    + exfalso. apply (silent_in _ _ L H).
    + apply in_app_or in H. destruct H as [H|H]; [exfalso; apply (silent_in _ _ L H)|].
      apply download_loop_circles in Eloop. cbn [Download.circles] in Eloop.
      rewrite download_finish_cases in H. cbv zeta in H.
      destruct (World.upload _ _ _ _); [|destruct (World.update _ _ _ _)]; cbn [fst] in H;
        repeat (destruct H as [H|H]; [try discriminate H|]); try contradiction;
        inversion H; subst; repeat split; eexists; split; reflexivity || exact Eloop.
  - intros href download. rewrite download_steps. cbv zeta.
    destruct (World.fetch _ _) as [response|];
      [|intros [H|[]]; discriminate H].
    destruct (World.load _ _) as [pdf|];
      [|intros [H|[]]; discriminate H].
    assert (L := download_loop_silent impl (Download.world env) (fst (overlaySize container))
                   (snd (overlaySize container)) (PDF.Standard "Helvetica")
                   (State.signatures st)
                   (Download.mkDrawn (snd (embedStandardFont pdf "Helvetica")) [])).
    destruct (Download.forOfD _ _ _) as [q [e|d]] eqn:Eloop; cbn [fst] in *;
      intros [H|[H|H]]; try discriminate H.
    + exfalso. apply (silent_in _ _ L H).
    + apply in_app_or in H. destruct H as [H|H]; [exfalso; apply (silent_in _ _ L H)|].
      rewrite download_finish_cases in *. cbv zeta in *.
      destruct (World.upload _ _ _ _); [|destruct (World.update _ _ _ _)]; cbn [fst] in *;
        repeat (destruct H as [H|H]; [try discriminate H|]); try contradiction.
      inversion H; subst. split; [reflexivity|].
      split; right; right; apply in_or_app; right.
      * left. reflexivity.
      * right. left. reflexivity.
  - intros w' impl' bucket path blob upsert uploadError Hin.
    destruct (saved_run _ _ _ _ _ _ _ _ _ _ Hin)
      as (response & pdf & pdfDoc & q & _ & _ & Hloop & _ & Hrun).
    rewrite Hrun in Hin. cbn [trace fst] in Hin.
    destruct Hin as [Hin|Hin]; [discriminate Hin|].
    apply in_quiet_tail in Hin; [| |reflexivity].
    + revert Hin. unfold persist, storage_upload, db_update, signedPath.
      destruct (World.upload w' _ _ _); [|destruct (World.update w' _ _ _)]; cbn;
        intros H; repeat (destruct H as [H|H]; [try discriminate H|]); try contradiction;
        inversion H; subst; repeat split.
    + change q with (trace (q, @inr Exn PDF.PDFDocument pdfDoc)). rewrite <- Hloop.
      apply quiet_forOf. intros s sig. apply quiet_stamp.
Qed.

(* ----------------------------------------------------------------- *)
(** ** The download beside the save *)

(** One loop body of [handleSave], step by step. *)
Lemma stamp_steps (impl : Implementation) (w : World.t) (overlayWidth overlayHeight : float)
  (font : PDF.PDFFont) (pdfDoc : PDF.PDFDocument) (sig : Signature.t) :
  stampOf impl w overlayWidth overlayHeight font pdfDoc sig =
  match getPage pdfDoc (Signature.page sig - 1) with
  | (_, inl e) => ([], inl e)
  | (_, inr (index, page)) =>
      match resolveFont impl w font pdfDoc sig with
      | (t, inl e) => (t, inl e)
      | (t, inr (pdfFont, pdfDoc1)) =>
          match colourOf (Signature.color sig) with
          | (_, inl e) => (t, inl e)
          | (_, inr color) =>
              match drawText w pdfDoc1 index
                      (optionsOf impl overlayWidth overlayHeight page sig color pdfFont) with
              | (_, inl e) => (t, inl e)
              | (_, inr pdfDoc2) => (t, inr pdfDoc2)
              end
          end
      end
  end.
Proof.
  rewrite stampOf_pieces. unfold stampWith.
  assert (G := getPage_silent pdfDoc (Signature.page sig - 1)).
  destruct (getPage pdfDoc (Signature.page sig - 1)) as [t0 [e|[index page]]];
    cbn [trace fst] in G; subst t0; cbn [bind app]; [reflexivity|].
  destruct (resolveFont impl w font pdfDoc sig) as [t [e|[pdfFont pdfDoc1]]];
    cbn [bind app]; [reflexivity|].
  assert (C := rgb_silent (Rgb.r (hexToRgb (Signature.color sig)))
                          (Rgb.g (hexToRgb (Signature.color sig)))
                          (Rgb.b (hexToRgb (Signature.color sig)))).
  fold (colourOf (Signature.color sig)) in *.
  destruct (colourOf (Signature.color sig)) as [t1 [e|color]];
    cbn [trace fst] in C; subst t1; cbn [bind app]; [rewrite app_nil_r; reflexivity|].
  assert (T := drawText_silent w pdfDoc1 index
                 (optionsOf impl overlayWidth overlayHeight page sig color pdfFont)).
  destruct (drawText w pdfDoc1 index _) as [t2 [e|pdfDoc2]];
    cbn [trace fst] in T; subst t2; rewrite !app_nil_r; reflexivity.
Qed.

Lemma baseOf_app (t1 t2 : list Download.Ev) :
  Download.baseOf (t1 ++ t2) = Download.baseOf t1 ++ Download.baseOf t2.
Proof. unfold Download.baseOf. apply flat_map_app. Qed.

Lemma baseOf_Base (t : list Event) : Download.baseOf (map Download.Base t) = t.
Proof. induction t as [|ev t IH]; simpl; [reflexivity | rewrite IH; reflexivity]. Qed.

Lemma baseOf_logs (impl : Implementation) (overlayWidth overlayHeight : float)
  (page : PDF.PDFPage) (sig : Signature.t) (t : list Event) :
  Download.baseOf (Download.logsOf impl overlayWidth overlayHeight page sig
                   ++ map Download.Base t) = t.
Proof. rewrite baseOf_app, baseOf_Base. reflexivity. Qed.

(** In SignatureEditor.tsx, a loop body of the download does to the text,
    the fonts and the outside what the loop body of the save does. *)
Lemma download_stamp_as_save (w : World.t) (overlayWidth overlayHeight : float)
  (font : PDF.PDFFont) (d : Download.Drawn) (sig : Signature.t) :
  Download.textOf (Download.stampOf EditorFile w overlayWidth overlayHeight font d sig)
  = result (stampOf EditorFile w overlayWidth overlayHeight font (Download.pdfDoc d) sig)
  /\ Download.baseOf
       (fst (Download.stampOf EditorFile w overlayWidth overlayHeight font d sig))
     = trace (stampOf EditorFile w overlayWidth overlayHeight font (Download.pdfDoc d) sig).
Proof.
  rewrite download_stamp_steps, stamp_steps. unfold Download.textOf.
  destruct (getPage _ _) as [t0 [e|[index page]]]; [split; reflexivity|]. cbv zeta.
  destruct (resolveFont _ _ _ _ _) as [t [e|[pdfFont pdfDoc1]]];
    [split; [reflexivity | apply baseOf_logs]|].
  destruct (colourOf _) as [t1 [e|color]]; [split; [reflexivity | apply baseOf_logs]|].
  change (Download.optionsOf EditorFile overlayWidth overlayHeight page sig color pdfFont)
    with (optionsOf EditorFile overlayWidth overlayHeight page sig color pdfFont).
  destruct (drawText _ _ _ _) as [t2 [e|pdfDoc2]]; (split; [reflexivity | apply baseOf_logs]).
Qed.

(** X16.  In SignatureEditor.tsx the loop of [handleDownloadSignedPDF]
    draws the text [handleSave] draws and fails where it fails: from the
    same document and list, both loops end with the same exception or with
    the same pages, text operations and fonts, after the same requests and
    font logs; the download adds two console logs and one dot for each
    signature. *)
Theorem download_draws_what_save_draws (w : World.t) (overlayWidth overlayHeight : float)
  (font : PDF.PDFFont) (sigs : list Signature.t) (d : Download.Drawn) :
  Download.textOf
    (Download.forOfD (Download.InEditorFile.stamp w overlayWidth overlayHeight font) d sigs)
  = result (forOf (SignatureEditor.stamp w overlayWidth overlayHeight font)
                  (Download.pdfDoc d) sigs)
  /\ Download.baseOf
       (fst (Download.forOfD (Download.InEditorFile.stamp w overlayWidth overlayHeight font)
                             d sigs))
     = trace (forOf (SignatureEditor.stamp w overlayWidth overlayHeight font)
                    (Download.pdfDoc d) sigs)
  /\ forall t d',
       Download.forOfD (Download.InEditorFile.stamp w overlayWidth overlayHeight font) d sigs
       = (t, inr d') ->
       List.length (Download.circles d')
       = List.length (Download.circles d) + List.length sigs.
Proof.
  change (Download.InEditorFile.stamp w overlayWidth overlayHeight font)
    with (Download.stampOf EditorFile w overlayWidth overlayHeight font).
  change (SignatureEditor.stamp w overlayWidth overlayHeight font)
    with (stampOf EditorFile w overlayWidth overlayHeight font).
  split; [|split; [|intros t d'; apply download_loop_circles]];
    revert d; induction sigs as [|sig sigs IH]; intros d; try reflexivity;
    destruct (download_stamp_as_save w overlayWidth overlayHeight font d sig) as [R T];
    cbn [Download.forOfD forOf]; unfold Download.textOf in *;
    destruct (Download.stampOf EditorFile w overlayWidth overlayHeight font d sig)
      as [t1 [e1|d1]];
    destruct (stampOf EditorFile w overlayWidth overlayHeight font (Download.pdfDoc d) sig)
      as [t2 [e2|pdfDoc2]];
    cbn [result trace fst snd Download.bindD bind] in *; try discriminate R;
    try (inversion R; subst; try reflexivity; try exact T).
  - specialize (IH d1). destruct (Download.forOfD _ d1 sigs) as [t3 r3].
    destruct (forOf _ (Download.pdfDoc d1) sigs) as [t4 r4]. exact IH.
  - specialize (IH d1). destruct (Download.forOfD _ d1 sigs) as [t3 r3].
    destruct (forOf _ (Download.pdfDoc d1) sigs) as [t4 r4]. cbn [fst] in *.
    rewrite baseOf_app, IH. reflexivity.
Qed.

(** X17.  A loop body of [handleDownloadSignedPDF] that returns has drawn
    the text of the signature on its page at native X = x * (pageWidth /
    overlayWidth) and native Y = pageHeight - y * scaleY - fontSize / 2,
    plus 110 in SignatureEditor.tsx, at the unscaled font size, or at the
    size 24 of the page when the font size is 0, and a red dot of radius 3
    at the same point.  In part_003 this is not where [handleSave] draws:
    for the signature of the scenario the download puts the text at Y = 648
    in size 24, the save at Y = 628.32 in size 31.68.  With a font size of
    0 the download of SignatureEditor.tsx draws in size 24, at Y = 770. *)
Theorem download_places_by_its_own_formula :
  (forall (impl : Implementation) (w : World.t) (overlayWidth overlayHeight : float)
          (font : PDF.PDFFont) (d d' : Download.Drawn) (sig : Signature.t)
          (t : list Download.Ev),
      Download.stampOf impl w overlayWidth overlayHeight font d sig = (t, inr d') ->
      exists page color pdfFont pdfDoc1,
        nth_error (PDF.pages (Download.pdfDoc d)) (Z.to_nat (Signature.page sig - 1))
        = Some page
        /\ PDF.pages pdfDoc1 = PDF.pages (Download.pdfDoc d)
        /\ d' =
           let X := (Signature.x sig * (PDF.width page / overlayWidth))%float in
           let Y :=
             match impl with
             | EditorFile =>
                 (PDF.height page - Signature.y sig * (PDF.height page / overlayHeight)
                  - Signature.fontSize sig / 2 + 110)%float
             | UnnamedPart3 =>
                 (PDF.height page - Signature.y sig * (PDF.height page / overlayHeight)
                  - Signature.fontSize sig / 2)%float
             end in
           Download.mkDrawn
             (PDF.appendOp pdfDoc1 (Z.to_nat (Signature.page sig - 1))
                (PDF.mkTextOp (Signature.text sig) X Y
                              (PDF.sizeOr (Signature.fontSize sig)) color pdfFont))
             (Download.circles d
              ++ [(Z.to_nat (Signature.page sig - 1),
                   Download.mkCircle X Y 3 (PDF.mkColor 1 0 0))]))
  /\ (exists op op',
         snd (Download.InPart003.stamp (Scenario.world 1 []) 500 600 Scenario.helvetica
                (Download.mkDrawn (Scenario.source 1) []) (Scenario.jane 1))
         = inr (Download.mkDrawn
                  (PDF.mkDoc [PDF.mkPage 612 792 [op]] [Scenario.cursive])
                  [(0, Download.mkCircle (PDF.x op) (PDF.y op) 3 (PDF.mkColor 1 0 0))])
         /\ result (Part003.stamp (Scenario.world 1 []) 500 600 Scenario.helvetica
                      (Scenario.source 1) (Scenario.jane 1))
            = inr (PDF.mkDoc [PDF.mkPage 612 792 [op']] [Scenario.cursive])
         /\ PDF.y op = 648%float /\ PDF.size op = 24%float
         /\ PDF.y op' = 628.32%float /\ PDF.size op' = 31.68%float)
  /\ (exists op,
         snd (Download.InEditorFile.stamp (Scenario.world 1 []) 500 600 Scenario.helvetica
                (Download.mkDrawn (Scenario.source 1) []) (Scenario.sized 0))
         = inr (Download.mkDrawn
                  (PDF.mkDoc [PDF.mkPage 612 792 [op]] [Scenario.cursive])
                  [(0, Download.mkCircle (PDF.x op) (PDF.y op) 3 (PDF.mkColor 1 0 0))])
         /\ PDF.y op = 770%float /\ PDF.size op = 24%float).
Proof.
  split; [|split].
  - intros impl w overlayWidth overlayHeight font d d' sig t H.
    apply download_stamp_inr in H.
    destruct H as (page & color & pdfFont & pdfDoc1 & tf & Hp & Hf & _ & _ & _ & ->).
    exists page, color, pdfFont, pdfDoc1. split; [exact Hp|].
    split; [apply (resolveFont_pages _ _ _ _ _ _ _ _ Hf)|].
    destruct impl; reflexivity.
  - exists (PDF.mkTextOp "Jane Doe" 122.39999999999999 648 24
              (PDF.mkColor (30 / 255) (64 / 255) (175 / 255)) Scenario.cursive),
           (PDF.mkTextOp "Jane Doe" 122.39999999999999 628.32 31.68
              (PDF.mkColor (30 / 255) (64 / 255) (175 / 255)) Scenario.cursive).
    repeat split; vm_compute; reflexivity.
  - exists (PDF.mkTextOp "Jane Doe" 122.39999999999999 770 24
              (PDF.mkColor (30 / 255) (64 / 255) (175 / 255)) Scenario.cursive).
    repeat split; vm_compute; reflexivity.
Qed.

(* ================================================================= *)
(** * The editor as the user drives it *)

(* ----------------------------------------------------------------- *)
(** ** What the handlers leave alone *)

Lemma same_controls_refl (st : State.t) : same_controls st st.
Proof. repeat split. Qed.

Lemma same_controls_updateSignature (id : string) (updates : Signature.partial)
  (st : State.t) : same_controls st (updateSignature id updates st).
Proof.
  unfold updateSignature. destruct (State.selectedSignature st) as [s|];
    [destruct (String.eqb _ _)|]; repeat split.
Qed.

Lemma same_controls_removeSignature (id : string) (st : State.t) :
  same_controls st (removeSignature id st).
Proof. unfold removeSignature. destruct (selected_is id st); repeat split. Qed.

Lemma same_controls_addSignature (now : Z) (st : State.t) :
  same_controls st (addSignature now st).
Proof. unfold addSignature. destruct (String.eqb _ _); repeat split. Qed.

Lemma same_controls_handleMouseMove (container : option DOMRect.t) (e : MouseEvent.t)
  (st : State.t) : same_controls st (handleMouseMove container e st).
Proof.
  unfold handleMouseMove.
  destruct (State.isDragging st); [|apply same_controls_refl].
  destruct (State.selectedSignature st); [|apply same_controls_refl].
  destruct container; [|apply same_controls_refl].
  apply same_controls_updateSignature.
Qed.

Lemma same_controls_handleTouchMove (container : option DOMRect.t) (e : TouchEvent.t)
  (st : State.t) : same_controls st (Part003.handleTouchMove container e st).
Proof.
  unfold Part003.handleTouchMove.
  destruct (State.isDragging st); [|apply same_controls_refl].
  destruct (State.selectedSignature st); [|apply same_controls_refl].
  destruct container; [|apply same_controls_refl].
  destruct (TouchEvent.touches e); [apply same_controls_refl|].
  apply same_controls_updateSignature.
Qed.

Lemma same_controls_handleMouseDown (container : option DOMRect.t) (e : MouseEvent.t)
  (sig : Signature.t) (st : State.t) : same_controls st (handleMouseDown container e sig st).
Proof. unfold handleMouseDown. destruct container; repeat split. Qed.

Lemma same_controls_handleTouchStart (container : option DOMRect.t) (e : TouchEvent.t)
  (sig : Signature.t) (st : State.t) : same_controls st (handleTouchStart container e sig st).
Proof.
  unfold handleTouchStart. destruct container; [destruct (TouchEvent.touches e)|];
    repeat split.
Qed.

Lemma signatures_handleMouseDown (container : option DOMRect.t) (e : MouseEvent.t)
  (sig : Signature.t) (st : State.t) :
  State.signatures (handleMouseDown container e sig st) = State.signatures st.
Proof. unfold handleMouseDown. destruct container; reflexivity. Qed.

Lemma signatures_handleTouchStart (container : option DOMRect.t) (e : TouchEvent.t)
  (sig : Signature.t) (st : State.t) :
  State.signatures (handleTouchStart container e sig st) = State.signatures st.
Proof.
  unfold handleTouchStart. destruct container; [destruct (TouchEvent.touches e)|];
    reflexivity.
Qed.

(* ----------------------------------------------------------------- *)
(** ** What holds of every stored signature

    A property of signatures that does not depend on the position is kept
    by every handler that does not add a signature. *)

Section Stored.

Variable P : Signature.t -> Prop.

Hypothesis P_position :
  forall sig newX newY, P sig -> P (Signature.spread sig (Signature.position newX newY)).

Lemma stored_removeSignature (id : string) (st : State.t) :
  Forall P (State.signatures st) -> Forall P (State.signatures (removeSignature id st)).
Proof.
  rewrite signatures_removeSignature, !Forall_forall. intros H sig Hin.
  apply filter_In in Hin. apply H, Hin.
Qed.

Lemma stored_moved (id : string) (newX newY : float) (st : State.t) :
  Forall P (State.signatures st) ->
  Forall P (State.signatures (updateSignature id (Signature.position newX newY) st)).
Proof.
  rewrite signatures_updateSignature, !Forall_forall. intros H sig Hin.
  apply in_map_iff in Hin. destruct Hin as [s [<- Hs]].
  destruct (String.eqb _ _); [apply P_position|]; apply H, Hs.
Qed.

Lemma stored_handleMouseMove (container : option DOMRect.t) (e : MouseEvent.t)
  (st : State.t) :
  Forall P (State.signatures st) ->
  Forall P (State.signatures (handleMouseMove container e st)).
Proof.
  intros H. unfold handleMouseMove.
  destruct (State.isDragging st); [|exact H].
  destruct (State.selectedSignature st); [|exact H].
  destruct container; [|exact H]. apply stored_moved, H.
Qed.

Lemma stored_handleTouchMove (container : option DOMRect.t) (e : TouchEvent.t)
  (st : State.t) :
  Forall P (State.signatures st) ->
  Forall P (State.signatures (Part003.handleTouchMove container e st)).
Proof.
  intros H. unfold Part003.handleTouchMove.
  destruct (State.isDragging st); [|exact H].
  destruct (State.selectedSignature st); [|exact H].
  destruct container; [|exact H].
  destruct (TouchEvent.touches e); [exact H|]. apply stored_moved, H.
Qed.

Lemma stored_addSignature (now : Z) (st : State.t) :
  (forall id text fontSize,
      P (Signature.mk id text (State.selectedFont st) fontSize (State.selectedColor st)
                      100 100 (State.selectedPage st))) ->
  Forall P (State.signatures st) -> Forall P (State.signatures (addSignature now st)).
Proof.
  intros Hnew H. unfold addSignature. destruct (String.eqb _ _); [exact H|]. simpl.
  apply Forall_app. split; [exact H|]. constructor; [apply Hnew | constructor].
Qed.

(** A step of the editor that is not an add keeps [P] of every stored
    signature; an add keeps it if it holds of a signature made of the
    selected font, colour and page. *)
Lemma stored_step (impl : Implementation) (a : UI.Action) (st st' : State.t) :
  (forall id text fontSize,
      P (Signature.mk id text (State.selectedFont st) fontSize (State.selectedColor st)
                      100 100 (State.selectedPage st))) ->
  UI.step impl a st = Some st' ->
  Forall P (State.signatures st) -> Forall P (State.signatures st').
Proof.
  intros Hnew Hstep H.
  destruct a; simpl in Hstep;
    try (destruct impl; simpl in Hstep; [discriminate Hstep|]);
    repeat match type of Hstep with
           | (if ?c then _ else _) = Some _ => destruct c; [|discriminate Hstep]
           | option_map _ ?o = Some _ => destruct o; [simpl in Hstep | discriminate Hstep]
           end;
    injection Hstep as <-;
    auto using stored_removeSignature, stored_handleMouseMove, stored_handleTouchMove,
               stored_addSignature.
  - rewrite signatures_handleMouseDown. exact H.
  - rewrite signatures_handleTouchStart. exact H.
  - unfold previousPage. destruct (_ <=? _)%Z; exact H.
  - unfold nextPage. destruct (_ <=? _)%Z; exact H.
Qed.

End Stored.

(* ----------------------------------------------------------------- *)
(** ** Invariants of the editor *)

Lemma step_controls (impl : Implementation) (a : UI.Action) (st st' : State.t) :
  UI.step impl a st = Some st' ->
  In (State.selectedFont st) FONT_OPTIONS -> In (State.selectedColor st) COLOR_OPTIONS ->
  (1 <= State.selectedPage st)%Z ->
  In (State.selectedFont st') FONT_OPTIONS /\ In (State.selectedColor st') COLOR_OPTIONS
  /\ (1 <= State.selectedPage st')%Z.
Proof.
  intros Hstep Hf Hc Hp.
  assert (K : forall st1, same_controls st st1 ->
              In (State.selectedFont st1) FONT_OPTIONS
              /\ In (State.selectedColor st1) COLOR_OPTIONS
              /\ (1 <= State.selectedPage st1)%Z).
  { intros st1 (E1 & E2 & E3 & _). rewrite E1, E2, E3. auto. }
  destruct a; unfold UI.step, UI.inPart003 in Hstep;
    try (destruct impl; [discriminate Hstep|]).
  - injection Hstep as <-. apply K. repeat split.
  - destruct (existsb _ _) eqn:E; [|discriminate Hstep]. injection Hstep as <-.
    apply existsb_exists in E. destruct E as [x [Hx E]]. apply String.eqb_eq in E. subst x.
    auto.
  - destruct (existsb _ _) eqn:E; [|discriminate Hstep]. injection Hstep as <-.
    apply existsb_exists in E. destruct E as [x [Hx E]]. apply String.eqb_eq in E. subst x.
    auto.
  - injection Hstep as <-. apply K. repeat split.
  - destruct ((1 <=? value)%Z) eqn:E; [|discriminate Hstep].
    destruct ((value <=? State.numPages st)%Z); [|discriminate Hstep].
    injection Hstep as <-. apply Z.leb_le in E. auto.
  - injection Hstep as <-. apply K, same_controls_addSignature.
  - destruct (nth_error _ _); [|discriminate Hstep]. injection Hstep as <-.
    apply K, same_controls_removeSignature.
  - destruct (nth_error _ _); [|discriminate Hstep]. injection Hstep as <-.
    apply K, same_controls_handleMouseDown.
  - injection Hstep as <-. apply K, same_controls_handleMouseMove.
  - injection Hstep as <-. apply K. repeat split.
  - injection Hstep as <-. apply K. repeat split.
  - destruct (nth_error _ _); [|discriminate Hstep]. injection Hstep as <-.
    apply K, same_controls_handleTouchStart.
  - destruct (State.isDragging st); [|discriminate Hstep]. injection Hstep as <-.
    apply K, same_controls_handleTouchMove.
  - injection Hstep as <-. apply K. repeat split.
  - destruct (nth_error _ _); [|discriminate Hstep]. injection Hstep as <-.
    apply K, same_controls_removeSignature.
  - injection Hstep as <-. unfold previousPage.
    destruct (State.selectedPage st <=? 1)%Z; [auto|]. simpl. repeat split; auto. lia.
  - injection Hstep as <-. unfold nextPage.
    destruct (State.numPages st <=? State.selectedPage st)%Z eqn:E; [auto|].
    apply Z.leb_gt in E. simpl. repeat split; auto. lia.
  - injection Hstep as <-. auto.
Qed.

Lemma step_selection (impl : Implementation) (a : UI.Action) (st st' : State.t) :
  UI.step impl a st = Some st' -> selection_in_store st -> selection_in_store st'.
Proof.
  intros Hstep H.
  destruct a; simpl in Hstep;
    try (destruct impl; simpl in Hstep; [discriminate Hstep|]);
    repeat match type of Hstep with
           | (if ?c then _ else _) = Some _ => destruct c; [|discriminate Hstep]
           | option_map _ ?o = Some _ =>
               let E := fresh "E" in
               destruct o eqn:E; [simpl in Hstep | discriminate Hstep]
           end;
    injection Hstep as <-;
    auto using selection_in_store_addSignature, selection_in_store_removeSignature,
               selection_in_store_handleMouseMove, selection_in_store_handleTouchMove.
  - apply selection_in_store_handleMouseDown.
    apply nth_error_In, visible_in_store in E. apply E.
  - apply selection_in_store_handleTouchStart.
    apply nth_error_In, visible_in_store in E. apply E.
  - unfold previousPage. destruct (_ <=? _)%Z; exact H.
  - unfold nextPage. destruct (_ <=? _)%Z; exact H.
Qed.

Lemma step_offered (impl : Implementation) (a : UI.Action) (st st' : State.t) :
  UI.step impl a st = Some st' -> UI.offered st -> UI.offered st'.
Proof.
  intros Hstep (Hf & Hc & Hp & Hs & Hall).
  destruct (step_controls _ _ _ _ Hstep Hf Hc Hp) as (Hf' & Hc' & Hp').
  repeat split; try assumption.
  - apply (step_selection _ _ _ _ Hstep Hs).
  - apply (stored_step
             (fun sig => In (Signature.font sig) FONT_OPTIONS
                         /\ In (Signature.color sig) COLOR_OPTIONS
                         /\ (1 <= Signature.page sig)%Z)
             (fun sig x y H => H) impl a st st'); auto.
Qed.

Lemma run_offered (impl : Implementation) (actions : list UI.Action) :
  forall st st', UI.run impl actions st = Some st' -> UI.offered st -> UI.offered st'.
Proof.
  induction actions as [|a actions IH]; intros st st' Hrun H; simpl in Hrun.
  - injection Hrun as <-. exact H.
  - destruct (UI.step impl a st) as [st1|] eqn:E; [|discriminate Hrun].
    apply (IH st1 st' Hrun). apply (step_offered _ _ _ _ E H).
Qed.

Lemma offered_initial : UI.offered State.initial.
Proof.
  repeat split; simpl; auto. lia.
Qed.

Lemma font_options_have_files (font : string) :
  In font FONT_OPTIONS -> exists fontUrl, FONT_FILE_MAP font = Some (Path fontUrl).
Proof.
  intros [<- | [<- | [<- | []]]]; eexists; reflexivity.
Qed.

Lemma color_options_have_six_digits (hex : string) :
  In hex COLOR_OPTIONS -> six_hex_digits hex = true.
Proof.
  intros [<- | [<- | [<- | [<- | [<- | []]]]]]; reflexivity.
Qed.

(** X18.  Whatever the user does in the editor of either file, starting
    from its first render: the selected font and colour are among the
    options, the selected page is at least 1, the selection is a stored
    signature, and every stored signature has a font and a colour of the
    options and a page of at least 1.  So every stored signature has a font
    file to fetch (the Helvetica kept as fallback is never drawn with) and a
    colour that [rgb] accepts. *)
Theorem editor_keeps_what_it_offers (impl : Implementation) (actions : list UI.Action)
  (st : State.t) :
  UI.run impl actions State.initial = Some st ->
  UI.offered st
  /\ forall sig, In sig (State.signatures st) ->
       (exists fontUrl, FONT_FILE_MAP (Signature.font sig) = Some (Path fontUrl))
       /\ (exists color, colourOf (Signature.color sig) = ([], inr color))
       /\ (0 <= Signature.page sig - 1)%Z.
Proof.
  intros Hrun. assert (H := run_offered _ _ _ _ Hrun offered_initial).
  split; [exact H|]. destruct H as (_ & _ & _ & _ & Hall).
  rewrite Forall_forall in Hall. intros sig Hin. destruct (Hall sig Hin) as (Hf & Hc & Hp).
  split; [apply font_options_have_files, Hf|].
  split; [apply six_hex_digits_colour, color_options_have_six_digits, Hc | lia].
Qed.

Lemma editor_keeps_what_it_offers_witness :
  exists st,
    UI.run UnnamedPart3
      [UI.LoadSuccess 3; UI.ClickNext; UI.TypeText "Jane Doe"; UI.ChooseColor "#dc2626";
       UI.ClickAdd 1751212800000;
       UI.TouchStart (Scenario.overlay 500 600)
                     (TouchEvent.mk [TouchEvent.mkTouch 110 120]) 0;
       UI.TouchMove (Scenario.overlay 500 600) (TouchEvent.mk [TouchEvent.mkTouch 310 220]);
       UI.TouchEnd] State.initial = Some st
    /\ State.signatures st
       = [Signature.mk "1751212800000" "Jane Doe" "Great Vibes, cursive" 24 "#dc2626"
                       300 200 2]
    /\ UI.offered st.
Proof.
  eexists. split; [vm_compute; reflexivity|]. split; [reflexivity|].
  apply (editor_keeps_what_it_offers UnnamedPart3
           [UI.LoadSuccess 3; UI.ClickNext; UI.TypeText "Jane Doe"; UI.ChooseColor "#dc2626";
            UI.ClickAdd 1751212800000;
            UI.TouchStart (Scenario.overlay 500 600)
                          (TouchEvent.mk [TouchEvent.mkTouch 110 120]) 0;
            UI.TouchMove (Scenario.overlay 500 600)
                         (TouchEvent.mk [TouchEvent.mkTouch 310 220]);
            UI.TouchEnd]).
  vm_compute. reflexivity.
Defined.

Lemma step_firstPageOnly (a : UI.Action) (st st' : State.t) :
  UI.step EditorFile a st = Some st' -> UI.firstPageOnly st -> UI.firstPageOnly st'.
Proof.
  intros Hstep (Hn & Hp & Hall).
  assert (Hall' : Forall (fun sig => Signature.page sig = 1%Z) (State.signatures st')).
  { apply (stored_step (fun sig => Signature.page sig = 1%Z) (fun sig x y H => H)
                       EditorFile a st st'); auto. }
  assert (K : forall st1, same_controls st st1 ->
              State.numPages st1 = 1%Z /\ State.selectedPage st1 = 1%Z).
  { intros st1 (_ & _ & E3 & E4). rewrite E3, E4. auto. }
  assert (C : State.numPages st' = 1%Z /\ State.selectedPage st' = 1%Z);
    [|destruct C; repeat split; assumption].
  destruct a; unfold UI.step, UI.inPart003 in Hstep; try discriminate Hstep.
  - injection Hstep as <-. apply K. repeat split.
  - destruct (existsb _ _); [|discriminate Hstep]. injection Hstep as <-.
    simpl. auto.
  - destruct (existsb _ _); [|discriminate Hstep]. injection Hstep as <-.
    simpl. auto.
  - injection Hstep as <-. apply K. repeat split.
  - destruct ((1 <=? value)%Z) eqn:E1; [|discriminate Hstep].
    destruct ((value <=? State.numPages st)%Z) eqn:E2; [|discriminate Hstep].
    injection Hstep as <-. apply Z.leb_le in E1, E2. simpl. split; [exact Hn | lia].
  - injection Hstep as <-. apply K, same_controls_addSignature.
  - destruct (nth_error _ _); [|discriminate Hstep]. injection Hstep as <-.
    apply K, same_controls_removeSignature.
  - destruct (nth_error _ _); [|discriminate Hstep]. injection Hstep as <-.
    apply K, same_controls_handleMouseDown.
  - injection Hstep as <-. apply K, same_controls_handleMouseMove.
  - injection Hstep as <-. apply K. repeat split.
  - injection Hstep as <-. apply K. repeat split.
Qed.

Lemma run_firstPageOnly (actions : list UI.Action) :
  forall st st',
    UI.run EditorFile actions st = Some st' -> UI.firstPageOnly st -> UI.firstPageOnly st'.
Proof.
  induction actions as [|a actions IH]; intros st st' Hrun H; simpl in Hrun.
  - injection Hrun as <-. exact H.
  - destruct (UI.step EditorFile a st) as [st1|] eqn:E; [|discriminate Hrun].
    apply (IH st1 st' Hrun). apply (step_firstPageOnly _ _ _ E H).
Qed.

(** X19.  In SignatureEditor.tsx nothing sets [numPages]: whatever the user
    does, the page selector offers page 1 only and every stored signature is
    on page 1.  So [handleSave] never reports the range error of the page
    index for a document that has a page, and no signature can be put on
    another page of it. *)
Theorem editor_file_signs_first_page_only (actions : list UI.Action) (st : State.t) :
  UI.run EditorFile actions State.initial = Some st ->
  UI.firstPageOnly st
  /\ forall (w : World.t) (container : option DOMRect.t) (document : Document.t)
            (response : Response.t) (pdf : PDF.PDFDocument),
       World.fetch w (Document.original_url document) = Some response ->
       World.load w (Response.arrayBuffer response) = Some pdf ->
       0 < PDF.getPageCount pdf ->
       ~ In (ConsoleError (RangeError "index"))
            (trace (SignatureEditor.handleSave w container document st)).
Proof.
  intros Hrun.
  assert (H : UI.firstPageOnly st).
  { apply (run_firstPageOnly _ _ _ Hrun). repeat split. constructor. }
  split; [exact H|]. destruct H as (_ & _ & Hall). rewrite Forall_forall in Hall.
  intros w container document response pdf Hf Hl Hcount Hin.
  change (SignatureEditor.handleSave w container document st)
    with (handleSaveOf EditorFile w container document st) in Hin.
  destruct (reported_error _ _ _ _ _ _ _ _ Hf Hl Hin)
    as (good & bad & rest & pdfDoc & t1 & t2 & Es & Hg & Hb).
  apply loop_pages_in_range in Hg. destruct Hg as [L _].
  apply stamp_range_error in Hb. destruct Hb as [_ Hb]. rewrite L in Hb.
  assert (Hbad : Signature.page bad = 1%Z).
  { apply Hall. rewrite Es. apply in_or_app. right. left. reflexivity. }
  change (PDF.getPageCount (snd (embedStandardFont pdf "Helvetica")))
    with (PDF.getPageCount pdf) in Hb.
  lia.
Qed.

Lemma editor_file_signs_first_page_only_witness :
  exists st,
    UI.run EditorFile
      [UI.TypeText "Jane Doe"; UI.ClickAdd 1751212800000;
       UI.MouseDown (Scenario.overlay 500 600) (MouseEvent.mk 110 120) 0;
       UI.MouseMove (Scenario.overlay 500 600) (MouseEvent.mk 310 220); UI.MouseUp]
      State.initial = Some st
    /\ State.signatures st
       = [Signature.mk "1751212800000" "Jane Doe" "Great Vibes, cursive" 24 "#1e40af"
                       300 200 1]
    /\ UI.firstPageOnly st.
Proof.
  eexists. split; [vm_compute; reflexivity|]. split; [reflexivity|].
  apply (editor_file_signs_first_page_only
           [UI.TypeText "Jane Doe"; UI.ClickAdd 1751212800000;
            UI.MouseDown (Scenario.overlay 500 600) (MouseEvent.mk 110 120) 0;
            UI.MouseMove (Scenario.overlay 500 600) (MouseEvent.mk 310 220); UI.MouseUp]).
  vm_compute. reflexivity.
Defined.

(* ----------------------------------------------------------------- *)
(** ** Pages *)

Lemma setSelectedPage_same (st : State.t) : setSelectedPage (State.selectedPage st) st = st.
Proof. destruct st. reflexivity. Qed.

Lemma setSelectedPage_twice (v v' : Z) (st : State.t) :
  setSelectedPage v (setSelectedPage v' st) = setSelectedPage v st.
Proof. reflexivity. Qed.

(** X20.  The page buttons of part_003 keep the selected page among the
    pages of the document: Previous stops at page 1 and Next at the last
    page, and away from these ends each undoes the other.  A signature
    added on the selected page is shown by the overlay at once. *)
Theorem page_buttons_stay_in_range (st : State.t) :
  page_in_range st ->
  page_in_range (previousPage st) /\ page_in_range (nextPage st)
  /\ (State.selectedPage st = 1%Z -> previousPage st = st)
  /\ (State.selectedPage st = State.numPages st -> nextPage st = st)
  /\ ((State.selectedPage st < State.numPages st)%Z ->
      State.selectedPage (nextPage st) = (State.selectedPage st + 1)%Z
      /\ previousPage (nextPage st) = st)
  /\ ((1 < State.selectedPage st)%Z ->
      State.selectedPage (previousPage st) = (State.selectedPage st - 1)%Z
      /\ nextPage (previousPage st) = st)
  /\ (forall now, has_ink (State.signatureText st) = true ->
        exists sig, Signature.id sig = JS.toString now
                    /\ Signature.page sig = State.selectedPage st
                    /\ In sig (visibleSignatures (addSignature now st))).
Proof.
  unfold page_in_range. intros [H1 H2]. unfold previousPage, nextPage.
  repeat split.
  - destruct (State.selectedPage st <=? 1)%Z; simpl; lia.
  - destruct (State.selectedPage st <=? 1)%Z eqn:E; simpl; [lia|].
    apply Z.leb_gt in E. lia.
  - destruct (State.numPages st <=? State.selectedPage st)%Z eqn:E; simpl; [lia|]. lia.
  - destruct (State.numPages st <=? State.selectedPage st)%Z eqn:E; simpl; [lia|]. lia.
  - intros E. rewrite E. reflexivity.
  - intros E. rewrite E, Z.leb_refl. reflexivity.
  - destruct (State.numPages st <=? State.selectedPage st)%Z eqn:E;
      [apply Z.leb_le in E; lia|]. simpl. lia.
  - destruct (State.numPages st <=? State.selectedPage st)%Z eqn:E;
      [apply Z.leb_le in E; lia|]. simpl.
    destruct (Z.min (State.numPages st) (State.selectedPage st + 1) <=? 1)%Z eqn:E1;
      [apply Z.leb_le in E1; lia|].
    rewrite setSelectedPage_twice.
    replace (Z.max 1 (Z.min (State.numPages st) (State.selectedPage st + 1) - 1))
      with (State.selectedPage st) by lia.
    apply setSelectedPage_same.
  - destruct (State.selectedPage st <=? 1)%Z eqn:E; [apply Z.leb_le in E; lia|]. simpl. lia.
  - destruct (State.selectedPage st <=? 1)%Z eqn:E; [apply Z.leb_le in E; lia|]. simpl.
    destruct (State.numPages st <=? Z.max 1 (State.selectedPage st - 1))%Z eqn:E1;
      [apply Z.leb_le in E1; lia|].
    rewrite setSelectedPage_twice.
    replace (Z.min (State.numPages st) (Z.max 1 (State.selectedPage st - 1) + 1))
      with (State.selectedPage st) by lia.
    apply setSelectedPage_same.
  - intros now Hink. apply trim_empty_false in Hink.
    exists (Signature.mk (JS.toString now) (State.signatureText st) (State.selectedFont st)
                         (State.fontSize st) (State.selectedColor st) 100 100
                         (State.selectedPage st)).
    split; [reflexivity|]. split; [reflexivity|].
    unfold visibleSignatures, addSignature. rewrite Hink. simpl.
    apply filter_In. split; [apply in_or_app; right; left; reflexivity|].
    simpl. apply Z.eqb_refl.
Qed.

Lemma page_buttons_stay_in_range_witness :
  page_in_range (nextPage (setNumPages 3 State.initial))
  /\ State.selectedPage (nextPage (setNumPages 3 State.initial)) = 2%Z
  /\ previousPage (nextPage (setNumPages 3 State.initial)) = setNumPages 3 State.initial.
Proof.
  assert (R : page_in_range (setNumPages 3 State.initial)) by (unfold page_in_range; simpl; lia).
  assert (L : (State.selectedPage (setNumPages 3 State.initial)
               < State.numPages (setNumPages 3 State.initial))%Z) by (simpl; lia).
  split; [apply (proj1 (proj2 (page_buttons_stay_in_range _ R)))|].
  apply (proj1 (proj2 (proj2 (proj2 (proj2 (page_buttons_stay_in_range _ R))))) L).
Defined.

(* ================================================================= *)
(** * The viewer *)

Lemma viewer_step_page (n : Z) (a : PDFViewer.Action) (st st' : PDFViewer.t) :
  match a with PDFViewer.LoadSuccess m => m = n | _ => True end ->
  PDFViewer.step a st = Some st' ->
  (1 <= PDFViewer.pageNumber st <= Z.max 1 n)%Z ->
  (PDFViewer.numPages st = 0 \/ PDFViewer.numPages st = n)%Z ->
  (1 <= PDFViewer.pageNumber st' <= Z.max 1 n)%Z
  /\ (PDFViewer.numPages st' = 0 \/ PDFViewer.numPages st' = n)%Z.
Proof.
  intros Ha Hstep Hp Hn. destruct a; simpl in Hstep.
  - destruct (PDFViewer.rendersDocument st); [|discriminate Hstep].
    injection Hstep as <-. simpl. auto.
  - destruct (PDFViewer.rendersDocument st); [|discriminate Hstep].
    injection Hstep as <-. simpl. auto.
  - destruct (_ && _); [|discriminate Hstep]. injection Hstep as <-. simpl. split; [lia|auto].
  - destruct (PDFViewer.rendersNavigation st) eqn:R; [|discriminate Hstep].
    destruct (PDFViewer.numPages st <=? PDFViewer.pageNumber st)%Z eqn:E;
      [discriminate Hstep|].
    injection Hstep as <-. simpl. apply Z.leb_gt in E. split; [lia|auto].
Qed.

(** X21.  The viewer never shows a page below 1, and while every load of
    the document reports the same number of pages, never one beyond them;
    once a load has failed, no load and no button changes the viewer any
    more.  This is owed to the rendering, not to the handlers: before the
    document has loaded, [goToNextPage] alone would select page 0. *)
Theorem viewer_page_stays_in_document (n : Z) (actions : list PDFViewer.Action)
  (st : PDFViewer.t) :
  PDFViewer.loads n actions ->
  PDFViewer.run actions PDFViewer.initial = Some st ->
  (1 <= PDFViewer.pageNumber st <= Z.max 1 n)%Z
  /\ (PDFViewer.numPages st = 0 \/ PDFViewer.numPages st = n)%Z
  /\ (PDFViewer.rendersDocument st = false ->
      forall a, PDFViewer.step a st = None)
  /\ PDFViewer.pageNumber (PDFViewer.goToNextPage PDFViewer.initial) = 0%Z
  /\ PDFViewer.step PDFViewer.ClickNext PDFViewer.initial = None.
Proof.
  intros Hl Hrun.
  assert (G : forall st0,
             (1 <= PDFViewer.pageNumber st0 <= Z.max 1 n)%Z ->
             (PDFViewer.numPages st0 = 0 \/ PDFViewer.numPages st0 = n)%Z ->
             PDFViewer.run actions st0 = Some st ->
             (1 <= PDFViewer.pageNumber st <= Z.max 1 n)%Z
             /\ (PDFViewer.numPages st = 0 \/ PDFViewer.numPages st = n)%Z).
  { clear Hrun. induction Hl as [|a actions Ha Hl IH]; intros st0 Hp Hn Hrun; simpl in Hrun.
    - injection Hrun as <-. auto.
    - destruct (PDFViewer.step a st0) as [st1|] eqn:E; [|discriminate Hrun].
      destruct (viewer_step_page n a st0 st1 Ha E Hp Hn) as [Hp1 Hn1].
      apply (IH st1 Hp1 Hn1 Hrun). }
  destruct (G PDFViewer.initial) as [Hp Hn]; [simpl; lia | left; reflexivity | exact Hrun |].
  split; [exact Hp|]. split; [exact Hn|]. split; [|split; reflexivity].
  intros R a. destruct a; simpl; unfold PDFViewer.rendersNavigation; rewrite R; reflexivity.
Qed.

Lemma viewer_page_stays_in_document_witness :
  exists st,
    PDFViewer.run [PDFViewer.LoadSuccess 3; PDFViewer.ClickNext; PDFViewer.ClickNext;
                   PDFViewer.ClickPrevious; PDFViewer.LoadSuccess 3] PDFViewer.initial
    = Some st
    /\ PDFViewer.pageNumber st = 2%Z
    /\ (1 <= PDFViewer.pageNumber st <= Z.max 1 3)%Z.
Proof.
  eexists. split; [vm_compute; reflexivity|]. split; [reflexivity|].
  apply (viewer_page_stays_in_document 3
           [PDFViewer.LoadSuccess 3; PDFViewer.ClickNext; PDFViewer.ClickNext;
            PDFViewer.ClickPrevious; PDFViewer.LoadSuccess 3]).
  - repeat constructor.
  - vm_compute. reflexivity.
Defined.

(* ================================================================= *)
(** * The dashboard *)

Lemma dashboard_fetch_keeps (answer : Dashboard.Answer) (st : Dashboard.t) :
  Dashboard.selectedDocument (snd (Dashboard.fetchDocuments answer st))
  = Dashboard.selectedDocument st
  /\ Dashboard.showSignatureEditor (snd (Dashboard.fetchDocuments answer st))
     = Dashboard.showSignatureEditor st
  /\ Dashboard.showUpload (snd (Dashboard.fetchDocuments answer st))
     = Dashboard.showUpload st.
Proof. unfold Dashboard.fetchDocuments. destruct (Dashboard.error answer); repeat split. Qed.

Lemma dashboard_step_signing (a : Dashboard.Action) (st st' : Dashboard.t) :
  Dashboard.step a st = Some st' ->
  Dashboard.signing_unsigned st -> Dashboard.signing_unsigned st'.
Proof.
  unfold Dashboard.signing_unsigned. intros Hstep H.
  destruct a; simpl in Hstep; unfold Dashboard.onList, Dashboard.listed in Hstep.
  - injection Hstep as <-.
    destruct (dashboard_fetch_keeps answer st) as (-> & -> & _). exact H.
  - destruct (Dashboard.screen st); try discriminate Hstep. injection Hstep as <-. exact H.
  - destruct (Dashboard.screen st); try discriminate Hstep. injection Hstep as <-. exact H.
  - destruct (Dashboard.screen st); try discriminate Hstep. injection Hstep as <-.
    unfold Dashboard.fetchDocuments. destruct (Dashboard.error answer); exact H.
  - destruct (Dashboard.screen st); try discriminate Hstep. injection Hstep as <-. exact H.
  - destruct (Dashboard.screen st); try discriminate Hstep.
    destruct (Dashboard.loading st); try discriminate Hstep.
    destruct (nth_error _ _) as [document|]; [|discriminate Hstep].
    destruct (Document.status document) eqn:E; [|discriminate Hstep].
    injection Hstep as <-. exact E.
  - destruct (Dashboard.screen st); try discriminate Hstep.
    destruct (Dashboard.loading st); try discriminate Hstep.
    destruct (nth_error _ _) as [document|]; [|discriminate Hstep].
    injection Hstep as <-. exact H.
  - destruct (Dashboard.screen st); try discriminate Hstep.
    destruct (Dashboard.loading st); try discriminate Hstep.
    destruct (nth_error _ _) as [document|]; [|discriminate Hstep].
    injection Hstep as <-. unfold Dashboard.deleteDocument. destruct error; exact H.
  - destruct (Dashboard.screen st); try discriminate Hstep.
    destruct (Dashboard.showPreview st); try discriminate Hstep.
    destruct (Dashboard.previewDocument st); try discriminate Hstep.
    injection Hstep as <-. exact H.
  - destruct (Dashboard.screen st); try discriminate Hstep. injection Hstep as <-.
    unfold Dashboard.onSave, Dashboard.fetchDocuments.
    destruct (Dashboard.error answer); reflexivity.
  - destruct (Dashboard.screen st); try discriminate Hstep. injection Hstep as <-.
    reflexivity.
Qed.

Lemma dashboard_run_signing (actions : list Dashboard.Action) :
  forall st st',
    Dashboard.run actions st = Some st' ->
    Dashboard.signing_unsigned st -> Dashboard.signing_unsigned st'.
Proof.
  induction actions as [|a actions IH]; intros st st' Hrun H; simpl in Hrun.
  - injection Hrun as <-. exact H.
  - destruct (Dashboard.step a st) as [st1|] eqn:E; [|discriminate Hrun].
    apply (IH st1 st' Hrun). apply (dashboard_step_signing _ _ _ E H).
Qed.

(** X22.  Whatever the user does in the dashboard, the editor is on screen
    only for a document that the list showed as unsigned when it was chosen;
    when the editor calls [onSave] or [onCancel] the dashboard leaves the
    editor, whatever the refreshed list holds. *)
Theorem dashboard_signs_unsigned_only (actions : list Dashboard.Action) (st : Dashboard.t) :
  Dashboard.run actions Dashboard.initial = Some st ->
  (forall document,
      Dashboard.screen st = Dashboard.EditorScreen document ->
      Document.status document = Document.unsigned)
  /\ (forall answer document,
         Dashboard.screen (snd (Dashboard.onSave answer st))
         <> Dashboard.EditorScreen document)
  /\ (forall document,
         Dashboard.screen (Dashboard.onCancel st) <> Dashboard.EditorScreen document).
Proof.
  intros Hrun.
  assert (H : Dashboard.signing_unsigned st)
    by (apply (dashboard_run_signing _ _ _ Hrun); reflexivity).
  split; [|split].
  - intros document. unfold Dashboard.screen, Dashboard.signing_unsigned in *.
    destruct (Dashboard.showUpload st); [discriminate|].
    destruct (Dashboard.showSignatureEditor st); [|discriminate].
    destruct (Dashboard.selectedDocument st) as [d|]; [|discriminate].
    intros E. injection E as <-. exact H.
  - intros answer document. unfold Dashboard.screen, Dashboard.onSave, Dashboard.fetchDocuments.
    destruct (Dashboard.error answer); simpl; destruct (Dashboard.showUpload st); discriminate.
  - intros document. unfold Dashboard.screen, Dashboard.onCancel. simpl.
    destruct (Dashboard.showUpload st); discriminate.
Qed.

Lemma dashboard_signs_unsigned_only_witness :
  exists st,
    Dashboard.run
      [Dashboard.Fetched (Dashboard.mkAnswer (Some [Scenario.document]) None);
       Dashboard.TypeSearch "CONTRACT"; Dashboard.ClickSign 0] Dashboard.initial = Some st
    /\ Dashboard.screen st = Dashboard.EditorScreen Scenario.document
    /\ Document.status Scenario.document = Document.unsigned.
Proof.
  eexists. split; [vm_compute; reflexivity|]. split; [reflexivity|].
  apply (proj1 (dashboard_signs_unsigned_only
                  [Dashboard.Fetched (Dashboard.mkAnswer (Some [Scenario.document]) None);
                   Dashboard.TypeSearch "CONTRACT"; Dashboard.ClickSign 0] _
                  ltac:(vm_compute; reflexivity))).
  reflexivity.
Defined.

(* ----------------------------------------------------------------- *)
(** ** The search box *)

Lemma lower_idempotent (c : ascii) : Str.lower (Str.lower c) = Str.lower c.
Proof.
  apply Ascii.eqb_eq.
  apply (forall_ascii_spec (fun c => Ascii.eqb (Str.lower (Str.lower c)) (Str.lower c))).
  vm_compute. reflexivity.
Qed.

Lemma toLowerCase_idempotent (s : string) :
  Str.toLowerCase (Str.toLowerCase s) = Str.toLowerCase s.
Proof.
  induction s as [|c s IH]; simpl; [reflexivity|]. rewrite lower_idempotent, IH. reflexivity.
Qed.

Lemma prefix_refl (s : string) : String.prefix s s = true.
Proof.
  induction s as [|c s IH]; simpl; [reflexivity|].
  destruct (ascii_dec c c); [exact IH | contradiction].
Qed.

Lemma includes_self (s : string) : Str.includes s s = true.
Proof. destruct s; cbn [Str.includes]; rewrite prefix_refl; reflexivity. Qed.

Lemma includes_empty (s : string) : Str.includes s "" = true.
Proof. destruct s; reflexivity. Qed.

Lemma filter_all {A : Type} (f : A -> bool) (l : list A) :
  (forall a, In a l -> f a = true) -> filter f l = l.
Proof.
  induction l as [|a l IH]; intros H; simpl; [reflexivity|].
  rewrite (H a (or_introl eq_refl)), IH; [reflexivity|].
  intros b Hb. apply H. right. exact Hb.
Qed.

(** X23.  The search of the dashboard lists, in the order of the list, the
    documents whose name contains the term, letters compared without regard
    to case: an empty term lists every document, a term and its lower-case
    form list the same documents, and a document is listed for its own name
    typed in any case. *)
Theorem search_ignores_case (st : Dashboard.t) :
  (Dashboard.searchTerm st = "" -> Dashboard.filteredDocuments st = Dashboard.documents st)
  /\ (forall term,
         Dashboard.filteredDocuments (Dashboard.setSearchTerm (Str.toLowerCase term) st)
         = Dashboard.filteredDocuments (Dashboard.setSearchTerm term st))
  /\ (forall document,
         In document (Dashboard.documents st) ->
         Str.toLowerCase (Dashboard.searchTerm st)
         = Str.toLowerCase (Document.name document) ->
         In document (Dashboard.filteredDocuments st))
  /\ (forall document,
         In document (Dashboard.filteredDocuments st) ->
         In document (Dashboard.documents st)
         /\ Str.includes (Str.toLowerCase (Document.name document))
                         (Str.toLowerCase (Dashboard.searchTerm st)) = true)
  /\ Str.toLowerCase "Contract (FINAL).PDF" = "contract (final).pdf".
Proof.
  unfold Dashboard.filteredDocuments. repeat split.
  - intros E. rewrite E. apply filter_all. intros a _. apply includes_empty.
  - intros term. simpl. rewrite toLowerCase_idempotent. reflexivity.
  - intros document Hin E. apply filter_In. split; [exact Hin|].
    rewrite E. apply includes_self.
  - apply filter_In in H. apply H.
  - apply filter_In in H. apply H.
Qed.

(* ================================================================= *)
(** * When the save succeeds *)

Lemma optionsOf_size (impl : Implementation) (overlayWidth overlayHeight : float)
  (page page' : PDF.PDFPage) (sig : Signature.t) (color : PDF.Color) (pdfFont : PDF.PDFFont) :
  PDF.width page' = PDF.width page -> PDF.height page' = PDF.height page ->
  optionsOf impl overlayWidth overlayHeight page' sig color pdfFont
  = optionsOf impl overlayWidth overlayHeight page sig color pdfFont.
Proof. intros W H. destruct impl; simpl; rewrite W, H; reflexivity. Qed.

Lemma getPage_returns (pdfDoc : PDF.PDFDocument) (index : Z) (page : PDF.PDFPage) :
  (0 <= index)%Z -> nth_error (PDF.pages pdfDoc) (Z.to_nat index) = Some page ->
  getPage pdfDoc index = ([], inr (Z.to_nat index, page)).
Proof.
  intros H0 Hp. unfold getPage.
  assert (Hlt : Z.to_nat index < List.length (PDF.pages pdfDoc)).
  { apply nth_error_Some. rewrite Hp. discriminate. }
  unfold PDF.getPageCount.
  destruct (index <? 0)%Z eqn:E1; [apply Z.ltb_lt in E1; lia|].
  destruct (Z.max 0 (Z.of_nat (List.length (PDF.pages pdfDoc)) - 1) <? index)%Z eqn:E2;
    [apply Z.ltb_lt in E2; lia|].
  simpl. rewrite Hp. reflexivity.
Qed.

Lemma drawText_returns (w : World.t) (pdfDoc : PDF.PDFDocument) (index : nat)
  (op : PDF.TextOp) :
  is_nan (PDF.size op) = false -> is_nan (PDF.x op) = false -> is_nan (PDF.y op) = false ->
  World.encodes w (PDF.font op) (PDF.text op) = true ->
  drawText w pdfDoc index op = ([], inr (PDF.appendOp pdfDoc index (PDF.drawn op))).
Proof. intros Hs Hx Hy He. unfold drawText. rewrite Hs, Hx, Hy, He. reflexivity. Qed.

(** A stampable signature is stamped, on any document that has the pages of
    the source at their sizes. *)
Lemma stamp_returns_when_stampable (impl : Implementation) (w : World.t)
  (overlayWidth overlayHeight : float) (pdf pdfDoc : PDF.PDFDocument) (sig : Signature.t) :
  stampable impl w overlayWidth overlayHeight pdf sig ->
  extends pdf pdfDoc ->
  exists t pdfDoc',
    stampOf impl w overlayWidth overlayHeight (PDF.Standard "Helvetica") pdfDoc sig
    = (t, inr pdfDoc').
Proof.
  intros (page0 & H1 & Hp0 & (color & Hc) & Hnan & Hfont) [_ Hext].
  destruct (Hext _ _ Hp0) as (page & Hp & W & Hh & _).
  rewrite stamp_steps, (getPage_returns pdfDoc (Signature.page sig - 1) page) by (lia || exact Hp).
  rewrite Hc.
  assert (Hdraw : forall pdfFont pdfDoc1,
             World.encodes w pdfFont (Signature.text sig) = true ->
             drawText w pdfDoc1 (Z.to_nat (Signature.page sig - 1))
               (optionsOf impl overlayWidth overlayHeight page sig color pdfFont)
             = ([], inr (PDF.appendOp pdfDoc1 (Z.to_nat (Signature.page sig - 1))
                           (expectedOp impl overlayWidth overlayHeight page sig color
                                       pdfFont)))).
  { intros pdfFont pdfDoc1 He. unfold expectedOp.
    rewrite (optionsOf_size impl overlayWidth overlayHeight page0 page sig color pdfFont W Hh).
    destruct (Hnan color pdfFont) as (Hs & Hx & Hy).
    apply drawText_returns; try assumption. destruct impl; exact He. }
  unfold resolveFont. destruct (FONT_FILE_MAP (Signature.font sig)) as [fontUrl|].
  - destruct Hfont as (response & Hf & Hk & He).
    unfold fetch. rewrite Hf. cbn [bind emit ret app].
    destruct impl; cbn [bind emit ret loggedOf app]; unfold embedFont; rewrite Hk;
      cbn [bind emit ret app]; rewrite (Hdraw _ _ He); eauto.
  - cbn [ret]. rewrite (Hdraw _ _ Hfont). eauto.
Qed.

Lemma loop_returns_when_stampable (impl : Implementation) (w : World.t)
  (overlayWidth overlayHeight : float) (pdf : PDF.PDFDocument) (sigs : list Signature.t) :
  Forall (stampable impl w overlayWidth overlayHeight pdf) sigs ->
  forall pdfDoc,
    extends pdf pdfDoc ->
    exists t pdfDoc',
      forOf (stampOf impl w overlayWidth overlayHeight (PDF.Standard "Helvetica")) pdfDoc sigs
      = (t, inr pdfDoc').
Proof.
  intros Hall. induction Hall as [|sig sigs Hs Hall IH]; intros pdfDoc Hext; simpl.
  - exists [], pdfDoc. reflexivity.
  - destruct (stamp_returns_when_stampable _ _ _ _ _ _ _ Hs Hext) as (t1 & pdfDoc1 & E1).
    rewrite E1. cbn [bind].
    destruct (IH pdfDoc1) as (t2 & pdfDoc2 & E2).
    { apply (extends_trans _ pdfDoc); [exact Hext|]. apply (stamp_extends _ _ _ _ _ _ _ _ _ E1). }
    rewrite E2. eauto.
Qed.

(** X26.  [handleSave] succeeds when nothing stands in its way: with at
    least one signature, the document served and parsed, every signature
    stampable on it (its page in the document, its colour accepted, what
    [FONT_FILE_MAP] has for its font served and accepted as a font, its text
    encoded by the font, its coordinates and size numbers), and storage and
    the record store accepting, the run is the request of the document, the
    requests and logs of the loop, the upload, the record update, the alert
    of success and [onSave]. *)
Theorem save_succeeds_when_nothing_fails (impl : Implementation) (w : World.t)
  (container : option DOMRect.t) (document : Document.t) (st : State.t)
  (response : Response.t) (pdf : PDF.PDFDocument) :
  State.signatures st <> [] ->
  World.fetch w (Document.original_url document) = Some response ->
  World.load w (Response.arrayBuffer response) = Some pdf ->
  Forall (stampable impl w (fst (overlaySize container)) (snd (overlaySize container)) pdf)
         (State.signatures st) ->
  (forall blob, World.upload w "documents" (signedPath document) blob = None) ->
  (forall fields, World.update w "documents" fields (Document.id document) = None) ->
  exists q pdfDoc,
    Forall quiet q
    /\ handleSaveOf impl w container document st
       = (Fetch (Document.original_url document)
            :: q ++ [StorageUpload "documents" (signedPath document)
                       (Blob.mk (World.save w pdfDoc) "application/pdf") true None;
                     DbUpdate "documents"
                       [("signed_url",
                         World.getPublicUrl w "documents" (signedPath document));
                        ("status", "signed")] (Document.id document) None;
                     Alert "Document signed and uploaded successfully!"; OnSave],
          inr tt).
Proof.
  intros Hne Hf Hl Hall Hu Hd.
  destruct (loop_returns_when_stampable impl w _ _ pdf _ Hall
              (snd (embedStandardFont pdf "Helvetica")))
    as (q & pdfDoc & Hloop).
  { apply extends_same_pages. reflexivity. }
  exists q, pdfDoc. split.
  - change q with (trace (q, @inr Exn PDF.PDFDocument pdfDoc)). rewrite <- Hloop.
    apply quiet_forOf. intros s sig. apply quiet_stamp.
  - rewrite handleSaveOf_pieces, handleSave_with_steps by exact Hne.
    cbv zeta. rewrite Hf, Hl, Hloop.
    unfold persist, storage_upload, db_update. fold (signedPath document).
    cbn [bind emit ret app trace fst]. rewrite Hu.
    cbn [bind emit ret app trace fst]. rewrite Hd. reflexivity.
Qed.

Lemma save_succeeds_when_nothing_fails_witness :
  exists q pdfDoc,
    Forall quiet q
    /\ handleSaveOf UnnamedPart3 (Scenario.world 2 []) (Scenario.overlay 500 600)
                    Scenario.document (Scenario.editing [Scenario.jane 2; Scenario.john])
       = (Fetch (Document.original_url Scenario.document)
            :: q ++ [StorageUpload "documents" (signedPath Scenario.document)
                       (Blob.mk (World.save (Scenario.world 2 []) pdfDoc) "application/pdf")
                       true None;
                     DbUpdate "documents"
                       [("signed_url",
                         World.getPublicUrl (Scenario.world 2 []) "documents"
                                            (signedPath Scenario.document));
                        ("status", "signed")] (Document.id Scenario.document) None;
                     Alert "Document signed and uploaded successfully!"; OnSave],
          inr tt).
Proof.
  apply (save_succeeds_when_nothing_fails UnnamedPart3 (Scenario.world 2 [])
           (Scenario.overlay 500 600) Scenario.document
           (Scenario.editing [Scenario.jane 2; Scenario.john])
           (Response.mk 200 [x25; x50; x44; x46]) (Scenario.source 2)).
  - discriminate.
  - reflexivity.
  - reflexivity.
  - repeat constructor; exists Scenario.letter;
      (split; [simpl; lia|]); (split; [reflexivity|]);
      (split; [eexists; vm_compute; reflexivity|]);
      (split; [intros color pdfFont; repeat split; vm_compute; reflexivity|]);
      exists (Response.mk 200 [x00; x01; x00; x00]); repeat split.
  - intros blob. reflexivity.
  - intros fields. reflexivity.
Defined.
